(** * GitHub project-board gateway: a shallow embedding of
      [src/github/operations/projects.ts] and of the project tool handlers of
      [src/github/index.ts].

    The TypeScript code is asynchronous but strictly sequential: every
    [await] is a blocking round trip.  An operation is therefore modelled as
    a state transformer over the remote world, the trace of dispatched
    requests and the console, returning either a thrown exception or a
    value. *)

From Stdlib Require Import ZArith List String Ascii Bool Lia.
From Stdlib Require Import DecimalString.
Import ListNotations.
Local Open Scope string_scope.
Local Open Scope Z_scope.
Set Warnings "-register-all".

(* ================================================================== *)
(** ** JavaScript values *)

(** The dynamically typed data the code moves around: parsed JSON bodies,
    variable maps, request bodies.  Numbers are the integers (every number
    the claims speak about is a count, an id or a project number; fractions,
    [NaN] and the infinities are outside the model); objects are property
    lists in insertion order, read by first match. *)
Inductive value : Type :=
| VUndefined
| VNull
| VBool (b : bool)
| VNum (n : Z)
| VStr (s : string)
| VArr (items : list value)
| VObj (props : list (string * value)).

Fixpoint assoc {A : Type} (k : string) (ps : list (string * A)) : option A :=
  match ps with
  | [] => None
  | (k', v) :: rest => if String.eqb k k' then Some v else assoc k rest
  end.

(** [key in obj] *)
Definition has_key {A : Type} (k : string) (ps : list (string * A)) : bool :=
  match assoc k ps with Some _ => true | None => false end.

(** [obj[key]] on a property list: [undefined] when the key is absent. *)
Definition prop (ps : list (string * value)) (k : string) : value :=
  match assoc k ps with Some v => v | None => VUndefined end.

(** JavaScript truthiness, as used by [if (x)] and [!x]. *)
Definition truthy (v : value) : bool :=
  match v with
  | VUndefined | VNull => false
  | VBool b => b
  | VNum n => negb (n =? 0)
  | VStr s => negb (String.eqb s "")
  | VArr _ | VObj _ => true
  end.

(** [v.length > 0] *)
Definition length_positive (v : value) : bool :=
  match v with
  | VArr items => 0 <? Z.of_nat (List.length items)
  | VStr s => 0 <? Z.of_nat (String.length s)
  | _ => false
  end.

(** [v[i]] on an array. *)
Definition index (v : value) (i : nat) : value :=
  match v with
  | VArr items => nth i items VUndefined
  | _ => VUndefined
  end.

(** [v === null || v === undefined] *)
Definition is_nullish (v : value) : bool :=
  match v with VUndefined | VNull => true | _ => false end.

(** [x ?? d] *)
Definition nullish_or {A : Type} (x : option A) (d : A) : A :=
  match x with Some a => a | None => d end.

(** An optional input field as the JavaScript value the code reads. *)
Definition of_opt {A : Type} (inj : A -> value) (x : option A) : value :=
  match x with Some a => inj a | None => VUndefined end.

(** [Number.MAX_SAFE_INTEGER], 2^53 - 1. *)
Definition MAX_SAFE_INTEGER : Z := 9007199254740991.

(** [Number.isSafeInteger(n)] on an integer: the integers a JavaScript
    number holds exactly. *)
Definition safe_integer (n : Z) : bool := Z.abs n <=? MAX_SAFE_INTEGER.

(** [n.toString()] and [`${n}`] on a safe integer: its decimal digits.
    Past the safe integers JavaScript prints rounded digits, and an exponent
    from 1e21 on; there the digits below are the integer's own and not
    JavaScript's. *)
Definition string_of_Z (n : Z) : string :=
  NilZero.string_of_int (Z.to_int n).

(* ------------------------------------------------------------------ *)
(** *** [JSON.stringify] *)

Definition dquote : string := String (ascii_of_nat 34) "".
Definition newline : string := String (ascii_of_nat 10) "".

Definition hex_digit (n : nat) : string :=
  String (nth n ["0"; "1"; "2"; "3"; "4"; "5"; "6"; "7"; "8"; "9";
                 "a"; "b"; "c"; "d"; "e"; "f"]%char "0"%char) "".

(** One character of [QuoteJSONString]. *)
Definition escape_char (c : ascii) : string :=
  let n := nat_of_ascii c in
  if Nat.eqb n 8 then "\b"
  else if Nat.eqb n 9 then "\t"
  else if Nat.eqb n 10 then "\n"
  else if Nat.eqb n 12 then "\f"
  else if Nat.eqb n 13 then "\r"
  else if Nat.eqb n 34 then "\" ++ dquote
  else if Nat.eqb n 92 then "\\"
  else if Nat.ltb n 32 then "\u00" ++ hex_digit (n / 16) ++ hex_digit (n mod 16)
  else String c "".

Fixpoint escape (s : string) : string :=
  match s with
  | EmptyString => EmptyString
  | String c rest => escape_char c ++ escape rest
  end.

Definition quote (s : string) : string := dquote ++ escape s ++ dquote.

Definition hex_value (c : ascii) : nat :=
  let n := nat_of_ascii c in
  if Nat.leb 97 n then n - 87 else n - 48.

(** Reading back one escaped character from the front of a text: the
    inverse of [escape_char], used to show that quoting loses nothing. *)
Definition unescape_char (s : string) : option (ascii * string) :=
  match s with
  | EmptyString => None
  | String c rest =>
      if Nat.eqb (nat_of_ascii c) 92 then
        match rest with
        | String "b" r => Some (ascii_of_nat 8, r)
        | String "t" r => Some (ascii_of_nat 9, r)
        | String "n" r => Some (ascii_of_nat 10, r)
        | String "f" r => Some (ascii_of_nat 12, r)
        | String "r" r => Some (ascii_of_nat 13, r)
        | String "u" (String _ (String _ (String x (String y r)))) =>
            Some (ascii_of_nat (16 * hex_value x + hex_value y), r)
        | String e r => Some (e, r)
        | EmptyString => None
        end
      else Some (c, rest)
  end.

Fixpoint join (sep : string) (parts : list string) : string :=
  match parts with
  | [] => ""
  | [p] => p
  | p :: rest => p ++ sep ++ join sep rest
  end.

(** [SerializeJSONObject] / [SerializeJSONArray] once the members are
    rendered. *)
Definition wrap (open close gap stepback indent : string)
    (parts : list string) : string :=
  match parts with
  | [] => open ++ close
  | _ =>
      if String.eqb gap ""
      then open ++ join "," parts ++ close
      else open ++ newline ++ indent ++ join ("," ++ newline ++ indent) parts
                ++ newline ++ stepback ++ close
  end.

(** [SerializeJSONProperty]: [None] is JavaScript's [undefined] result.
    An [undefined] member is skipped in an object and rendered [null] in an
    array. *)
Fixpoint serialize (gap indent : string) (v : value) : option string :=
  match v with
  | VUndefined => None
  | VNull => Some "null"
  | VBool true => Some "true"
  | VBool false => Some "false"
  | VNum n => Some (string_of_Z n)
  | VStr s => Some (quote s)
  | VArr items =>
      let inner := indent ++ gap in
      Some (wrap "[" "]" gap indent inner
              (map (fun x => match serialize gap inner x with
                             | Some s => s
                             | None => "null"
                             end) items))
  | VObj props =>
      let inner := indent ++ gap in
      Some (wrap "{" "}" gap indent inner
              ((fix members (ps : list (string * value)) : list string :=
                  match ps with
                  | [] => []
                  | (k, x) :: rest =>
                      match serialize gap inner x with
                      | Some s =>
                          (quote k ++ (if String.eqb gap "" then ":" else ": ") ++ s)
                            :: members rest
                      | None => members rest
                      end
                  end) props))
  end.

(** [JSON.stringify(v)] *)
Definition JSON_stringify (v : value) : option string := serialize "" "" v.

(** [JSON.stringify(v, null, 2)] *)
Definition JSON_stringify2 (v : value) : option string := serialize "  " "" v.

(** A [string | undefined] result read back as a value. *)
Definition of_string_opt (s : option string) : value := of_opt VStr s.

(** Template-literal conversion [`${v}`] for the values the code
    interpolates (strings and numbers); the other cases follow
    [String(v)] on primitives. *)
Fixpoint to_text (v : value) : string :=
  match v with
  | VUndefined => "undefined"
  | VNull => "null"
  | VBool true => "true"
  | VBool false => "false"
  | VNum n => string_of_Z n
  | VStr s => s
  | VArr items =>
      join "," (map (fun x => match x with
                              | VUndefined | VNull => ""
                              | _ => to_text x
                              end) items)
  | VObj _ => "[object Object]"
  end.


(* ================================================================== *)
(** ** Requests and the external collaborators *)

(** The options object handed to [githubRequest]. *)
Record RequestOptions : Type := {
  method : option string;
  headers : list (string * string);
  body : option value
}.

(** One outbound call: [githubRequest(url, options)]. *)
Record Request : Type := {
  url : string;
  options : RequestOptions
}.

(* ================================================================== *)
(** ** Zod schemas *)

(** The schema combinators the file uses.  [describe] adds documentation
    only and is left out; [ZObject] is Zod's default object, which drops
    the keys its shape does not name. *)
Inductive schema : Type :=
| ZString
| ZDatetime
| ZNumber
| ZBoolean
| ZNull
| ZUnknown
| ZLiteral (lit : string)
| ZEnum (alternatives : list string)
| ZArray (element : schema)
| ZObject (shape : list (string * schema))
| ZRecord (element : schema)
| ZOptional (inner : schema)
| ZNullable (inner : schema)
| ZUnion (members : list schema).

(** What the operations import and do not define: [githubRequest] and
    [buildUrl] of [../common/utils.js], the error classes of
    [../common/errors.js] that [index.ts] tests and formats, and the
    date-time check of [z.string().datetime()] and the issue list of a
    [ZodError].  The remote platform is a state machine [World]; a call
    either throws or yields the parsed response body. *)
Class Env : Type := {
  World : Type;
  Thrown : Type;
  remote : Request -> World -> (Thrown + value) * World;
  buildUrl : string -> list (string * option string) -> string;
  isGitHubError : Thrown -> bool;
  formatGitHubError : Thrown -> string;
  datetime : string -> bool;
  zodIssues : schema -> value -> value
}.

Fixpoint mem_string (x : string) (l : list string) : bool :=
  match l with
  | [] => false
  | y :: rest => String.eqb x y || mem_string x rest
  end.

(** Parse every element, failing when one fails. *)
Fixpoint all_some {A B : Type} (f : A -> option B) (l : list A) : option (list B) :=
  match l with
  | [] => Some []
  | x :: rest =>
      match f x, all_some f rest with
      | Some y, Some ys => Some (y :: ys)
      | _, _ => None
      end
  end.

Definition is_undefined (v : value) : bool :=
  match v with VUndefined => true | _ => false end.

Section Parse.
Context {E : Env}.

(** [schema.safeParse(v)]: [Some] of the parsed output or [None] when the
    value is refused.  An object keeps, in shape order, the keys that are
    present in the input or parse to something defined. *)
Fixpoint parse (s : schema) (v : value) {struct s} : option value :=
  match s with
  | ZString => match v with VStr _ => Some v | _ => None end
  | ZDatetime =>
      match v with
      | VStr x => if datetime x then Some v else None
      | _ => None
      end
  | ZNumber => match v with VNum _ => Some v | _ => None end
  | ZBoolean => match v with VBool _ => Some v | _ => None end
  | ZNull => match v with VNull => Some v | _ => None end
  | ZUnknown => Some v
  | ZLiteral lit =>
      match v with
      | VStr x => if String.eqb x lit then Some v else None
      | _ => None
      end
  | ZEnum alternatives =>
      match v with
      | VStr x => if mem_string x alternatives then Some v else None
      | _ => None
      end
  | ZArray element =>
      match v with
      | VArr items => option_map VArr (all_some (parse element) items)
      | _ => None
      end
  | ZObject shape =>
      match v with
      | VObj props =>
          option_map VObj
            ((fix fields (sh : list (string * schema))
                : option (list (string * value)) :=
                match sh with
                | [] => Some []
                | (k, sk) :: rest =>
                    match parse sk (prop props k), fields rest with
                    | Some x, Some out =>
                        if negb (is_undefined x) || has_key k props
                        then Some ((k, x) :: out)
                        else Some out
                    | _, _ => None
                    end
                end) shape)
      | _ => None
      end
  | ZRecord element =>
      match v with
      | VObj props =>
          option_map VObj
            (all_some (fun kv => option_map (pair (fst kv)) (parse element (snd kv)))
                      props)
      | _ => None
      end
  | ZOptional inner =>
      match v with
      | VUndefined => Some VUndefined
      | _ => parse inner v
      end
  | ZNullable inner =>
      match v with
      | VNull => Some VNull
      | _ => parse inner v
      end
  | ZUnion members =>
      (fix first (ms : list schema) : option value :=
         match ms with
         | [] => None
         | m :: rest =>
             match parse m v with
             | Some x => Some x
             | None => first rest
             end
         end) members
  end.

End Parse.

(** Zod's [getParsedType] on the values of the model. *)
Definition getParsedType (v : value) : string :=
  match v with
  | VUndefined => "undefined"
  | VNull => "null"
  | VBool _ => "boolean"
  | VNum _ => "number"
  | VStr _ => "string"
  | VArr _ => "array"
  | VObj _ => "object"
  end.

(** The issue Zod raises at the top of a value of the wrong type: the
    expected and the received type, an empty path and the default message. *)
Definition invalid_type (expected received : string) : value :=
  VObj [("code", VStr "invalid_type");
        ("expected", VStr expected);
        ("received", VStr received);
        ("path", VArr []);
        ("message", VStr (if String.eqb received "undefined"
                          then "Required"
                          else "Expected " ++ expected ++ ", received " ++ received))].

(** [base.extend(more)]: the keys of [more] replace those of [base] in
    place and the new ones follow. *)
Definition extend (base more : list (string * schema)) : list (string * schema) :=
  map (fun kv => match assoc (fst kv) more with
                 | Some s => (fst kv, s)
                 | None => kv
                 end) base
  ++ filter (fun kv => negb (has_key (fst kv) base)) more.

(* ------------------------------------------------------------------ *)
(** *** The GraphQL envelope *)

Definition GraphQLErrorSchema : schema :=
  ZObject [
    ("message", ZString);
    ("locations", ZOptional (ZArray (ZObject [("line", ZNumber); ("column", ZNumber)])));
    ("path", ZOptional (ZArray (ZUnion [ZString; ZNumber])));
    ("extensions", ZOptional (ZRecord ZUnknown))
  ].

Definition GraphQLResponseSchema : schema :=
  ZObject [
    ("data", ZNullable (ZRecord ZUnknown));
    ("errors", ZOptional (ZArray GraphQLErrorSchema))
  ].

(* ------------------------------------------------------------------ *)
(** *** Projects V2 output schemas *)

Definition GitHubProjectV2Schema : schema :=
  ZObject [
    ("id", ZString);
    ("title", ZString);
    ("number", ZNumber);
    ("url", ZString);
    ("closed", ZBoolean);
    ("public", ZBoolean);
    ("readme", ZNullable ZString);
    ("createdAt", ZDatetime);
    ("updatedAt", ZDatetime);
    ("creator", ZNullable (ZObject [
        ("login", ZString);
        ("url", ZString);
        ("avatarUrl", ZOptional ZString)
      ]));
    ("owner", ZObject [("id", ZString)])
  ].

Definition PageInfoSchema : schema :=
  ZObject [
    ("endCursor", ZNullable ZString);
    ("hasNextPage", ZBoolean);
    ("hasPreviousPage", ZBoolean);
    ("startCursor", ZNullable ZString)
  ].

Definition ProjectV2ConnectionSchema : schema :=
  ZObject [
    ("nodes", ZNullable (ZArray GitHubProjectV2Schema));
    ("pageInfo", PageInfoSchema);
    ("totalCount", ZNumber)
  ].

Definition ProjectV2FieldCommonShape : list (string * schema) :=
  [ ("id", ZString);
    ("name", ZString);
    ("dataType", ZEnum ["TEXT"; "NUMBER"; "DATE"; "SINGLE_SELECT"; "ITERATION"; "ASSIGNEES"]);
    ("createdAt", ZDatetime);
    ("updatedAt", ZDatetime) ].

Definition ProjectV2FieldCommonSchema : schema := ZObject ProjectV2FieldCommonShape.

Definition ProjectV2SingleSelectFieldOptionSchema : schema :=
  ZObject [("id", ZString); ("name", ZString)].

Definition ProjectV2SingleSelectFieldSchema : schema :=
  ZObject (extend ProjectV2FieldCommonShape [
    ("dataType", ZLiteral "SINGLE_SELECT");
    ("options", ZArray ProjectV2SingleSelectFieldOptionSchema)
  ]).

Definition ProjectV2FieldSchema : schema :=
  ZUnion [ProjectV2SingleSelectFieldSchema; ProjectV2FieldCommonSchema].

Definition ProjectV2FieldConnectionSchema : schema :=
  ZObject [
    ("nodes", ZNullable (ZArray ProjectV2FieldSchema));
    ("pageInfo", PageInfoSchema);
    ("totalCount", ZNumber)
  ].

Definition ProjectV2ItemSchema : schema :=
  ZObject [
    ("id", ZString);
    ("createdAt", ZDatetime);
    ("updatedAt", ZDatetime);
    ("isArchived", ZBoolean);
    ("project", ZObject [("id", ZString); ("title", ZString); ("number", ZNumber)]);
    ("type", ZEnum ["ISSUE"; "PULL_REQUEST"; "DRAFT_ISSUE"]);
    ("fieldValues", ZOptional (ZObject [
        ("nodes", ZNullable (ZArray (ZObject [
            ("field", ZObject [("id", ZString); ("name", ZString)]);
            ("value", ZOptional ZUnknown)
          ])));
        ("totalCount", ZNumber)
      ]));
    ("content", ZOptional (ZUnion [
        ZObject [
          ("__typename", ZLiteral "Issue");
          ("id", ZString);
          ("number", ZNumber);
          ("title", ZString);
          ("url", ZString);
          ("state", ZString)
        ];
        ZObject [
          ("__typename", ZLiteral "PullRequest");
          ("id", ZString);
          ("number", ZNumber);
          ("title", ZString);
          ("url", ZString);
          ("state", ZString)
        ];
        ZObject [
          ("__typename", ZLiteral "DraftIssue");
          ("id", ZString);
          ("title", ZString);
          ("body", ZString)
        ];
        ZNull
      ]))
  ].

Definition ProjectV2ItemConnectionSchema : schema :=
  ZObject [
    ("nodes", ZNullable (ZArray ProjectV2ItemSchema));
    ("pageInfo", PageInfoSchema);
    ("totalCount", ZNumber)
  ].

(* ------------------------------------------------------------------ *)
(** *** Classic project schemas *)

Definition CreatorSchema : schema :=
  ZObject [
    ("login", ZString);
    ("id", ZNumber);
    ("avatar_url", ZString);
    ("url", ZString);
    ("html_url", ZString)
  ].

Definition GitHubProjectSchema : schema :=
  ZObject [
    ("id", ZNumber);
    ("node_id", ZString);
    ("url", ZString);
    ("html_url", ZString);
    ("columns_url", ZString);
    ("name", ZString);
    ("body", ZNullable ZString);
    ("number", ZNumber);
    ("state", ZEnum ["open"; "closed"]);
    ("creator", CreatorSchema);
    ("created_at", ZString);
    ("updated_at", ZString)
  ].

Definition GitHubProjectColumnSchema : schema :=
  ZObject [
    ("id", ZNumber);
    ("node_id", ZString);
    ("url", ZString);
    ("project_url", ZString);
    ("cards_url", ZString);
    ("name", ZString);
    ("created_at", ZString);
    ("updated_at", ZString)
  ].

Definition GitHubProjectCardSchema : schema :=
  ZObject [
    ("id", ZNumber);
    ("node_id", ZString);
    ("url", ZString);
    ("column_url", ZString);
    ("content_url", ZNullable ZString);
    ("project_url", ZString);
    ("creator", CreatorSchema);
    ("created_at", ZString);
    ("updated_at", ZString);
    ("note", ZNullable ZString);
    ("archived", ZBoolean)
  ].

(** The input contract of the [move_project_card] tool. *)
Definition MoveProjectCardSchema : schema :=
  ZObject [
    ("owner", ZString);
    ("repo", ZString);
    ("project_number", ZNumber);
    ("card_id", ZNumber);
    ("position", ZEnum ["top"; "bottom"; "after:<card_id>"]);
    ("column_id", ZOptional ZNumber)
  ].

(* ================================================================== *)
(** ** GraphQL documents *)

(** The query and mutation texts, character for character. *)

Definition LIST_ORG_PROJECTS_V2_QUERY : string :=
  "
  query ListOrgProjectsV2($orgLogin: String!, $first: Int, $after: String) {
    organization(login: $orgLogin) {
      projectsV2(first: $first, after: $after, orderBy: {field: UPDATED_AT, direction: DESC}) {
        nodes {
          id
          title
          number
          url
          closed
          public
          readme
          createdAt
          updatedAt
          creator {
            login
            url
            ... on User { avatarUrl }
          }
          owner {
            id
          }
        }
        pageInfo {
          endCursor
          hasNextPage
          hasPreviousPage
          startCursor
        }
        totalCount
      }
    }
  }
".

Definition CREATE_ORG_PROJECT_V2_MUTATION : string :=
  "
  mutation CreateOrgProjectV2($organizationId: ID!, $title: String!) {
    createProjectV2(input: {ownerId: $organizationId, title: $title}) {
      projectV2 {
        id
        title
        number
        url
        closed
        public
        readme
        createdAt
        updatedAt
        creator {
            login
            url
            ... on User { avatarUrl }
          }
        owner {
          id
        }
      }
    }
  }
".

Definition LIST_REPO_PROJECTS_V2_QUERY : string :=
  "
  query ListRepoProjectsV2($ownerLogin: String!, $repoName: String!, $first: Int, $after: String) {
    repository(owner: $ownerLogin, name: $repoName) {
      projectsV2(first: $first, after: $after, orderBy: {field: UPDATED_AT, direction: DESC}) {
        nodes {
          id
          title
          number
          url
          closed
          public
          readme
          createdAt
          updatedAt
          creator {
            login
            url
            ... on User { avatarUrl }
          }
          owner {
            id
          }
        }
        pageInfo {
          endCursor
          hasNextPage
          hasPreviousPage
          startCursor
        }
        totalCount
      }
    }
  }
".

Definition CREATE_REPO_PROJECT_V2_MUTATION : string :=
  "
  mutation CreateRepoProjectV2($ownerId: ID!, $repositoryId: ID!, $title: String!) {
    createProjectV2(input: {ownerId: $ownerId, repositoryId: $repositoryId, title: $title}) {
      projectV2 {
        id
        title
        number
        url
        closed
        public
        readme
        createdAt
        updatedAt
        creator {
          login
          url
          ... on User { avatarUrl }
        }
        owner {
          id
        }
      }
    }
  }
".

Definition GET_PROJECT_V2_QUERY : string :=
  "
  query GetProjectV2($projectId: ID!) {
    node(id: $projectId) {
      ... on ProjectV2 {
        id
        title
        number
        url
        closed
        public
        readme
        createdAt
        updatedAt
        creator {
          login
          url
          ... on User { avatarUrl }
        }
        owner {
          id
        }
        # Add fields, items, views connection here if needed later
      }
    }
  }
".

Definition UPDATE_PROJECT_V2_MUTATION : string :=
  "
  mutation UpdateProjectV2(
    $projectId: ID!
    $title: String
    $readme: String
    $closed: Boolean
    # $public: Boolean - Add if needed
  ) {
    updateProjectV2(input: {
      projectId: $projectId
      title: $title
      readme: $readme
      closed: $closed
      # public: $public
    }) {
      projectV2 {
        id
        title
        number
        url
        closed
        public
        readme
        createdAt
        updatedAt
        # Return updated fields
      }
    }
  }
".

Definition DELETE_PROJECT_V2_MUTATION : string :=
  "
  mutation DeleteProjectV2($projectId: ID!) {
    deleteProjectV2(input: {projectId: $projectId}) {
      clientMutationId # Or projectV2 { id } - confirmation field
    }
  }
".

Definition LIST_PROJECT_FIELDS_QUERY : string :=
  "
  query ListProjectFieldsV2($projectId: ID!, $first: Int, $after: String) {
    node(id: $projectId) {
      ... on ProjectV2 {
        fields(first: $first, after: $after) {
          totalCount
          pageInfo {
            endCursor
            hasNextPage
          }
          nodes {
            __typename
            ... on ProjectV2Field {
              id
              name
              dataType
              createdAt
              updatedAt
            }
            ... on ProjectV2IterationField {
              id
              name
              dataType
              createdAt
              updatedAt
              configuration {
                iterations {
                  id
                  title
                  startDate
                  duration
                }
                # completedIterations { ... }
                # durationUnit
                # startDay
              }
            }
            ... on ProjectV2SingleSelectField {
              id
              name
              dataType
              createdAt
              updatedAt
              options {
                id
                name
              }
            }
            # Add fragments for other specific field types if needed
          }
        }
      }
    }
  }
".

Definition LIST_PROJECT_ITEMS_QUERY : string :=
  "
  query ListProjectItemsV2($projectId: ID!, $first: Int, $after: String) {
    node(id: $projectId) {
      ... on ProjectV2 {
        items(first: $first, after: $after, orderBy: {field: POSITION, direction: ASC}) {
          totalCount
          pageInfo {
            endCursor
            hasNextPage
          }
          nodes {
            id
            createdAt
            updatedAt
            isArchived
            type
            project { id title number }
            # Include content or fieldValues here if always needed
            # Example: Fetching Status field value by name
            # fieldValueByName(name: " ++ dquote ++ "Status" ++ dquote ++ ") {
            #   ... on ProjectV2ItemFieldSingleSelectValue {
            #     name # Option name
            #     optionId
            #   }
            # }
            content {
              __typename
              ... on DraftIssue {
                id title body
              }
              ... on Issue {
                id number title url state
              }
              ... on PullRequest {
                id number title url state
              }
            }
          }
        }
      }
    }
  }
".

Definition ADD_PROJECT_DRAFT_ISSUE_MUTATION : string :=
  "
  mutation AddDraftIssue($projectId: ID!, $title: String!, $body: String) {
    addProjectV2DraftIssue(input: {projectId: $projectId, title: $title, body: $body}) {
      projectItem {
        id
        # Include fields from ProjectV2ItemSchema if needed upon creation
      }
    }
  }
".

Definition ADD_PROJECT_ITEM_BY_ID_MUTATION : string :=
  "
  mutation AddItemById($projectId: ID!, $contentId: ID!) {
    addProjectV2ItemById(input: {projectId: $projectId, contentId: $contentId}) {
      item {
        id
        # Include fields from ProjectV2ItemSchema if needed upon creation
      }
    }
  }
".

Definition UPDATE_PROJECT_ITEM_FIELD_MUTATION : string :=
  "
  mutation UpdateItemFieldValue(
    $projectId: ID!
    $itemId: ID!
    $fieldId: ID!
    $value: ProjectV2FieldValue! # This input type covers all value possibilities
  ) {
    updateProjectV2ItemFieldValue(input: {
      projectId: $projectId
      itemId: $itemId
      fieldId: $fieldId
      value: $value
    }) {
      projectV2Item {
        id
        # Optionally refetch the updated field value
        # fieldValueByName(name: " ++ dquote ++ "Status" ++ dquote ++ ") { ... } # Replace " ++ dquote ++ "Status" ++ dquote ++ " with actual field name or query by ID
      }
    }
  }
".

Definition DELETE_PROJECT_ITEM_MUTATION : string :=
  "
  mutation DeleteItem($projectId: ID!, $itemId: ID!) {
    deleteProjectV2Item(input: {projectId: $projectId, itemId: $itemId}) {
      deletedItemId
    }
  }
".

(** The inline documents of the three identifier resolvers. *)
Definition GET_ORG_ID_QUERY : string :=
  "query GetOrgId($login: String!) { organization(login: $login) { id } }".

Definition GET_REPO_ID_QUERY : string :=
  "query GetRepoId($owner: String!, $name: String!) { repository(owner: $owner, name: $name) { id } }".

Definition GET_REPO_OWNER_ID_QUERY : string :=
  "query GetRepoOwnerId($login: String!) { repositoryOwner(login: $login) { id } }".

(* ================================================================== *)
(** ** Effects: exceptions, the request trace and the console *)

(** One argument of a [console.error] / [console.warn] call: a text, or a
    [ZodError], of which the console shows the issue list.  The issues name
    what was expected and the type of what was received; they do not hold
    the refused value. *)
Inductive console_arg : Type :=
| CText (text : string)
| CZodError (issues : value).

Inductive console_level : Type := LError | LWarn.

Section Effects.
Context {E : Env}.

(** What an operation can throw. *)
Inductive exn : Type :=
| Error (message : string)                (* new Error(message) *)
| TypeError (base : value) (key : string) (* reading [key] of null or undefined *)
| ZodError (s : schema) (input : value)   (* schema.parse(input) refused *)
| Raised (e : Thrown).                    (* thrown by githubRequest *)

Record State : Type := {
  world : World;
  trace : list Request;
  console : list (console_level * list console_arg)
}.

Definition M (A : Type) : Type := State -> (exn + A) * State.

Definition ret {A : Type} (a : A) : M A := fun st => (inr a, st).

Definition throw {A : Type} (e : exn) : M A := fun st => (inl e, st).

Definition bind {A B : Type} (m : M A) (k : A -> M B) : M B :=
  fun st =>
    match m st with
    | (inl e, st') => (inl e, st')
    | (inr a, st') => k a st'
    end.

(** [try { m } catch (error) { h error }] *)
Definition try_catch {A : Type} (m : M A) (h : exn -> M A) : M A :=
  fun st =>
    match m st with
    | (inl e, st') => h e st'
    | (inr a, st') => (inr a, st')
    end.

(** [await githubRequest(url, options)]: the call is recorded, then the
    remote answers or throws. *)
Definition githubRequest (u : string) (o : RequestOptions) : M value :=
  fun st =>
    let r := {| url := u; options := o |} in
    let (answer, w) := remote r (world st) in
    (match answer with
     | inl e => inl (Raised e)
     | inr v => inr v
     end,
     {| world := w; trace := trace st ++ [r]; console := console st |}).

Definition console_log (l : console_level) (args : list console_arg) : M unit :=
  fun st =>
    (inr tt,
     {| world := world st; trace := trace st;
        console := console st ++ [(l, args)] |}).

(** [schema.parse(v)] *)
Definition zparse (s : schema) (v : value) : M value :=
  match parse s v with
  | Some x => ret x
  | None => throw (ZodError s v)
  end.

(** [v.key] *)
Definition member (v : value) (k : string) : M value :=
  match v with
  | VUndefined | VNull => throw (TypeError v k)
  | VObj props => ret (prop props k)
  | _ => ret VUndefined
  end.

(** *** Vocabulary for statements about runs *)

(** The state right after a call was dispatched and answered. *)
Definition sent (st : State) (r : Request) (w : World) : State :=
  {| world := w; trace := trace st ++ [r]; console := console st |}.

Definition logged (st : State) (l : console_level) (args : list console_arg) : State :=
  {| world := world st; trace := trace st; console := console st ++ [(l, args)] |}.

(** An action that dispatches nothing. *)
Definition quiet {A : Type} (m : M A) : Prop :=
  forall st, trace (snd (m st)) = trace st.

(** Everything [m] dispatches satisfies [P]. *)
Definition emits (P : Request -> Prop) {A : Type} (m : M A) : Prop :=
  forall st, exists l, trace (snd (m st)) = (trace st ++ l)%list /\ Forall P l.

(** As [emits], and [m] dispatches at least one request. *)
Definition emits_some (P : Request -> Prop) {A : Type} (m : M A) : Prop :=
  forall st, exists l,
    trace (snd (m st)) = (trace st ++ l)%list /\ Forall P l /\ l <> [].

(** A value that came out of [s.parse]. *)
Definition passed (s : schema) (v : value) : Prop :=
  exists raw, parse s raw = Some v.

(** Every value [m] returns came out of [s.parse]. *)
Definition validated (s : schema) (m : M value) : Prop :=
  forall st v st', m st = (inr v, st') -> passed s v.

End Effects.

Declare Scope gateway_scope.
Delimit Scope gateway_scope with gateway.
Notation "x <- m ;; k" := (bind m (fun x => k))
  (at level 61, m at next level, right associativity) : gateway_scope.
Notation "m ;;; k" := (bind m (fun _ => k))
  (at level 61, right associativity) : gateway_scope.
Local Open Scope gateway_scope.

(* ================================================================== *)
(** ** The GraphQL helper *)

Section GraphQL.
Context {E : Env}.

Definition GRAPHQL_URL : string := "https://api.github.com/graphql".

(** The request [githubGraphQLRequest] sends for a document and its
    variables. *)
Definition graphql_request (query : string) (variables : value) : Request :=
  {| url := GRAPHQL_URL;
     options :=
       {| method := Some "POST";
          headers := [("Content-Type", "application/json")];
          body := Some (of_string_opt
                          (JSON_stringify
                             (VObj [("query", VStr query); ("variables", variables)]))) |} |}.

(** A request that carries the document [query], with whatever
    variables. *)
Definition sends_document (query : string) (r : Request) : Prop :=
  exists variables, r = graphql_request query variables.

Definition PARSE_FAILURE_PREFIX : string :=
  "Failed to parse GraphQL response. Raw response: ".

Definition NULL_DATA_MESSAGE : string :=
  "GraphQL query returned null data. Check query validity and permissions.".

(** The issue list of [parsedResponse.error].  A body that is not an object
    is refused at the top with a single [invalid_type] issue; for an object
    the issues are those of its members. *)
Definition envelope_issues (response : value) : value :=
  match response with
  | VObj _ => zodIssues GraphQLResponseSchema response
  | other => VArr [invalid_type "object" (getParsedType other)]
  end.

(** The [responseDetails] of the parse-failure branch. *)
Definition responseDetails (response : value) : string :=
  match response with
  | VObj _ | VArr _ => to_text (of_string_opt (JSON_stringify2 response))
  | VStr s => s
  | _ => "Invalid response structure."
  end.

Definition githubGraphQLRequest (query : string) (variables : value) : M value :=
  response <- githubRequest (url (graphql_request query variables))
                            (options (graphql_request query variables)) ;;
  match parse GraphQLResponseSchema response with
  | None =>
      console_log LError [CText "Failed to parse GraphQL response:";
                          CZodError (envelope_issues response)] ;;;
      throw (Error (PARSE_FAILURE_PREFIX ++ responseDetails response))
  | Some parsed =>
      errors <- member parsed "errors" ;;
      if truthy errors && length_positive errors
      then
        console_log LError [CText "GraphQL Errors:";
                            CText (to_text (of_string_opt (JSON_stringify2 errors)))] ;;;
        message <- member (index errors 0) "message" ;;
        throw (Error ("GraphQL Error: " ++ to_text message))
      else
        data <- member parsed "data" ;;
        match data with
        | VNull | VUndefined =>
            console_log LError
              [CText "GraphQL response data is null/undefined, Full Response:";
               CText (to_text (of_string_opt (JSON_stringify2 parsed)))] ;;;
            throw (Error NULL_DATA_MESSAGE)
        | _ => ret data
        end
  end.

End GraphQL.

(* ================================================================== *)
(** ** Projects V2 operations (GraphQL) *)

Record ListOrgProjectsV2Options : Type := {
  lo_orgLogin : string;
  lo_first : option Z;
  lo_after : option string
}.

Record CreateOrgProjectV2Options : Type := {
  co_orgLogin : string;
  co_title : string
}.

Record ListRepoProjectsV2Options : Type := {
  lr_ownerLogin : string;
  lr_repoName : string;
  lr_first : option Z;
  lr_after : option string
}.

Record CreateRepoProjectV2Options : Type := {
  cr_ownerLogin : string;
  cr_repoName : string;
  cr_title : string
}.

Record UpdateProjectV2Options : Type := {
  up_projectId : string;
  up_title : option string;
  up_readme : option string;
  up_closed : option bool
}.

(** The input of the field and item listings. *)
Record ListProjectPartsV2Options : Type := {
  lp_projectId : string;
  lp_first : option Z;
  lp_after : option string
}.

Record AddProjectDraftIssueV2Options : Type := {
  ad_projectId : string;
  ad_title : string;
  ad_body : option string
}.

Record UpdateProjectItemFieldValueV2Options : Type := {
  uf_projectId : string;
  uf_itemId : string;
  uf_fieldId : string;
  uf_value : value
}.

Section ProjectsV2.
Context {E : Env}.

(** The default page size of the four listings. *)
Definition DEFAULT_FIRST : Z := 30.

(** *** Identifier resolvers *)

Definition getOrganizationNodeId (orgLogin : string) : M value :=
  result <- githubGraphQLRequest GET_ORG_ID_QUERY (VObj [("login", VStr orgLogin)]) ;;
  organization <- member result "organization" ;;
  if negb (truthy organization)
  then throw (Error ("Organization not found: " ++ orgLogin))
  else member organization "id".

Definition getRepositoryNodeId (ownerLogin repoName : string) : M value :=
  result <- githubGraphQLRequest GET_REPO_ID_QUERY
              (VObj [("owner", VStr ownerLogin); ("name", VStr repoName)]) ;;
  repository <- member result "repository" ;;
  if negb (truthy repository)
  then throw (Error ("Repository not found: " ++ ownerLogin ++ "/" ++ repoName))
  else member repository "id".

Definition getRepositoryOwnerNodeId (ownerLogin : string) : M value :=
  result <- githubGraphQLRequest GET_REPO_OWNER_ID_QUERY
              (VObj [("login", VStr ownerLogin)]) ;;
  repositoryOwner <- member result "repositoryOwner" ;;
  if negb (truthy repositoryOwner)
  then throw (Error ("Repository owner not found: " ++ ownerLogin))
  else member repositoryOwner "id".

(** *** Projects *)

Definition listOrgProjectsV2_variables (o : ListOrgProjectsV2Options) : value :=
  VObj [("orgLogin", VStr (lo_orgLogin o));
        ("first", VNum (nullish_or (lo_first o) DEFAULT_FIRST));
        ("after", of_opt VStr (lo_after o))].

Definition listOrgProjectsV2 (o : ListOrgProjectsV2Options) : M value :=
  result <- githubGraphQLRequest LIST_ORG_PROJECTS_V2_QUERY
              (listOrgProjectsV2_variables o) ;;
  organization <- member result "organization" ;;
  projectsV2 <- member organization "projectsV2" ;;
  zparse ProjectV2ConnectionSchema projectsV2.

Definition createOrgProjectV2_variables (organizationId : value) (title : string) : value :=
  VObj [("organizationId", organizationId); ("title", VStr title)].

Definition createOrgProjectV2 (o : CreateOrgProjectV2Options) : M value :=
  organizationId <- getOrganizationNodeId (co_orgLogin o) ;;
  result <- githubGraphQLRequest CREATE_ORG_PROJECT_V2_MUTATION
              (createOrgProjectV2_variables organizationId (co_title o)) ;;
  createProjectV2 <- member result "createProjectV2" ;;
  projectV2 <- member createProjectV2 "projectV2" ;;
  zparse GitHubProjectV2Schema projectV2.

Definition listRepoProjectsV2_variables (o : ListRepoProjectsV2Options) : value :=
  VObj [("ownerLogin", VStr (lr_ownerLogin o));
        ("repoName", VStr (lr_repoName o));
        ("first", VNum (nullish_or (lr_first o) DEFAULT_FIRST));
        ("after", of_opt VStr (lr_after o))].

Definition listRepoProjectsV2 (o : ListRepoProjectsV2Options) : M value :=
  result <- githubGraphQLRequest LIST_REPO_PROJECTS_V2_QUERY
              (listRepoProjectsV2_variables o) ;;
  repository <- member result "repository" ;;
  projectsV2 <- member repository "projectsV2" ;;
  zparse ProjectV2ConnectionSchema projectsV2.

Definition createRepoProjectV2_variables (ownerId repositoryId : value) (title : string)
    : value :=
  VObj [("ownerId", ownerId); ("repositoryId", repositoryId); ("title", VStr title)].

Definition createRepoProjectV2 (o : CreateRepoProjectV2Options) : M value :=
  ownerId <- getRepositoryOwnerNodeId (cr_ownerLogin o) ;;
  repositoryId <- getRepositoryNodeId (cr_ownerLogin o) (cr_repoName o) ;;
  result <- githubGraphQLRequest CREATE_REPO_PROJECT_V2_MUTATION
              (createRepoProjectV2_variables ownerId repositoryId (cr_title o)) ;;
  createProjectV2 <- member result "createProjectV2" ;;
  projectV2 <- member createProjectV2 "projectV2" ;;
  zparse GitHubProjectV2Schema projectV2.

Definition getProjectV2 (projectId : string) : M value :=
  result <- githubGraphQLRequest GET_PROJECT_V2_QUERY
              (VObj [("projectId", VStr projectId)]) ;;
  node <- member result "node" ;;
  if negb (truthy node)
  then throw (Error ("Project V2 with Node ID " ++ projectId
                       ++ " not found or not accessible."))
  else zparse GitHubProjectV2Schema node.

(** The variable map [updateProjectV2] builds: the id, then one key for
    each field that is not [undefined]. *)
Definition updateProjectV2_variables (o : UpdateProjectV2Options)
    : list (string * value) :=
  [("projectId", VStr (up_projectId o))]
  ++ match up_title o with Some t => [("title", VStr t)] | None => [] end
  ++ match up_readme o with Some r => [("readme", VStr r)] | None => [] end
  ++ match up_closed o with Some c => [("closed", VBool c)] | None => [] end.

Definition updateProjectV2 (o : UpdateProjectV2Options) : M value :=
  let variables := updateProjectV2_variables o in
  if (Z.of_nat (List.length variables) <=? 1)%Z
  then
    console_log LWarn [CText "updateProjectV2 called without any fields to update."] ;;;
    getProjectV2 (up_projectId o)
  else
    result <- githubGraphQLRequest UPDATE_PROJECT_V2_MUTATION (VObj variables) ;;
    updated <- member result "updateProjectV2" ;;
    projectV2 <- member updated "projectV2" ;;
    zparse GitHubProjectV2Schema projectV2.

Definition deleteProjectV2 (projectId : string) : M unit :=
  githubGraphQLRequest DELETE_PROJECT_V2_MUTATION
    (VObj [("projectId", VStr projectId)]) ;;;
  ret tt.

(** *** Fields and items *)

Definition listProjectParts_variables (o : ListProjectPartsV2Options) : value :=
  VObj [("projectId", VStr (lp_projectId o));
        ("first", VNum (nullish_or (lp_first o) DEFAULT_FIRST));
        ("after", of_opt VStr (lp_after o))].

(** The response is returned as it came ([as any]): no schema is applied. *)
Definition listProjectFieldsV2 (o : ListProjectPartsV2Options) : M value :=
  result <- githubGraphQLRequest LIST_PROJECT_FIELDS_QUERY
              (listProjectParts_variables o) ;;
  node <- member result "node" ;;
  if negb (truthy node)
  then throw (Error ("Fields for Project V2 " ++ lp_projectId o
                       ++ " not found or project doesn't exist."))
  else
    fields <- member node "fields" ;;
    if negb (truthy fields)
    then throw (Error ("Fields for Project V2 " ++ lp_projectId o
                         ++ " not found or project doesn't exist."))
    else
      console_log LWarn
        [CText "TODO: Add robust Zod validation for listProjectFieldsV2 response"] ;;;
      ret fields.

Definition listProjectItemsV2 (o : ListProjectPartsV2Options) : M value :=
  result <- githubGraphQLRequest LIST_PROJECT_ITEMS_QUERY
              (listProjectParts_variables o) ;;
  node <- member result "node" ;;
  if negb (truthy node)
  then throw (Error ("Items for Project V2 " ++ lp_projectId o
                       ++ " not found or project doesn't exist."))
  else
    items <- member node "items" ;;
    if negb (truthy items)
    then throw (Error ("Items for Project V2 " ++ lp_projectId o
                         ++ " not found or project doesn't exist."))
    else zparse ProjectV2ItemConnectionSchema items.

Definition addProjectDraftIssueV2 (o : AddProjectDraftIssueV2Options) : M value :=
  result <- githubGraphQLRequest ADD_PROJECT_DRAFT_ISSUE_MUTATION
              (VObj [("projectId", VStr (ad_projectId o));
                     ("title", VStr (ad_title o));
                     ("body", of_opt VStr (ad_body o))]) ;;
  added <- member result "addProjectV2DraftIssue" ;;
  member added "projectItem".

Definition addProjectItemByIdV2 (projectId contentId : string) : M value :=
  result <- githubGraphQLRequest ADD_PROJECT_ITEM_BY_ID_MUTATION
              (VObj [("projectId", VStr projectId); ("contentId", VStr contentId)]) ;;
  added <- member result "addProjectV2ItemById" ;;
  member added "item".

Definition updateProjectItemFieldValueV2_variables
    (o : UpdateProjectItemFieldValueV2Options) : value :=
  VObj [("projectId", VStr (uf_projectId o));
        ("itemId", VStr (uf_itemId o));
        ("fieldId", VStr (uf_fieldId o));
        ("value", uf_value o)].

Definition updateProjectItemFieldValueV2 (o : UpdateProjectItemFieldValueV2Options)
    : M value :=
  result <- githubGraphQLRequest UPDATE_PROJECT_ITEM_FIELD_MUTATION
              (updateProjectItemFieldValueV2_variables o) ;;
  updated <- member result "updateProjectV2ItemFieldValue" ;;
  member updated "projectV2Item".

Definition deleteProjectItemV2 (projectId itemId : string) : M value :=
  result <- githubGraphQLRequest DELETE_PROJECT_ITEM_MUTATION
              (VObj [("projectId", VStr projectId); ("itemId", VStr itemId)]) ;;
  member result "deleteProjectV2Item".

(** *** The requests of the lookups *)

(** What each resolver and [getProjectV2] dispatches. *)
Definition orgLookup (orgLogin : string) : Request :=
  graphql_request GET_ORG_ID_QUERY (VObj [("login", VStr orgLogin)]).

Definition ownerLookup (ownerLogin : string) : Request :=
  graphql_request GET_REPO_OWNER_ID_QUERY (VObj [("login", VStr ownerLogin)]).

Definition repoLookup (ownerLogin repoName : string) : Request :=
  graphql_request GET_REPO_ID_QUERY
    (VObj [("owner", VStr ownerLogin); ("name", VStr repoName)]).

Definition projectLookup (projectId : string) : Request :=
  graphql_request GET_PROJECT_V2_QUERY (VObj [("projectId", VStr projectId)]).

End ProjectsV2.

(* ================================================================== *)
(** ** Classic project operations (REST) *)

(** [{ state?, per_page?, page? }] of the project listings. *)
Record ListProjectsOptions : Type := {
  l_state : option string;
  l_per_page : option Z;
  l_page : option Z
}.

(** [{ archived_state?, per_page?, page? }] of the card listings. *)
Record ListCardsOptions : Type := {
  c_archived_state : option string;
  c_per_page : option Z;
  c_page : option Z
}.

(** The default value [= {}] of an options parameter. *)
Definition no_list_options : ListProjectsOptions :=
  {| l_state := None; l_per_page := None; l_page := None |}.

Definition PREVIEW_ACCEPT : string := "application/vnd.github.inertia-preview+json".

(** [{ method, headers: { Accept: preview }, body }] *)
Definition preview (m : option string) (b : option value) : RequestOptions :=
  {| method := m; headers := [("Accept", PREVIEW_ACCEPT)]; body := b |}.

(** The request carries [Accept: application/vnd.github.inertia-preview+json]. *)
Definition carries_preview (r : Request) : Prop :=
  assoc "Accept" (headers (options r)) = Some PREVIEW_ACCEPT.

(** [x === n] for a number [n]. *)
Definition strict_eq_num (x : value) (n : Z) : bool :=
  match x with VNum m => m =? n | _ => false end.

(** [v.key] once [v] is known to be an object. *)
Definition get (v : value) (k : string) : value :=
  match v with VObj props => prop props k | _ => VUndefined end.

(** [projects.find(p => p.number === projectNumber)] *)
Definition find_by_number (projects : value) (projectNumber : Z) : option value :=
  match projects with
  | VArr items => find (fun p => strict_eq_num (get p "number") projectNumber) items
  | _ => None
  end.

Section Classic.
Context {E : Env}.

Definition pagination (per_page page : option Z) : list (string * option string) :=
  [("per_page", option_map string_of_Z per_page);
   ("page", option_map string_of_Z page)].

(** *** Repository projects *)

Definition listProjects (owner repo : string) (o : ListProjectsOptions) : M value :=
  let u := buildUrl ("https://api.github.com/repos/" ++ owner ++ "/" ++ repo ++ "/projects")
             (("state", l_state o) :: pagination (l_per_page o) (l_page o)) in
  response <- githubRequest u (preview None None) ;;
  zparse (ZArray GitHubProjectSchema) response.

Definition createProject (owner repo : string) (o : value) : M value :=
  response <- githubRequest
                ("https://api.github.com/repos/" ++ owner ++ "/" ++ repo ++ "/projects")
                (preview (Some "POST") (Some o)) ;;
  zparse GitHubProjectSchema response.

Definition getProject (owner repo : string) (projectNumber : Z) : M value :=
  projects <- listProjects owner repo no_list_options ;;
  match find_by_number projects projectNumber with
  | None =>
      throw (Error ("Project number " ++ string_of_Z projectNumber
                      ++ " not found in repository " ++ owner ++ "/" ++ repo))
  | Some project =>
      response <- githubRequest (to_text (get project "url")) (preview None None) ;;
      zparse GitHubProjectSchema response
  end.

Definition updateProject (owner repo : string) (projectNumber : Z) (o : value) : M value :=
  project <- getProject owner repo projectNumber ;;
  response <- githubRequest (to_text (get project "url"))
                (preview (Some "PATCH") (Some o)) ;;
  zparse GitHubProjectSchema response.

Definition deleteProject (owner repo : string) (projectNumber : Z) : M unit :=
  project <- getProject owner repo projectNumber ;;
  githubRequest (to_text (get project "url")) (preview (Some "DELETE") None) ;;;
  ret tt.

(** *** Columns *)

Definition listProjectColumns (owner repo : string) (projectNumber : Z)
    (per_page page : option Z) : M value :=
  project <- getProject owner repo projectNumber ;;
  let u := buildUrl (to_text (get project "columns_url")) (pagination per_page page) in
  response <- githubRequest u (preview None None) ;;
  zparse (ZArray GitHubProjectColumnSchema) response.

Definition createProjectColumn (owner repo : string) (projectNumber : Z) (o : value)
    : M value :=
  project <- getProject owner repo projectNumber ;;
  response <- githubRequest (to_text (get project "columns_url"))
                (preview (Some "POST") (Some o)) ;;
  zparse GitHubProjectColumnSchema response.

Definition updateProjectColumn (owner repo : string) (projectNumber columnId : Z)
    (o : value) : M value :=
  response <- githubRequest
                ("https://api.github.com/projects/columns/" ++ string_of_Z columnId)
                (preview (Some "PATCH") (Some o)) ;;
  zparse GitHubProjectColumnSchema response.

Definition deleteProjectColumn (owner repo : string) (projectNumber columnId : Z)
    : M unit :=
  githubRequest ("https://api.github.com/projects/columns/" ++ string_of_Z columnId)
                (preview (Some "DELETE") None) ;;;
  ret tt.

(** *** Cards *)

Definition listProjectCards (owner repo : string) (projectNumber columnId : Z)
    (o : ListCardsOptions) : M value :=
  let u := buildUrl
             ("https://api.github.com/projects/columns/" ++ string_of_Z columnId ++ "/cards")
             (("archived_state", c_archived_state o)
                :: pagination (c_per_page o) (c_page o)) in
  response <- githubRequest u (preview None None) ;;
  zparse (ZArray GitHubProjectCardSchema) response.

Definition createProjectCard (owner repo : string) (projectNumber columnId : Z)
    (o : value) : M value :=
  response <- githubRequest
                ("https://api.github.com/projects/columns/" ++ string_of_Z columnId ++ "/cards")
                (preview (Some "POST") (Some o)) ;;
  zparse GitHubProjectCardSchema response.

Definition updateProjectCard (owner repo : string) (projectNumber cardId : Z)
    (o : value) : M value :=
  response <- githubRequest
                ("https://api.github.com/projects/cards/" ++ string_of_Z cardId)
                (preview (Some "PATCH") (Some o)) ;;
  zparse GitHubProjectCardSchema response.

Definition deleteProjectCard (owner repo : string) (projectNumber cardId : Z) : M unit :=
  githubRequest ("https://api.github.com/projects/cards/" ++ string_of_Z cardId)
                (preview (Some "DELETE") None) ;;;
  ret tt.

(** [{ position }], then [column_id] when [columnId] is truthy.  The
    arguments are the values the tool handler destructures. *)
Definition move_body (position columnId : value) : value :=
  VObj ([("position", position)]
        ++ if truthy columnId then [("column_id", columnId)] else []).

Definition moveProjectCard (owner repo projectNumber cardId position columnId : value)
    : M unit :=
  githubRequest ("https://api.github.com/projects/cards/" ++ to_text cardId ++ "/moves")
                (preview (Some "POST") (Some (move_body position columnId))) ;;;
  ret tt.

(** *** Organization projects *)

Definition listOrgProjects (org : string) (o : ListProjectsOptions) : M value :=
  let u := buildUrl ("https://api.github.com/orgs/" ++ org ++ "/projects")
             (("state", l_state o) :: pagination (l_per_page o) (l_page o)) in
  response <- githubRequest u (preview None None) ;;
  zparse (ZArray GitHubProjectSchema) response.

Definition createOrgProject (org : string) (o : value) : M value :=
  response <- githubRequest ("https://api.github.com/orgs/" ++ org ++ "/projects")
                (preview (Some "POST") (Some o)) ;;
  zparse GitHubProjectSchema response.

Definition getOrgProject (org : string) (projectNumber : Z) : M value :=
  projects <- listOrgProjects org no_list_options ;;
  match find_by_number projects projectNumber with
  | None =>
      throw (Error ("Project number " ++ string_of_Z projectNumber
                      ++ " not found in organization " ++ org))
  | Some project =>
      response <- githubRequest (to_text (get project "url")) (preview None None) ;;
      zparse GitHubProjectSchema response
  end.

Definition updateOrgProject (org : string) (projectNumber : Z) (o : value) : M value :=
  project <- getOrgProject org projectNumber ;;
  response <- githubRequest (to_text (get project "url"))
                (preview (Some "PATCH") (Some o)) ;;
  zparse GitHubProjectSchema response.

Definition deleteOrgProject (org : string) (projectNumber : Z) : M unit :=
  project <- getOrgProject org projectNumber ;;
  githubRequest (to_text (get project "url")) (preview (Some "DELETE") None) ;;;
  ret tt.

Definition listOrgProjectColumns (org : string) (projectNumber : Z)
    (per_page page : option Z) : M value :=
  project <- getOrgProject org projectNumber ;;
  let u := buildUrl (to_text (get project "columns_url")) (pagination per_page page) in
  response <- githubRequest u (preview None None) ;;
  zparse (ZArray GitHubProjectColumnSchema) response.

Definition createOrgProjectColumn (org : string) (projectNumber : Z) (o : value)
    : M value :=
  project <- getOrgProject org projectNumber ;;
  response <- githubRequest (to_text (get project "columns_url"))
                (preview (Some "POST") (Some o)) ;;
  zparse GitHubProjectColumnSchema response.

Definition updateOrgProjectColumn (org : string) (projectNumber columnId : Z)
    (o : value) : M value :=
  response <- githubRequest
                ("https://api.github.com/projects/columns/" ++ string_of_Z columnId)
                (preview (Some "PATCH") (Some o)) ;;
  zparse GitHubProjectColumnSchema response.

Definition deleteOrgProjectColumn (org : string) (projectNumber columnId : Z) : M unit :=
  githubRequest ("https://api.github.com/projects/columns/" ++ string_of_Z columnId)
                (preview (Some "DELETE") None) ;;;
  ret tt.

Definition listOrgProjectCards (org : string) (projectNumber columnId : Z)
    (o : ListCardsOptions) : M value :=
  let u := buildUrl
             ("https://api.github.com/projects/columns/" ++ string_of_Z columnId ++ "/cards")
             (("archived_state", c_archived_state o)
                :: pagination (c_per_page o) (c_page o)) in
  response <- githubRequest u (preview None None) ;;
  zparse (ZArray GitHubProjectCardSchema) response.

Definition createOrgProjectCard (org : string) (projectNumber columnId : Z)
    (o : value) : M value :=
  response <- githubRequest
                ("https://api.github.com/projects/columns/" ++ string_of_Z columnId ++ "/cards")
                (preview (Some "POST") (Some o)) ;;
  zparse GitHubProjectCardSchema response.

Definition updateOrgProjectCard (org : string) (projectNumber cardId : Z)
    (o : value) : M value :=
  response <- githubRequest
                ("https://api.github.com/projects/cards/" ++ string_of_Z cardId)
                (preview (Some "PATCH") (Some o)) ;;
  zparse GitHubProjectCardSchema response.

Definition deleteOrgProjectCard (org : string) (projectNumber cardId : Z) : M unit :=
  githubRequest ("https://api.github.com/projects/cards/" ++ string_of_Z cardId)
                (preview (Some "DELETE") None) ;;;
  ret tt.

Definition moveOrgProjectCard (org projectNumber cardId position columnId : value)
    : M unit :=
  githubRequest ("https://api.github.com/projects/cards/" ++ to_text cardId ++ "/moves")
                (preview (Some "POST") (Some (move_body position columnId))) ;;;
  ret tt.

(** The listing request [getProject] starts with: no [state], no
    [per_page], no [page]. *)
Definition firstPage (owner repo : string) : Request :=
  {| url := buildUrl ("https://api.github.com/repos/" ++ owner ++ "/" ++ repo ++ "/projects")
              [("state", None); ("per_page", None); ("page", None)];
     options := preview None None |}.

Definition notFound (owner repo : string) (projectNumber : Z) : exn :=
  Error ("Project number " ++ string_of_Z projectNumber
           ++ " not found in repository " ++ owner ++ "/" ++ repo).

(** *** The classic operation set *)

(** One constructor for each exported classic function, with its
    arguments. *)
Inductive classic_op : Type :=
| ListProjects (owner repo : string) (o : ListProjectsOptions)
| CreateProject (owner repo : string) (o : value)
| GetProject (owner repo : string) (projectNumber : Z)
| UpdateProject (owner repo : string) (projectNumber : Z) (o : value)
| DeleteProject (owner repo : string) (projectNumber : Z)
| ListProjectColumns (owner repo : string) (projectNumber : Z) (per_page page : option Z)
| CreateProjectColumn (owner repo : string) (projectNumber : Z) (o : value)
| UpdateProjectColumn (owner repo : string) (projectNumber columnId : Z) (o : value)
| DeleteProjectColumn (owner repo : string) (projectNumber columnId : Z)
| ListProjectCards (owner repo : string) (projectNumber columnId : Z) (o : ListCardsOptions)
| CreateProjectCard (owner repo : string) (projectNumber columnId : Z) (o : value)
| UpdateProjectCard (owner repo : string) (projectNumber cardId : Z) (o : value)
| DeleteProjectCard (owner repo : string) (projectNumber cardId : Z)
| MoveProjectCard (owner repo projectNumber cardId position columnId : value)
| ListOrgProjects (org : string) (o : ListProjectsOptions)
| CreateOrgProject (org : string) (o : value)
| GetOrgProject (org : string) (projectNumber : Z)
| UpdateOrgProject (org : string) (projectNumber : Z) (o : value)
| DeleteOrgProject (org : string) (projectNumber : Z)
| ListOrgProjectColumns (org : string) (projectNumber : Z) (per_page page : option Z)
| CreateOrgProjectColumn (org : string) (projectNumber : Z) (o : value)
| UpdateOrgProjectColumn (org : string) (projectNumber columnId : Z) (o : value)
| DeleteOrgProjectColumn (org : string) (projectNumber columnId : Z)
| ListOrgProjectCards (org : string) (projectNumber columnId : Z) (o : ListCardsOptions)
| CreateOrgProjectCard (org : string) (projectNumber columnId : Z) (o : value)
| UpdateOrgProjectCard (org : string) (projectNumber cardId : Z) (o : value)
| DeleteOrgProjectCard (org : string) (projectNumber cardId : Z)
| MoveOrgProjectCard (org projectNumber cardId position columnId : value).

(** A [Promise<void>] resolves to [undefined]. *)
Definition void (m : M unit) : M value := m ;;; ret VUndefined.

Definition run_classic (op : classic_op) : M value :=
  match op with
  | ListProjects owner repo o => listProjects owner repo o
  | CreateProject owner repo o => createProject owner repo o
  | GetProject owner repo n => getProject owner repo n
  | UpdateProject owner repo n o => updateProject owner repo n o
  | DeleteProject owner repo n => void (deleteProject owner repo n)
  | ListProjectColumns owner repo n pp p => listProjectColumns owner repo n pp p
  | CreateProjectColumn owner repo n o => createProjectColumn owner repo n o
  | UpdateProjectColumn owner repo n c o => updateProjectColumn owner repo n c o
  | DeleteProjectColumn owner repo n c => void (deleteProjectColumn owner repo n c)
  | ListProjectCards owner repo n c o => listProjectCards owner repo n c o
  | CreateProjectCard owner repo n c o => createProjectCard owner repo n c o
  | UpdateProjectCard owner repo n c o => updateProjectCard owner repo n c o
  | DeleteProjectCard owner repo n c => void (deleteProjectCard owner repo n c)
  | MoveProjectCard owner repo n c pos col =>
      void (moveProjectCard owner repo n c pos col)
  | ListOrgProjects org o => listOrgProjects org o
  | CreateOrgProject org o => createOrgProject org o
  | GetOrgProject org n => getOrgProject org n
  | UpdateOrgProject org n o => updateOrgProject org n o
  | DeleteOrgProject org n => void (deleteOrgProject org n)
  | ListOrgProjectColumns org n pp p => listOrgProjectColumns org n pp p
  | CreateOrgProjectColumn org n o => createOrgProjectColumn org n o
  | UpdateOrgProjectColumn org n c o => updateOrgProjectColumn org n c o
  | DeleteOrgProjectColumn org n c => void (deleteOrgProjectColumn org n c)
  | ListOrgProjectCards org n c o => listOrgProjectCards org n c o
  | CreateOrgProjectCard org n c o => createOrgProjectCard org n c o
  | UpdateOrgProjectCard org n c o => updateOrgProjectCard org n c o
  | DeleteOrgProjectCard org n c => void (deleteOrgProjectCard org n c)
  | MoveOrgProjectCard org n c pos col => void (moveOrgProjectCard org n c pos col)
  end.

(** *** The [move_project_card] tool of [index.ts] *)

(** [{ content: [{ type: "text", text }] }] *)
Definition text_content (text : value) : value :=
  VObj [("content", VArr [VObj [("type", VStr "text"); ("text", text)]])].

Definition SUCCESS : value := VObj [("success", VBool true)].

(** The body of [case "move_project_card"]. *)
Definition move_project_card_case (arguments : value) : M value :=
  args <- zparse MoveProjectCardSchema arguments ;;
  moveProjectCard (get args "owner") (get args "repo") (get args "project_number")
                  (get args "card_id") (get args "position") (get args "column_id") ;;;
  ret (text_content (of_string_opt (JSON_stringify2 SUCCESS))).

(** The [catch] of the tool-call handler. *)
Definition handler_catch (error : exn) : M value :=
  match error with
  | ZodError s input =>
      throw (Error ("Invalid input: "
                      ++ to_text (of_string_opt (JSON_stringify (zodIssues s input)))))
  | Raised e =>
      if isGitHubError e then throw (Error (formatGitHubError e)) else throw error
  | _ => throw error
  end.

(** The tool-call handler on a [move_project_card] request. *)
Definition call_move_project_card (arguments : value) : M value :=
  try_catch
    (if negb (truthy arguments)
     then throw (Error "Arguments are required")
     else move_project_card_case arguments)
    handler_catch.

End Classic.

(* ================================================================== *)
(** ** A scripted remote *)

(** A mock transport for the concrete runs below: the world is the list of
    answers still to give, one per call; a call on an exhausted script
    throws. *)
Definition query_string (params : list (string * option string)) : string :=
  match flat_map (fun kv => match snd kv with
                            | Some x => [fst kv ++ "=" ++ x]
                            | None => []
                            end) params with
  | [] => ""
  | pairs => "?" ++ join "&" pairs
  end.

Definition scripted : Env :=
  {| World := list (string + value);
     Thrown := string;
     remote := fun _ w =>
       match w with
       | [] => (inl "no scripted answer", [])
       | answer :: rest => (answer, rest)
       end;
     buildUrl := fun base params => base ++ query_string params;
     isGitHubError := fun _ => true;
     formatGitHubError := fun message => "GitHub API Error: " ++ message;
     datetime := fun _ => true;
     zodIssues := fun _ _ => VArr [] |}.

Definition start (script : list (string + value)) : @State scripted :=
  @Build_State scripted script [] [].

(** [{ data }] *)
Definition data_response (data : value) : string + value :=
  inr (VObj [("data", data)]).

(** [{ data: null, errors: [{ message }, ...] }] *)
Definition errors_response (messages : list string) : string + value :=
  inr (VObj [("data", VNull);
             ("errors", VArr (map (fun m => VObj [("message", VStr m)]) messages))]).

(** *** Concrete inputs *)

Definition aProjectLookup : value := VObj [("projectId", VStr "PVT_1")].

(** Two failing answers with the same first message and different lists. *)
Definition oneError : list (string + value) := [errors_response ["boom"]].
Definition twoErrors : list (string + value) := [errors_response ["boom"; "second"]].

(** [{ data: null }] *)
Definition nullData : list (string * value) := [("data", VNull)].

(** A page of classic projects holding project number 7 only. *)
Definition projectSeven : value :=
  VObj [("id", VNum 1001);
        ("node_id", VStr "P_7");
        ("url", VStr "https://api.github.com/projects/1001");
        ("html_url", VStr "https://github.com/acme/site/projects/7");
        ("columns_url", VStr "https://api.github.com/projects/1001/columns");
        ("name", VStr "Roadmap");
        ("body", VNull);
        ("number", VNum 7);
        ("state", VStr "open");
        ("creator", VObj [("login", VStr "octocat");
                          ("id", VNum 1);
                          ("avatar_url", VStr "https://github.com/images/octocat.gif");
                          ("url", VStr "https://api.github.com/users/octocat");
                          ("html_url", VStr "https://github.com/octocat")]);
        ("created_at", VStr "2011-04-10T20:09:31Z");
        ("updated_at", VStr "2014-03-03T18:58:10Z")].

(** The arguments of a [move_project_card] call. *)
Definition moveArguments : value :=
  VObj [("owner", VStr "acme");
        ("repo", VStr "site");
        ("project_number", VNum 7);
        ("card_id", VNum 42);
        ("position", VStr "top");
        ("column_id", VNum 5)].

Definition statusUpdate : UpdateProjectItemFieldValueV2Options :=
  {| uf_projectId := "PVT_1";
     uf_itemId := "PVTI_1";
     uf_fieldId := "PVTSSF_1";
     uf_value := VObj [("singleSelectOptionId", VStr "done")] |}.

(** The answer to the field-value mutation: the updated item. *)
Definition updatedItem : list (string * value) :=
  [("data", VObj [("updateProjectV2ItemFieldValue",
                   VObj [("projectV2Item", VObj [("id", VStr "PVTI_1")])])])].

Definition firstPageOfProject : ListProjectPartsV2Options :=
  {| lp_projectId := "PVT_1"; lp_first := None; lp_after := None |}.

(** A [fields] value that is no connection: no [pageInfo], a [totalCount]
    that is a string, a node whose [id] is a number. *)
Definition brokenFields : value :=
  VObj [("nodes", VArr [VObj [("id", VNum 7)]]); ("totalCount", VStr "many")].

Definition brokenFieldsAnswer : list (string + value) :=
  [data_response (VObj [("node", VObj [("fields", brokenFields)])])].

Definition brokenItemsAnswer : list (string + value) :=
  [data_response (VObj [("node", VObj [("items", brokenFields)])])].

(** The text of [JSON.stringify({ success: true }, null, 2)]. *)
Definition SUCCESS_TEXT : string :=
  "{" ++ newline ++ "  " ++ dquote ++ "success" ++ dquote ++ ": true" ++ newline ++ "}".

(** A [fields] value with [nodes] only. *)
Definition bareFields : value := VObj [("nodes", VArr [])].

Definition bareFieldsAnswer : list (string + value) :=
  [data_response (VObj [("node", VObj [("fields", bareFields)])])].

(** One item, with the members [LIST_PROJECT_ITEMS_QUERY] selects. *)
Definition anItem : value :=
  VObj [("id", VStr "PVTI_1");
        ("createdAt", VStr "2024-05-01T10:00:00Z");
        ("updatedAt", VStr "2024-05-02T10:00:00Z");
        ("isArchived", VBool false);
        ("type", VStr "ISSUE");
        ("project", VObj [("id", VStr "PVT_1"); ("title", VStr "Roadmap");
                          ("number", VNum 7)]);
        ("content", VObj [("__typename", VStr "Issue");
                          ("id", VStr "I_1");
                          ("number", VNum 12);
                          ("title", VStr "Ship it");
                          ("url", VStr "https://github.com/acme/site/issues/12");
                          ("state", VStr "OPEN")])].

(** The [items] connection as [LIST_PROJECT_ITEMS_QUERY] selects it:
    [totalCount], [pageInfo { endCursor hasNextPage }], [nodes]. *)
Definition selectedItems : value :=
  VObj [("totalCount", VNum 1);
        ("pageInfo", VObj [("endCursor", VStr "MQ"); ("hasNextPage", VBool false)]);
        ("nodes", VArr [anItem])].

Definition selectedItemsAnswer : list (string + value) :=
  [data_response (VObj [("node", VObj [("items", selectedItems)])])].

(** The same connection with the two [pageInfo] members the query does
    not select. *)
Definition widenedItems : value :=
  VObj [("totalCount", VNum 1);
        ("pageInfo", VObj [("endCursor", VStr "MQ"); ("hasNextPage", VBool false);
                           ("hasPreviousPage", VBool false); ("startCursor", VStr "MQ")]);
        ("nodes", VArr [anItem])].

Definition widenedItemsAnswer : list (string + value) :=
  [data_response (VObj [("node", VObj [("items", widenedItems)])])].

(* ================================================================== *)
(** ** The project tools of [index.ts] *)

(** *** Input schemas of the classic operations *)

Definition ListProjectsSchema : schema :=
  ZObject [
    ("owner", ZString);
    ("repo", ZString);
    ("state", ZOptional (ZEnum ["open"; "closed"; "all"]));
    ("per_page", ZOptional ZNumber);
    ("page", ZOptional ZNumber)
  ].

Definition CreateProjectSchema : schema :=
  ZObject [
    ("owner", ZString);
    ("repo", ZString);
    ("name", ZString);
    ("body", ZOptional ZString)
  ].

Definition GetProjectSchema : schema :=
  ZObject [
    ("owner", ZString);
    ("repo", ZString);
    ("project_number", ZNumber)
  ].

Definition UpdateProjectSchema : schema :=
  ZObject [
    ("owner", ZString);
    ("repo", ZString);
    ("project_number", ZNumber);
    ("name", ZOptional ZString);
    ("body", ZOptional ZString);
    ("state", ZOptional (ZEnum ["open"; "closed"]))
  ].

Definition DeleteProjectSchema : schema :=
  ZObject [
    ("owner", ZString);
    ("repo", ZString);
    ("project_number", ZNumber)
  ].

Definition ListProjectColumnsSchema : schema :=
  ZObject [
    ("owner", ZString);
    ("repo", ZString);
    ("project_number", ZNumber);
    ("per_page", ZOptional ZNumber);
    ("page", ZOptional ZNumber)
  ].

Definition CreateProjectColumnSchema : schema :=
  ZObject [
    ("owner", ZString);
    ("repo", ZString);
    ("project_number", ZNumber);
    ("name", ZString)
  ].

Definition UpdateProjectColumnSchema : schema :=
  ZObject [
    ("owner", ZString);
    ("repo", ZString);
    ("project_number", ZNumber);
    ("column_id", ZNumber);
    ("name", ZString)
  ].

Definition DeleteProjectColumnSchema : schema :=
  ZObject [
    ("owner", ZString);
    ("repo", ZString);
    ("project_number", ZNumber);
    ("column_id", ZNumber)
  ].

Definition ListProjectCardsSchema : schema :=
  ZObject [
    ("owner", ZString);
    ("repo", ZString);
    ("project_number", ZNumber);
    ("column_id", ZNumber);
    ("archived_state", ZOptional (ZEnum ["all"; "archived"; "not_archived"]));
    ("per_page", ZOptional ZNumber);
    ("page", ZOptional ZNumber)
  ].

Definition CreateProjectCardSchema : schema :=
  ZObject [
    ("owner", ZString);
    ("repo", ZString);
    ("project_number", ZNumber);
    ("column_id", ZNumber);
    ("note", ZOptional ZString);
    ("content_id", ZOptional ZNumber);
    ("content_type", ZOptional (ZEnum ["Issue"; "PullRequest"]))
  ].

Definition UpdateProjectCardSchema : schema :=
  ZObject [
    ("owner", ZString);
    ("repo", ZString);
    ("project_number", ZNumber);
    ("card_id", ZNumber);
    ("note", ZOptional ZString);
    ("archived", ZOptional ZBoolean)
  ].

Definition DeleteProjectCardSchema : schema :=
  ZObject [
    ("owner", ZString);
    ("repo", ZString);
    ("project_number", ZNumber);
    ("card_id", ZNumber)
  ].

Definition ListOrgProjectsSchema : schema :=
  ZObject [
    ("org", ZString);
    ("state", ZOptional (ZEnum ["open"; "closed"; "all"]));
    ("per_page", ZOptional ZNumber);
    ("page", ZOptional ZNumber)
  ].

Definition CreateOrgProjectSchema : schema :=
  ZObject [
    ("org", ZString);
    ("name", ZString);
    ("body", ZOptional ZString)
  ].

Definition GetOrgProjectSchema : schema :=
  ZObject [
    ("org", ZString);
    ("project_number", ZNumber)
  ].

Definition UpdateOrgProjectSchema : schema :=
  ZObject [
    ("org", ZString);
    ("project_number", ZNumber);
    ("name", ZOptional ZString);
    ("body", ZOptional ZString);
    ("state", ZOptional (ZEnum ["open"; "closed"]))
  ].

Definition DeleteOrgProjectSchema : schema :=
  ZObject [
    ("org", ZString);
    ("project_number", ZNumber)
  ].

Definition ListOrgProjectColumnsSchema : schema :=
  ZObject [
    ("org", ZString);
    ("project_number", ZNumber);
    ("per_page", ZOptional ZNumber);
    ("page", ZOptional ZNumber)
  ].

Definition CreateOrgProjectColumnSchema : schema :=
  ZObject [
    ("org", ZString);
    ("project_number", ZNumber);
    ("name", ZString)
  ].

Definition UpdateOrgProjectColumnSchema : schema :=
  ZObject [
    ("org", ZString);
    ("project_number", ZNumber);
    ("column_id", ZNumber);
    ("name", ZString)
  ].

Definition DeleteOrgProjectColumnSchema : schema :=
  ZObject [
    ("org", ZString);
    ("project_number", ZNumber);
    ("column_id", ZNumber)
  ].

Definition ListOrgProjectCardsSchema : schema :=
  ZObject [
    ("org", ZString);
    ("project_number", ZNumber);
    ("column_id", ZNumber);
    ("archived_state", ZOptional (ZEnum ["all"; "archived"; "not_archived"]));
    ("per_page", ZOptional ZNumber);
    ("page", ZOptional ZNumber)
  ].

Definition CreateOrgProjectCardSchema : schema :=
  ZObject [
    ("org", ZString);
    ("project_number", ZNumber);
    ("column_id", ZNumber);
    ("note", ZOptional ZString);
    ("content_id", ZOptional ZNumber);
    ("content_type", ZOptional (ZEnum ["Issue"; "PullRequest"]))
  ].

Definition UpdateOrgProjectCardSchema : schema :=
  ZObject [
    ("org", ZString);
    ("project_number", ZNumber);
    ("card_id", ZNumber);
    ("note", ZOptional ZString);
    ("archived", ZOptional ZBoolean)
  ].

Definition DeleteOrgProjectCardSchema : schema :=
  ZObject [
    ("org", ZString);
    ("project_number", ZNumber);
    ("card_id", ZNumber)
  ].

Definition MoveOrgProjectCardSchema : schema :=
  ZObject [
    ("org", ZString);
    ("project_number", ZNumber);
    ("card_id", ZNumber);
    ("position", ZEnum ["top"; "bottom"; "after:<card_id>"]);
    ("column_id", ZOptional ZNumber)
  ].

(** *** Reading parsed arguments *)

(** A parsed argument at the type its schema gave it: the operations are
    typed, the parsed object is not. *)
Definition num (v : value) : Z :=
  match v with VNum n => n | _ => 0 end.

Definition opt_num (v : value) : option Z :=
  match v with VNum n => Some n | _ => None end.

Definition opt_str (v : value) : option string :=
  match v with VStr s => Some s | _ => None end.

(** [const { k1, k2, ...rest } = v]: the properties of [v] but those
    named. *)
Definition rest (v : value) (named : list string) : value :=
  match v with
  | VObj props => VObj (filter (fun kv => negb (mem_string (fst kv) named)) props)
  | _ => VObj []
  end.

Definition list_options (o : value) : ListProjectsOptions :=
  {| l_state := opt_str (get o "state");
     l_per_page := opt_num (get o "per_page");
     l_page := opt_num (get o "page") |}.

Definition card_options (o : value) : ListCardsOptions :=
  {| c_archived_state := opt_str (get o "archived_state");
     c_per_page := opt_num (get o "per_page");
     c_page := opt_num (get o "page") |}.

(** *** The cases *)

(** The project cases of the tool switch, by tool name. *)
Inductive project_tool : Type :=
| list_projects | create_project | get_project | update_project | delete_project
| list_project_columns | create_project_column | update_project_column
| delete_project_column
| list_project_cards | create_project_card | update_project_card
| delete_project_card | move_project_card
| list_org_projects | create_org_project | get_org_project | update_org_project
| delete_org_project
| list_org_project_columns | create_org_project_column | update_org_project_column
| delete_org_project_column
| list_org_project_cards | create_org_project_card | update_org_project_card
| delete_org_project_card | move_org_project_card.

(** The schema the case parses the arguments with. *)
Definition input_schema (t : project_tool) : schema :=
  match t with
  | list_projects => ListProjectsSchema
  | create_project => CreateProjectSchema
  | get_project => GetProjectSchema
  | update_project => UpdateProjectSchema
  | delete_project => DeleteProjectSchema
  | list_project_columns => ListProjectColumnsSchema
  | create_project_column => CreateProjectColumnSchema
  | update_project_column => UpdateProjectColumnSchema
  | delete_project_column => DeleteProjectColumnSchema
  | list_project_cards => ListProjectCardsSchema
  | create_project_card => CreateProjectCardSchema
  | update_project_card => UpdateProjectCardSchema
  | delete_project_card => DeleteProjectCardSchema
  | move_project_card => MoveProjectCardSchema
  | list_org_projects => ListOrgProjectsSchema
  | create_org_project => CreateOrgProjectSchema
  | get_org_project => GetOrgProjectSchema
  | update_org_project => UpdateOrgProjectSchema
  | delete_org_project => DeleteOrgProjectSchema
  | list_org_project_columns => ListOrgProjectColumnsSchema
  | create_org_project_column => CreateOrgProjectColumnSchema
  | update_org_project_column => UpdateOrgProjectColumnSchema
  | delete_org_project_column => DeleteOrgProjectColumnSchema
  | list_org_project_cards => ListOrgProjectCardsSchema
  | create_org_project_card => CreateOrgProjectCardSchema
  | update_org_project_card => UpdateOrgProjectCardSchema
  | delete_org_project_card => DeleteOrgProjectCardSchema
  | move_org_project_card => MoveOrgProjectCardSchema
  end.

Section Tools.
Context {E : Env}.

(** [{ content: [{ type: "text", text: JSON.stringify(v, null, 2) }] }] *)
Definition json_content (v : value) : value :=
  text_content (of_string_opt (JSON_stringify2 v)).

(** What the case does with the parsed arguments. *)
Definition tool_body (t : project_tool) (args : value) : M value :=
  let owner := to_text (get args "owner") in
  let repo := to_text (get args "repo") in
  let org := to_text (get args "org") in
  let project_number := num (get args "project_number") in
  let column_id := num (get args "column_id") in
  let card_id := num (get args "card_id") in
  match t with
  | list_projects =>
      let o := rest args ["owner"; "repo"] in
      projectsList <- listProjects owner repo (list_options o) ;;
      ret (json_content projectsList)
  | create_project =>
      let o := rest args ["owner"; "repo"] in
      project <- createProject owner repo o ;;
      ret (json_content project)
  | get_project =>
      project <- getProject owner repo project_number ;;
      ret (json_content project)
  | update_project =>
      let o := rest args ["owner"; "repo"; "project_number"] in
      updatedProject <- updateProject owner repo project_number o ;;
      ret (json_content updatedProject)
  | delete_project =>
      deleteProject owner repo project_number ;;;
      ret (json_content SUCCESS)
  | list_project_columns =>
      let o := rest args ["owner"; "repo"; "project_number"] in
      columns <- listProjectColumns owner repo project_number
                   (opt_num (get o "per_page")) (opt_num (get o "page")) ;;
      ret (json_content columns)
  | create_project_column =>
      let o := rest args ["owner"; "repo"; "project_number"] in
      column <- createProjectColumn owner repo project_number o ;;
      ret (json_content column)
  | update_project_column =>
      let o := rest args ["owner"; "repo"; "project_number"; "column_id"] in
      updatedColumn <- updateProjectColumn owner repo project_number column_id o ;;
      ret (json_content updatedColumn)
  | delete_project_column =>
      deleteProjectColumn owner repo project_number column_id ;;;
      ret (json_content SUCCESS)
  | list_project_cards =>
      let o := rest args ["owner"; "repo"; "project_number"; "column_id"] in
      cards <- listProjectCards owner repo project_number column_id (card_options o) ;;
      ret (json_content cards)
  | create_project_card =>
      let o := rest args ["owner"; "repo"; "project_number"; "column_id"] in
      card <- createProjectCard owner repo project_number column_id o ;;
      ret (json_content card)
  | update_project_card =>
      let o := rest args ["owner"; "repo"; "project_number"; "card_id"] in
      updatedCard <- updateProjectCard owner repo project_number card_id o ;;
      ret (json_content updatedCard)
  | delete_project_card =>
      deleteProjectCard owner repo project_number card_id ;;;
      ret (json_content SUCCESS)
  | move_project_card =>
      moveProjectCard (get args "owner") (get args "repo") (get args "project_number")
                      (get args "card_id") (get args "position") (get args "column_id") ;;;
      ret (json_content SUCCESS)
  | list_org_projects =>
      let o := rest args ["org"] in
      projectsList <- listOrgProjects org (list_options o) ;;
      ret (json_content projectsList)
  | create_org_project =>
      let o := rest args ["org"] in
      project <- createOrgProject org o ;;
      ret (json_content project)
  | get_org_project =>
      project <- getOrgProject org project_number ;;
      ret (json_content project)
  | update_org_project =>
      let o := rest args ["org"; "project_number"] in
      updatedProject <- updateOrgProject org project_number o ;;
      ret (json_content updatedProject)
  | delete_org_project =>
      deleteOrgProject org project_number ;;;
      ret (json_content SUCCESS)
  | list_org_project_columns =>
      let o := rest args ["org"; "project_number"] in
      columns <- listOrgProjectColumns org project_number
                   (opt_num (get o "per_page")) (opt_num (get o "page")) ;;
      ret (json_content columns)
  | create_org_project_column =>
      let o := rest args ["org"; "project_number"] in
      column <- createOrgProjectColumn org project_number o ;;
      ret (json_content column)
  | update_org_project_column =>
      let o := rest args ["org"; "project_number"; "column_id"] in
      updatedColumn <- updateOrgProjectColumn org project_number column_id o ;;
      ret (json_content updatedColumn)
  | delete_org_project_column =>
      deleteOrgProjectColumn org project_number column_id ;;;
      ret (json_content SUCCESS)
  | list_org_project_cards =>
      let o := rest args ["org"; "project_number"; "column_id"] in
      cards <- listOrgProjectCards org project_number column_id (card_options o) ;;
      ret (json_content cards)
  | create_org_project_card =>
      let o := rest args ["org"; "project_number"; "column_id"] in
      card <- createOrgProjectCard org project_number column_id o ;;
      ret (json_content card)
  | update_org_project_card =>
      let o := rest args ["org"; "project_number"; "card_id"] in
      updatedCard <- updateOrgProjectCard org project_number card_id o ;;
      ret (json_content updatedCard)
  | delete_org_project_card =>
      deleteOrgProjectCard org project_number card_id ;;;
      ret (json_content SUCCESS)
  | move_org_project_card =>
      moveOrgProjectCard (get args "org") (get args "project_number")
                         (get args "card_id") (get args "position")
                         (get args "column_id") ;;;
      ret (json_content SUCCESS)
  end.

(** The body of the case of tool [t]: parse, then act. *)
Definition tool_case (t : project_tool) (arguments : value) : M value :=
  args <- zparse (input_schema t) arguments ;;
  tool_body t args.

(** The tool-call handler on a request that names the project tool [t]. *)
Definition call_project_tool (t : project_tool) (arguments : value) : M value :=
  try_catch
    (if negb (truthy arguments)
     then throw (Error "Arguments are required")
     else tool_case t arguments)
    handler_catch.

(** The operation a case answers with, when it answers with a value. *)
Definition tool_output (t : project_tool) : option schema :=
  match t with
  | list_projects | list_org_projects => Some (ZArray GitHubProjectSchema)
  | create_project | get_project | update_project
  | create_org_project | get_org_project | update_org_project =>
      Some GitHubProjectSchema
  | list_project_columns | list_org_project_columns =>
      Some (ZArray GitHubProjectColumnSchema)
  | create_project_column | update_project_column
  | create_org_project_column | update_org_project_column =>
      Some GitHubProjectColumnSchema
  | list_project_cards | list_org_project_cards =>
      Some (ZArray GitHubProjectCardSchema)
  | create_project_card | update_project_card
  | create_org_project_card | update_org_project_card =>
      Some GitHubProjectCardSchema
  | delete_project | delete_project_column | delete_project_card | move_project_card
  | delete_org_project | delete_org_project_column | delete_org_project_card
  | move_org_project_card => None
  end.

(** The keys a request body of tool [t] can hold: the option keys of its
    input schema. *)
Definition tool_body_keys (t : project_tool) : list string :=
  match t with
  | create_project | create_org_project => ["name"; "body"]
  | update_project | update_org_project => ["name"; "body"; "state"]
  | create_project_column | update_project_column
  | create_org_project_column | update_org_project_column => ["name"]
  | create_project_card | create_org_project_card =>
      ["note"; "content_id"; "content_type"]
  | update_project_card | update_org_project_card => ["note"; "archived"]
  | move_project_card | move_org_project_card => ["position"; "column_id"]
  | _ => []
  end.

(** The body of the request is absent, or an object with keys among
    [keys]. *)
Definition body_within (keys : list string) (r : Request) : Prop :=
  match body (options r) with
  | None => True
  | Some (VObj props) => forall k, has_key k props = true -> In k keys
  | Some _ => False
  end.

End Tools.

(* ================================================================== *)
(** ** The three identifier resolvers, side by side *)

Section Resolvers.
Context {E : Env}.

(** One resolver call, with its arguments. *)
Inductive resolver : Type :=
| ResolveOrganization (orgLogin : string)
| ResolveRepositoryOwner (ownerLogin : string)
| ResolveRepository (ownerLogin repoName : string).

Definition run_resolver (r : resolver) : M value :=
  match r with
  | ResolveOrganization orgLogin => getOrganizationNodeId orgLogin
  | ResolveRepositoryOwner ownerLogin => getRepositoryOwnerNodeId ownerLogin
  | ResolveRepository ownerLogin repoName => getRepositoryNodeId ownerLogin repoName
  end.

(** The request the resolver dispatches. *)
Definition resolver_request (r : resolver) : Request :=
  match r with
  | ResolveOrganization orgLogin => orgLookup orgLogin
  | ResolveRepositoryOwner ownerLogin => ownerLookup ownerLogin
  | ResolveRepository ownerLogin repoName => repoLookup ownerLogin repoName
  end.

(** The member of [data] the resolver reads. *)
Definition resolver_entity (r : resolver) : string :=
  match r with
  | ResolveOrganization _ => "organization"
  | ResolveRepositoryOwner _ => "repositoryOwner"
  | ResolveRepository _ _ => "repository"
  end.

(** The message of the error the resolver throws when the member is
    falsy. *)
Definition resolver_missing (r : resolver) : string :=
  match r with
  | ResolveOrganization orgLogin => "Organization not found: " ++ orgLogin
  | ResolveRepositoryOwner ownerLogin => "Repository owner not found: " ++ ownerLogin
  | ResolveRepository ownerLogin repoName =>
      "Repository not found: " ++ ownerLogin ++ "/" ++ repoName
  end.

(** *** The item mutations that hand back a member of the answer *)

Inductive item_mutation : Type :=
| AddDraftIssue (o : AddProjectDraftIssueV2Options)
| AddItemById (projectId contentId : string)
| DeleteItem (projectId itemId : string).

Definition run_item_mutation (m : item_mutation) : M value :=
  match m with
  | AddDraftIssue o => addProjectDraftIssueV2 o
  | AddItemById projectId contentId => addProjectItemByIdV2 projectId contentId
  | DeleteItem projectId itemId => deleteProjectItemV2 projectId itemId
  end.

Definition item_mutation_request (m : item_mutation) : Request :=
  match m with
  | AddDraftIssue o =>
      graphql_request ADD_PROJECT_DRAFT_ISSUE_MUTATION
        (VObj [("projectId", VStr (ad_projectId o));
               ("title", VStr (ad_title o));
               ("body", of_opt VStr (ad_body o))])
  | AddItemById projectId contentId =>
      graphql_request ADD_PROJECT_ITEM_BY_ID_MUTATION
        (VObj [("projectId", VStr projectId); ("contentId", VStr contentId)])
  | DeleteItem projectId itemId =>
      graphql_request DELETE_PROJECT_ITEM_MUTATION
        (VObj [("projectId", VStr projectId); ("itemId", VStr itemId)])
  end.

(** [m] dispatches at most [n] requests. *)
Definition dispatches_at_most (n : nat) {A : Type} (m : M A) : Prop :=
  forall st, exists l,
    trace (snd (m st)) = (trace st ++ l)%list /\ (List.length l <= n)%nat.

End Resolvers.

(* ================================================================== *)
(** ** Classic operations: vocabulary *)

Section ClassicVocabulary.
Context {E : Env}.

(** The listing request [getOrgProject] starts with. *)
Definition orgFirstPage (org : string) : Request :=
  {| url := buildUrl ("https://api.github.com/orgs/" ++ org ++ "/projects")
              [("state", None); ("per_page", None); ("page", None)];
     options := preview None None |}.

Definition orgNotFound (org : string) (projectNumber : Z) : exn :=
  Error ("Project number " ++ string_of_Z projectNumber
           ++ " not found in organization " ++ org).

(** The schema a classic operation applies to what it returns; [None] for
    the operations that return nothing. *)
Definition classic_output (op : classic_op) : option schema :=
  match op with
  | ListProjects _ _ _ | ListOrgProjects _ _ => Some (ZArray GitHubProjectSchema)
  | CreateProject _ _ _ | GetProject _ _ _ | UpdateProject _ _ _ _
  | CreateOrgProject _ _ | GetOrgProject _ _ | UpdateOrgProject _ _ _ =>
      Some GitHubProjectSchema
  | ListProjectColumns _ _ _ _ _ | ListOrgProjectColumns _ _ _ _ =>
      Some (ZArray GitHubProjectColumnSchema)
  | CreateProjectColumn _ _ _ _ | UpdateProjectColumn _ _ _ _ _
  | CreateOrgProjectColumn _ _ _ | UpdateOrgProjectColumn _ _ _ _ =>
      Some GitHubProjectColumnSchema
  | ListProjectCards _ _ _ _ _ | ListOrgProjectCards _ _ _ _ =>
      Some (ZArray GitHubProjectCardSchema)
  | CreateProjectCard _ _ _ _ _ | UpdateProjectCard _ _ _ _ _
  | CreateOrgProjectCard _ _ _ _ | UpdateOrgProjectCard _ _ _ _ =>
      Some GitHubProjectCardSchema
  | DeleteProject _ _ _ | DeleteProjectColumn _ _ _ _ | DeleteProjectCard _ _ _ _
  | MoveProjectCard _ _ _ _ _ _
  | DeleteOrgProject _ _ | DeleteOrgProjectColumn _ _ _ | DeleteOrgProjectCard _ _ _
  | MoveOrgProjectCard _ _ _ _ _ => None
  end.

End ClassicVocabulary.

(* ================================================================== *)
(** ** More concrete inputs *)

(** A current-model project, as the creation and lookup documents select
    it. *)
Definition aProjectV2 : value :=
  VObj [("id", VStr "PVT_1");
        ("title", VStr "Roadmap");
        ("number", VNum 7);
        ("url", VStr "https://github.com/orgs/acme/projects/7");
        ("closed", VBool false);
        ("public", VBool true);
        ("readme", VNull);
        ("createdAt", VStr "2024-05-01T10:00:00Z");
        ("updatedAt", VStr "2024-05-02T10:00:00Z");
        ("creator", VObj [("login", VStr "octocat");
                          ("url", VStr "https://github.com/octocat");
                          ("avatarUrl", VStr "https://github.com/images/octocat.gif")]);
        ("owner", VObj [("id", VStr "O_1")])].

(** The project as [UPDATE_PROJECT_V2_MUTATION] selects it: no [creator],
    no [owner]. *)
Definition updatedProjectV2 : value :=
  VObj [("id", VStr "PVT_1");
        ("title", VStr "Roadmap 2");
        ("number", VNum 7);
        ("url", VStr "https://github.com/orgs/acme/projects/7");
        ("closed", VBool false);
        ("public", VBool true);
        ("readme", VNull);
        ("createdAt", VStr "2024-05-01T10:00:00Z");
        ("updatedAt", VStr "2024-05-03T10:00:00Z")].

Definition retitle : UpdateProjectV2Options :=
  {| up_projectId := "PVT_1"; up_title := Some "Roadmap 2";
     up_readme := None; up_closed := None |}.

Definition acmeBoard : CreateRepoProjectV2Options :=
  {| cr_ownerLogin := "acme"; cr_repoName := "site"; cr_title := "Roadmap" |}.

Definition acmeProjects : ListOrgProjectsV2Options :=
  {| lo_orgLogin := "acme"; lo_first := None; lo_after := None |}.

Definition siteProjects : ListRepoProjectsV2Options :=
  {| lr_ownerLogin := "acme"; lr_repoName := "site"; lr_first := Some 10;
     lr_after := None |}.

Definition aDraft : AddProjectDraftIssueV2Options :=
  {| ad_projectId := "PVT_1"; ad_title := "Write the docs"; ad_body := None |}.

(** Project number 7 as the remote returns it for its own [url], with a
    member the schema does not name. *)
Definition projectSevenFetched : value :=
  match projectSeven with
  | VObj props => VObj (props ++ [("private", VBool true)])
  | other => other
  end.

(** Arguments of [move_project_card] with a position after another card. *)
Definition moveAfterArguments : list (string * value) :=
  [("owner", VStr "acme");
   ("repo", VStr "site");
   ("project_number", VNum 7);
   ("card_id", VNum 42);
   ("position", VStr "after:41")].

Definition deleteCardArguments : value :=
  VObj [("owner", VStr "acme");
        ("repo", VStr "site");
        ("project_number", VNum 7);
        ("card_id", VNum 42)].

Definition getProjectArguments : value :=
  VObj [("owner", VStr "acme");
        ("repo", VStr "site");
        ("project_number", VNum 7)].

(* ================================================================== *)
(** * Properties *)

Section Laws.
Context {E : Env}.

Lemma bind_inl {A B : Type} (m : M A) (k : A -> M B) st e st' :
  m st = (inl e, st') -> bind m k st = (inl e, st').
Proof. intros H. unfold bind. now rewrite H. Qed.

Lemma bind_inr {A B : Type} (m : M A) (k : A -> M B) st a st' :
  m st = (inr a, st') -> bind m k st = k a st'.
Proof. intros H. unfold bind. now rewrite H. Qed.

Lemma githubRequest_inr u o st response w :
  remote {| url := u; options := o |} (world st) = (inr response, w) ->
  githubRequest u o st = (inr response, sent st {| url := u; options := o |} w).
Proof. intros H. unfold githubRequest. now rewrite H. Qed.

Lemma githubRequest_inl u o st e w :
  remote {| url := u; options := o |} (world st) = (inl e, w) ->
  githubRequest u o st = (inl (Raised e), sent st {| url := u; options := o |} w).
Proof. intros H. unfold githubRequest. now rewrite H. Qed.

(** Every call is recorded, whatever the remote answers. *)
Lemma githubRequest_trace u o st :
  trace (snd (githubRequest u o st)) = (trace st ++ [{| url := u; options := o |}])%list.
Proof.
  unfold githubRequest.
  destruct (remote _ (world st)) as [answer w]. reflexivity.
Qed.

Lemma quiet_ret {A : Type} (a : A) : quiet (ret a).
Proof. intros st. reflexivity. Qed.

Lemma quiet_throw {A : Type} (e : exn) : quiet (throw (A:=A) e).
Proof. intros st. reflexivity. Qed.

Lemma quiet_console_log l args : quiet (console_log l args).
Proof. intros st. reflexivity. Qed.

Lemma quiet_zparse s v : quiet (zparse s v).
Proof. intros st. unfold zparse. destruct (parse s v); reflexivity. Qed.

Lemma quiet_member v k : quiet (member v k).
Proof. intros st. destruct v; reflexivity. Qed.

Lemma quiet_bind {A B : Type} (m : M A) (k : A -> M B) :
  quiet m -> (forall a, quiet (k a)) -> quiet (bind m k).
Proof.
  intros Hm Hk st. unfold bind. specialize (Hm st).
  destruct (m st) as [[e|a] st1]; cbn in *; [exact Hm|].
  now rewrite Hk.
Qed.

(** After [m], a quiet continuation leaves the trace as [m] left it. *)
Lemma trace_bind_quiet {A B : Type} (m : M A) (k : A -> M B) st :
  (forall a, quiet (k a)) ->
  trace (snd (bind m k st)) = trace (snd (m st)).
Proof.
  intros Hk. unfold bind.
  destruct (m st) as [[e|a] st1]; cbn; [reflexivity|apply Hk].
Qed.

Lemma trace_bind {A B : Type} (m : M A) (k : A -> M B) st a st1 :
  m st = (inr a, st1) ->
  trace (snd (bind m k st)) = trace (snd (k a st1)).
Proof. intros H. unfold bind. now rewrite H. Qed.

End Laws.

Ltac solve_quiet :=
  repeat first
    [ apply quiet_ret
    | apply quiet_throw
    | apply quiet_console_log
    | apply quiet_zparse
    | apply quiet_member
    | apply quiet_bind; [|intros ?]
    | match goal with
      | |- quiet (if ?b then _ else _) => destruct b
      | |- quiet (match ?x with _ => _ end) => destruct x
      end ].

(* ------------------------------------------------------------------ *)
(** ** Requests name their document *)

Lemma unescape_escape_char (c : ascii) (rest : string) :
  unescape_char (escape_char c ++ rest) = Some (c, rest).
Proof.
  destruct c as [[] [] [] [] [] [] [] []]; reflexivity.
Qed.

Lemma append_assoc (a b c : string) : ((a ++ b) ++ c = a ++ (b ++ c))%string.
Proof. induction a as [|x a IH]; cbn; [reflexivity|now rewrite IH]. Qed.

(** A quoted text followed by anything determines the text. *)
Lemma escape_inj (s1 s2 t1 t2 : string) :
  (escape s1 ++ dquote ++ t1 = escape s2 ++ dquote ++ t2)%string -> s1 = s2.
Proof.
  revert s2. induction s1 as [|c1 s1 IH]; intros [|c2 s2] H.
  - reflexivity.
  - exfalso. cbn [escape] in H. rewrite append_assoc in H.
    pose proof (f_equal unescape_char H) as H0.
    rewrite unescape_escape_char in H0. cbn in H0.
    inversion H0; subst c2. cbn in H. discriminate H.
  - exfalso. cbn [escape] in H. rewrite append_assoc in H.
    pose proof (f_equal unescape_char H) as H0.
    rewrite unescape_escape_char in H0. cbn in H0.
    inversion H0; subst c1. cbn in H. discriminate H.
  - cbn [escape] in H. rewrite !append_assoc in H.
    apply (f_equal unescape_char) in H.
    rewrite !unescape_escape_char in H.
    inversion H as [[Hc Hr]]. f_equal. eapply IH. exact Hr.
Qed.

Lemma string_tail (c : ascii) (s t : string) : String c s = String c t -> s = t.
Proof. intros H. now inversion H. Qed.

(** The request body determines the document it carries. *)
Lemma graphql_request_query_inj (q1 q2 : string) (v1 v2 : value) :
  graphql_request q1 v1 = graphql_request q2 v2 -> q1 = q2.
Proof.
  unfold graphql_request. intros H. inversion H as [Hb]. clear H.
  unfold JSON_stringify in Hb. cbn [serialize] in Hb.
  destruct (serialize "" "" v1), (serialize "" "" v2); cbn in Hb;
    repeat apply string_tail in Hb;
    rewrite ?append_assoc in Hb;
    exact (escape_inj _ _ _ _ Hb).
Qed.

Lemma sends_other_document (q1 q2 : string) (v : value) :
  q1 <> q2 -> ~ sends_document q1 (graphql_request q2 v).
Proof.
  intros Hne [v' H]. apply Hne. symmetry.
  exact (graphql_request_query_inj _ _ _ _ H).
Qed.

(* ------------------------------------------------------------------ *)
(** ** The GraphQL envelope *)

Section Envelope.
Context {E : Env}.

(** What the envelope schema accepts, and what it hands back: the parsed
    [data] and [errors] are read from the output under their keys whether
    or not the input held the key. *)
Lemma parse_envelope response parsed :
  parse GraphQLResponseSchema response = Some parsed ->
  exists props d e,
    response = VObj props
    /\ parse (ZNullable (ZRecord ZUnknown)) (prop props "data") = Some d
    /\ parse (ZOptional (ZArray GraphQLErrorSchema)) (prop props "errors") = Some e
    /\ member (E:=E) parsed "data" = ret d
    /\ member (E:=E) parsed "errors" = ret e.
Proof.
  intros H. destruct response as [ | | | | | |props]; try discriminate.
  exists props.
  change (parse GraphQLResponseSchema (VObj props)) with
    (option_map VObj
       match parse (ZNullable (ZRecord ZUnknown)) (prop props "data"),
             match parse (ZOptional (ZArray GraphQLErrorSchema)) (prop props "errors") with
             | Some x =>
                 if negb (is_undefined x) || has_key "errors" props
                 then Some [("errors", x)] else Some []
             | None => None
             end with
       | Some x, Some out =>
           if negb (is_undefined x) || has_key "data" props
           then Some (("data", x) :: out) else Some out
       | _, _ => None
       end) in H.
  destruct (parse (ZNullable (ZRecord ZUnknown)) (prop props "data")) as [d|];
    [|discriminate].
  destruct (parse (ZOptional (ZArray GraphQLErrorSchema)) (prop props "errors")) as [e|];
    [|discriminate].
  exists d, e. repeat split.
  all: destruct d, e; destruct (has_key "data" props), (has_key "errors" props);
    simpl in H; inversion H; reflexivity.
Qed.

Lemma parse_error_entry first parsedFirst :
  parse GraphQLErrorSchema first = Some parsedFirst ->
  exists m, get first "message" = VStr m
            /\ member (E:=E) parsedFirst "message" = ret (VStr m).
Proof.
  intros H. destruct first as [ | | | | | |props]; try discriminate.
  unfold GraphQLErrorSchema in H. cbn [parse] in H.
  destruct (prop props "message") as [ | | | |m| | ] eqn:Hm; try discriminate.
  exists m. split; [exact Hm|].
  cbn [negb is_undefined orb] in H.
  match type of H with
  | option_map VObj match ?tail with _ => _ end = _ =>
      destruct tail as [out|]; [|discriminate]
  end.
  cbn in H. inversion H. reflexivity.
Qed.

Lemma parse_errors_nonempty first rest e :
  parse (ZOptional (ZArray GraphQLErrorSchema)) (VArr (first :: rest)) = Some e ->
  exists parsedFirst parsedRest,
    e = VArr (parsedFirst :: parsedRest)
    /\ parse GraphQLErrorSchema first = Some parsedFirst
    /\ parse (ZArray GraphQLErrorSchema) (VArr (first :: rest)) = Some e.
Proof.
  intros H. cbn [parse] in H. cbn [all_some] in H.
  destruct (parse GraphQLErrorSchema first) as [pf|] eqn:Hf; [|discriminate].
  destruct (all_some (parse GraphQLErrorSchema) rest) as [pr|] eqn:Hr; [|discriminate].
  exists pf, pr. cbn in H. inversion H. repeat split.
  cbn [parse all_some]. now rewrite Hf, Hr.
Qed.

Lemma all_some_record_unknown (props : list (string * value)) :
  all_some (fun kv => option_map (pair (fst kv)) (parse ZUnknown (snd kv))) props
  = Some props.
Proof.
  induction props as [|[k x] props IH]; cbn; [reflexivity|].
  cbn in IH. now rewrite IH.
Qed.

(** A well-formed answer without errors yields its [data] object. *)
Lemma githubGraphQLRequest_data query variables st props dprops w :
  remote (graphql_request query variables) (world st) = (inr (VObj props), w) ->
  prop props "data" = VObj dprops ->
  prop props "errors" = VUndefined \/ prop props "errors" = VArr [] ->
  githubGraphQLRequest query variables st
  = (inr (VObj dprops), sent st (graphql_request query variables) w).
Proof.
  intros Hremote Hdata Herrors.
  destruct (parse GraphQLResponseSchema (VObj props)) as [parsed|] eqn:Hp.
  - destruct (parse_envelope _ _ Hp) as (props' & d & e & Heq & Hd & He & Hmd & Hme).
    inversion Heq; subst props'. rewrite Hdata in Hd.
    cbn [parse] in Hd. rewrite all_some_record_unknown in Hd.
    cbn in Hd. inversion Hd; subst d.
    assert (He' : e = VUndefined \/ e = VArr []).
    { destruct Herrors as [H|H]; rewrite H in He; cbn in He; inversion He; auto. }
    unfold githubGraphQLRequest.
    erewrite bind_inr by (apply githubRequest_inr; exact Hremote).
    rewrite Hp, Hme. cbn [bind ret].
    destruct He' as [->| ->]; cbn [truthy length_positive andb];
      rewrite Hmd; reflexivity.
  - exfalso. revert Hp. cbn [parse GraphQLResponseSchema]. rewrite Hdata.
    cbn [parse]. rewrite all_some_record_unknown.
    destruct Herrors as [H|H]; rewrite H; cbn;
      destruct (has_key "errors" props); cbn; discriminate.
Qed.

(** A GraphQL call dispatches exactly one request, whatever comes back. *)
Lemma githubGraphQLRequest_trace query variables st :
  trace (snd (githubGraphQLRequest query variables st))
  = (trace st ++ [graphql_request query variables])%list.
Proof.
  unfold githubGraphQLRequest. rewrite trace_bind_quiet.
  - apply githubRequest_trace.
  - intros response. solve_quiet.
Qed.

End Envelope.

Section EnvelopeOutcomes.
Context {E : Env}.

(** C2 (amended).  When the remote answers a GraphQL call with a body that
    matches the envelope and whose [errors] list is non-empty, the call
    throws an [Error] whose message is the text "GraphQL Error: " followed by
    the first error's message; the success value is not returned.  The
    parsed error list is written to the console error log and is not part of
    the thrown error. *)
Theorem graphql_errors_throw_first_message
    (query : string) (variables : value) (st : State)
    (response parsed : value) (w : World) (first : value) (rest : list value) :
  remote (graphql_request query variables) (world st) = (inr response, w) ->
  parse GraphQLResponseSchema response = Some parsed ->
  get response "errors" = VArr (first :: rest) ->
  exists parsedErrors,
    parse (ZArray GraphQLErrorSchema) (VArr (first :: rest)) = Some parsedErrors
    /\ githubGraphQLRequest query variables st
       = (inl (Error ("GraphQL Error: " ++ to_text (get first "message"))),
          logged (sent st (graphql_request query variables) w) LError
            [CText "GraphQL Errors:";
             CText (to_text (of_string_opt (JSON_stringify2 parsedErrors)))]).
Proof.
  intros Hremote Hp Herrors.
  destruct (parse_envelope _ _ Hp) as (props & d & e & -> & _ & He & _ & Hme).
  cbn [get] in Herrors. rewrite Herrors in He.
  destruct (parse_errors_nonempty _ _ _ He) as (pf & pr & -> & Hpf & Hall).
  destruct (parse_error_entry _ _ Hpf) as (m & Hm & Hmm).
  exists (VArr (pf :: pr)). split; [exact Hall|].
  unfold githubGraphQLRequest.
  erewrite bind_inr by (apply githubRequest_inr; exact Hremote).
  rewrite Hp, Hme. cbn [bind ret]. cbn [truthy length_positive andb index nth].
  rewrite Hmm, Hm. reflexivity.
Qed.

(** C3.  When the remote answers a GraphQL call with [data: null] and an
    absent or empty [errors] list, the call throws an [Error] with the
    null-data message, and that error differs from every error thrown for a
    populated [errors] list. *)
Theorem null_data_without_errors
    (query : string) (variables : value) (st : State)
    (props : list (string * value)) (w : World) :
  remote (graphql_request query variables) (world st) = (inr (VObj props), w) ->
  prop props "data" = VNull ->
  prop props "errors" = VUndefined \/ prop props "errors" = VArr [] ->
  (exists st',
      githubGraphQLRequest query variables st = (inl (Error NULL_DATA_MESSAGE), st')
      /\ trace st' = (trace st ++ [graphql_request query variables])%list)
  /\ forall m : string, Error NULL_DATA_MESSAGE <> Error ("GraphQL Error: " ++ m).
Proof.
  intros Hremote Hdata Herrors. split.
  - destruct (parse GraphQLResponseSchema (VObj props)) as [parsed|] eqn:Hp.
    + destruct (parse_envelope _ _ Hp) as (props' & d & e & Heq & Hd & He & Hmd & Hme).
      inversion Heq; subst props'. rewrite Hdata in Hd. cbn in Hd. inversion Hd; subst d.
      assert (He' : e = VUndefined \/ e = VArr []).
      { destruct Herrors as [H|H]; rewrite H in He; cbn in He; inversion He; auto. }
      unfold githubGraphQLRequest.
      erewrite bind_inr by (apply githubRequest_inr; exact Hremote).
      rewrite Hp, Hme. cbn [bind ret].
      destruct He' as [->| ->]; cbn [truthy length_positive andb List.length Z.of_nat Z.ltb Z.compare];
        rewrite Hmd; cbn [bind ret console_log throw];
        eexists; split; reflexivity.
    + exfalso. revert Hp. cbn [parse GraphQLResponseSchema]. rewrite Hdata.
      destruct Herrors as [H|H]; rewrite H; cbn;
        destruct (has_key "errors" props); cbn; discriminate.
  - intros m H. inversion H.
Qed.

(** C4 (amended).  When the body of a GraphQL answer does not match the
    envelope, the call throws an [Error] and never yields a value.  Its
    message is a fixed prefix followed by the JSON text of the body when the
    body is an object or an array, by the body itself when it is a string,
    and by the fixed text "Invalid response structure." for every other
    body.  Such a body is kept nowhere: the console receives the
    [ZodError], whose one issue names the type of the body and not the
    body. *)
Theorem malformed_envelope_fails
    (query : string) (variables : value) (st : State) (response : value) (w : World) :
  remote (graphql_request query variables) (world st) = (inr response, w) ->
  parse GraphQLResponseSchema response = None ->
  githubGraphQLRequest query variables st
  = (inl (Error (PARSE_FAILURE_PREFIX ++ responseDetails response)),
     logged (sent st (graphql_request query variables) w) LError
       [CText "Failed to parse GraphQL response:";
        CZodError (envelope_issues response)])
  /\ match response with
     | VObj _ | VArr _ => Some (responseDetails response) = JSON_stringify2 response
     | VStr s => responseDetails response = s
     | _ => responseDetails response = "Invalid response structure."
            /\ envelope_issues response
               = VArr [invalid_type "object" (getParsedType response)]
            /\ (forall other,
                   getParsedType other = getParsedType response ->
                   responseDetails other = responseDetails response
                   /\ envelope_issues other = envelope_issues response)
     end.
Proof.
  intros Hremote Hp. split.
  - unfold githubGraphQLRequest.
    erewrite bind_inr by (apply githubRequest_inr; exact Hremote).
    rewrite Hp. reflexivity.
  - destruct response; try reflexivity;
      (split; [reflexivity | split; [reflexivity |]]);
      intros other Htype; destruct other; try discriminate Htype;
      split; reflexivity.
Qed.

End EnvelopeOutcomes.

(* ------------------------------------------------------------------ *)
(** ** Identifier resolution before creation *)

Section Resolution.
Context {E : Env}.

Lemma getOrganizationNodeId_trace orgLogin st :
  trace (snd (getOrganizationNodeId orgLogin st))
  = (trace st ++ [orgLookup orgLogin])%list.
Proof.
  unfold getOrganizationNodeId. rewrite trace_bind_quiet.
  - apply githubGraphQLRequest_trace.
  - intros result. solve_quiet.
Qed.

Lemma getRepositoryOwnerNodeId_trace ownerLogin st :
  trace (snd (getRepositoryOwnerNodeId ownerLogin st))
  = (trace st ++ [ownerLookup ownerLogin])%list.
Proof.
  unfold getRepositoryOwnerNodeId. rewrite trace_bind_quiet.
  - apply githubGraphQLRequest_trace.
  - intros result. solve_quiet.
Qed.

Lemma getRepositoryNodeId_trace ownerLogin repoName st :
  trace (snd (getRepositoryNodeId ownerLogin repoName st))
  = (trace st ++ [repoLookup ownerLogin repoName])%list.
Proof.
  unfold getRepositoryNodeId. rewrite trace_bind_quiet.
  - apply githubGraphQLRequest_trace.
  - intros result. solve_quiet.
Qed.

(** A resolver that finds nothing throws the not-found error. *)
Lemma getOrganizationNodeId_not_found orgLogin st w :
  remote (orgLookup orgLogin) (world st)
  = (inr (VObj [("data", VObj [("organization", VNull)])]), w) ->
  fst (getOrganizationNodeId orgLogin st)
  = inl (Error ("Organization not found: " ++ orgLogin)).
Proof.
  intros H. unfold getOrganizationNodeId, githubGraphQLRequest.
  erewrite bind_inr; [|erewrite bind_inr by (apply githubRequest_inr; exact H);
                       reflexivity].
  reflexivity.
Qed.

(** C1.  Board creation resolves its identifiers in a fixed order and
    stops at the first resolution that fails.  For an organization board:
    when the organization lookup fails, the operation fails with that
    error, the lookup is the only request dispatched and it is not a
    creation call; when it succeeds, the creation mutation follows it with
    the resolved identifier.  For a repository board: the owner is resolved
    first, then the repository; a failure of either ends the operation with
    only the lookups made so far dispatched, none of them a creation call;
    the creation mutation is dispatched only after both, with both resolved
    identifiers. *)
Theorem creation_aborts_on_failed_resolution
    (org : CreateOrgProjectV2Options) (repo : CreateRepoProjectV2Options) (st : State) :
  match getOrganizationNodeId (co_orgLogin org) st with
  | (inl e, st1) =>
      createOrgProjectV2 org st = (inl e, st1)
      /\ trace st1 = (trace st ++ [orgLookup (co_orgLogin org)])%list
      /\ ~ sends_document CREATE_ORG_PROJECT_V2_MUTATION (orgLookup (co_orgLogin org))
  | (inr organizationId, st1) =>
      trace (snd (createOrgProjectV2 org st))
      = (trace st
           ++ [orgLookup (co_orgLogin org);
               graphql_request CREATE_ORG_PROJECT_V2_MUTATION
                 (createOrgProjectV2_variables organizationId (co_title org))])%list
  end
  /\
  match getRepositoryOwnerNodeId (cr_ownerLogin repo) st with
  | (inl e, st1) =>
      createRepoProjectV2 repo st = (inl e, st1)
      /\ trace st1 = (trace st ++ [ownerLookup (cr_ownerLogin repo)])%list
      /\ ~ sends_document CREATE_REPO_PROJECT_V2_MUTATION (ownerLookup (cr_ownerLogin repo))
  | (inr ownerId, st1) =>
      match getRepositoryNodeId (cr_ownerLogin repo) (cr_repoName repo) st1 with
      | (inl e, st2) =>
          createRepoProjectV2 repo st = (inl e, st2)
          /\ trace st2
             = (trace st ++ [ownerLookup (cr_ownerLogin repo);
                             repoLookup (cr_ownerLogin repo) (cr_repoName repo)])%list
          /\ ~ sends_document CREATE_REPO_PROJECT_V2_MUTATION
                 (ownerLookup (cr_ownerLogin repo))
          /\ ~ sends_document CREATE_REPO_PROJECT_V2_MUTATION
                 (repoLookup (cr_ownerLogin repo) (cr_repoName repo))
      | (inr repositoryId, st2) =>
          trace (snd (createRepoProjectV2 repo st))
          = (trace st
               ++ [ownerLookup (cr_ownerLogin repo);
                   repoLookup (cr_ownerLogin repo) (cr_repoName repo);
                   graphql_request CREATE_REPO_PROJECT_V2_MUTATION
                     (createRepoProjectV2_variables ownerId repositoryId
                        (cr_title repo))])%list
      end
  end.
Proof.
  split.
  - pose proof (getOrganizationNodeId_trace (co_orgLogin org) st) as Ht.
    destruct (getOrganizationNodeId (co_orgLogin org) st) as [[e|organizationId] st1] eqn:Hr;
      cbn [snd] in Ht.
    + repeat split.
      * unfold createOrgProjectV2. now apply bind_inl.
      * exact Ht.
      * apply sends_other_document. discriminate.
    + unfold createOrgProjectV2. erewrite trace_bind by exact Hr.
      rewrite trace_bind_quiet by (intros; solve_quiet).
      rewrite githubGraphQLRequest_trace, Ht, <- app_assoc. reflexivity.
  - pose proof (getRepositoryOwnerNodeId_trace (cr_ownerLogin repo) st) as Ht.
    destruct (getRepositoryOwnerNodeId (cr_ownerLogin repo) st) as [[e|ownerId] st1] eqn:Hr;
      cbn [snd] in Ht.
    + repeat split.
      * unfold createRepoProjectV2. now apply bind_inl.
      * exact Ht.
      * apply sends_other_document. discriminate.
    + pose proof (getRepositoryNodeId_trace (cr_ownerLogin repo) (cr_repoName repo) st1)
        as Ht2.
      destruct (getRepositoryNodeId (cr_ownerLogin repo) (cr_repoName repo) st1)
        as [[e|repositoryId] st2] eqn:Hr2; cbn [snd] in Ht2.
      * repeat split.
        -- unfold createRepoProjectV2. erewrite bind_inr by exact Hr.
           now apply bind_inl.
        -- rewrite Ht2, Ht, <- app_assoc. reflexivity.
        -- apply sends_other_document. discriminate.
        -- apply sends_other_document. discriminate.
      * unfold createRepoProjectV2. erewrite trace_bind by exact Hr.
        erewrite trace_bind by exact Hr2.
        rewrite trace_bind_quiet by (intros; solve_quiet).
        rewrite githubGraphQLRequest_trace, Ht2, Ht, <- !app_assoc. reflexivity.
Qed.

End Resolution.

(* ------------------------------------------------------------------ *)
(** ** Updating a project *)

Section UpdateProject.
Context {E : Env}.

Lemma getProjectV2_trace projectId st :
  trace (snd (getProjectV2 projectId st)) = (trace st ++ [projectLookup projectId])%list.
Proof.
  unfold getProjectV2. rewrite trace_bind_quiet.
  - apply githubGraphQLRequest_trace.
  - intros result. solve_quiet.
Qed.

(** The variable map holds the project id and exactly the provided fields,
    each under its own key with its own value. *)
Lemma updateProjectV2_variables_lookup (o : UpdateProjectV2Options) (k : string) :
  assoc k (updateProjectV2_variables o)
  = if String.eqb k "projectId" then Some (VStr (up_projectId o))
    else if String.eqb k "title" then option_map VStr (up_title o)
    else if String.eqb k "readme" then option_map VStr (up_readme o)
    else if String.eqb k "closed" then option_map VBool (up_closed o)
    else None.
Proof.
  unfold updateProjectV2_variables.
  destruct (up_title o), (up_readme o), (up_closed o); cbn;
    repeat match goal with
           | |- context [String.eqb k ?x] =>
               destruct (String.eqb_spec k x); [subst k; cbn|]
           end; reflexivity.
Qed.

(** C9.  With only [projectId] given, [updateProjectV2] warns, then is
    [getProjectV2]: the one request dispatched is the project query, which is
    not an update mutation.  With at least one of [title], [readme] and
    [closed] given, the one request dispatched is the update mutation; its
    variables hold the project id and, for each optional field, a key exactly
    when the field was given (no key at all when it was not, so no explicit
    null). *)
Theorem updateProjectV2_sends_only_what_is_given
    (o : UpdateProjectV2Options) (st : State) :
  match up_title o, up_readme o, up_closed o with
  | None, None, None =>
      updateProjectV2 o st
      = getProjectV2 (up_projectId o)
          (logged st LWarn [CText "updateProjectV2 called without any fields to update."])
      /\ trace (snd (updateProjectV2 o st))
         = (trace st ++ [projectLookup (up_projectId o)])%list
      /\ ~ sends_document UPDATE_PROJECT_V2_MUTATION (projectLookup (up_projectId o))
  | _, _, _ =>
      trace (snd (updateProjectV2 o st))
      = (trace st ++ [graphql_request UPDATE_PROJECT_V2_MUTATION
                        (VObj (updateProjectV2_variables o))])%list
      /\ (forall k,
            assoc k (updateProjectV2_variables o)
            = if String.eqb k "projectId" then Some (VStr (up_projectId o))
              else if String.eqb k "title" then option_map VStr (up_title o)
              else if String.eqb k "readme" then option_map VStr (up_readme o)
              else if String.eqb k "closed" then option_map VBool (up_closed o)
              else None)
      /\ Forall (fun kv => snd kv <> VNull /\ snd kv <> VUndefined)
                (updateProjectV2_variables o)
  end.
Proof.
  assert (Hsome :
    (Z.of_nat (List.length (updateProjectV2_variables o)) <=? 1) = false ->
    trace (snd (updateProjectV2 o st))
    = (trace st ++ [graphql_request UPDATE_PROJECT_V2_MUTATION
                      (VObj (updateProjectV2_variables o))])%list
    /\ (forall k,
          assoc k (updateProjectV2_variables o)
          = if String.eqb k "projectId" then Some (VStr (up_projectId o))
            else if String.eqb k "title" then option_map VStr (up_title o)
            else if String.eqb k "readme" then option_map VStr (up_readme o)
            else if String.eqb k "closed" then option_map VBool (up_closed o)
            else None)
    /\ Forall (fun kv => snd kv <> VNull /\ snd kv <> VUndefined)
              (updateProjectV2_variables o)).
  { intros Hlen. repeat split.
    - unfold updateProjectV2. cbv zeta. rewrite Hlen.
      rewrite trace_bind_quiet by (intros; solve_quiet).
      apply githubGraphQLRequest_trace.
    - apply updateProjectV2_variables_lookup.
    - unfold updateProjectV2_variables.
      destruct (up_title o), (up_readme o), (up_closed o); cbn;
        repeat constructor; cbn; discriminate. }
  destruct (up_title o) eqn:Ht, (up_readme o) eqn:Hr, (up_closed o) eqn:Hc;
    try (apply Hsome; unfold updateProjectV2_variables; rewrite Ht, Hr, Hc; reflexivity).
  clear Hsome.
  assert (Hrun : updateProjectV2 o st
                 = getProjectV2 (up_projectId o)
                     (logged st LWarn
                        [CText "updateProjectV2 called without any fields to update."])).
  { unfold updateProjectV2, updateProjectV2_variables. rewrite Ht, Hr, Hc. reflexivity. }
  repeat split.
  - exact Hrun.
  - rewrite Hrun, getProjectV2_trace. reflexivity.
  - apply sends_other_document. discriminate.
Qed.

End UpdateProject.

(* ------------------------------------------------------------------ *)
(** ** Classic operations: the preview header *)

Section Preview.
Context {E : Env}.

Lemma emits_quiet P {A : Type} (m : M A) : quiet m -> emits P m.
Proof. intros H st. exists []. rewrite H, app_nil_r. auto. Qed.

Lemma emits_some_emits P {A : Type} (m : M A) : emits_some P m -> emits P m.
Proof. intros H st. destruct (H st) as (l & Ht & Hl & _). eauto. Qed.

Lemma emits_bind P {A B : Type} (m : M A) (k : A -> M B) :
  emits P m -> (forall a, emits P (k a)) -> emits P (bind m k).
Proof.
  intros Hm Hk st. unfold bind. destruct (Hm st) as (l & Ht & Hl).
  destruct (m st) as [[e|a] st1]; cbn [snd] in *.
  - exists l. auto.
  - destruct (Hk a st1) as (l' & Ht' & Hl').
    exists (l ++ l')%list. rewrite Ht', Ht, app_assoc. split; [reflexivity|].
    apply Forall_app. auto.
Qed.

Lemma emits_some_bind P {A B : Type} (m : M A) (k : A -> M B) :
  emits_some P m -> (forall a, emits P (k a)) -> emits_some P (bind m k).
Proof.
  intros Hm Hk st. unfold bind. destruct (Hm st) as (l & Ht & Hl & Hne).
  destruct (m st) as [[e|a] st1]; cbn [snd] in *.
  - exists l. auto.
  - destruct (Hk a st1) as (l' & Ht' & Hl').
    exists (l ++ l')%list. rewrite Ht', Ht, app_assoc. repeat split.
    + apply Forall_app. auto.
    + destruct l; [congruence|discriminate].
Qed.

Lemma emits_some_request (P : Request -> Prop) u o :
  P {| url := u; options := o |} -> emits_some P (githubRequest u o).
Proof.
  intros H st. exists [{| url := u; options := o |}].
  rewrite githubRequest_trace. repeat split; [auto|discriminate].
Qed.

Lemma carries_preview_preview u m b :
  carries_preview {| url := u; options := preview m b |}.
Proof. reflexivity. Qed.

End Preview.

(** Walks an operation: a request made with [preview], then anything that
    is quiet or again such a request. *)
Ltac preview_walk :=
  repeat first
    [ apply emits_some_request; apply carries_preview_preview
    | apply emits_some_emits; apply emits_some_request; apply carries_preview_preview
    | apply emits_some_bind; [|intros ?]
    | apply emits_bind; [|intros ?]
    | apply emits_quiet; solve [solve_quiet]
    | match goal with
      | |- emits _ (match ?x with _ => _ end) => destruct x
      | |- emits_some _ (match ?x with _ => _ end) => destruct x
      end ].

Section ClassicPreview.
Context {E : Env}.

Lemma listProjects_preview owner repo o :
  emits_some carries_preview (listProjects owner repo o).
Proof. unfold listProjects. preview_walk. Qed.

Lemma listOrgProjects_preview org o :
  emits_some carries_preview (listOrgProjects org o).
Proof. unfold listOrgProjects. preview_walk. Qed.

Lemma getProject_preview owner repo n :
  emits_some carries_preview (getProject owner repo n).
Proof.
  unfold getProject. apply emits_some_bind; [apply listProjects_preview|].
  intros projects. destruct (find_by_number projects n); preview_walk.
Qed.

Lemma getOrgProject_preview org n :
  emits_some carries_preview (getOrgProject org n).
Proof.
  unfold getOrgProject. apply emits_some_bind; [apply listOrgProjects_preview|].
  intros projects. destruct (find_by_number projects n); preview_walk.
Qed.

(** C8.  Every classic project, column and card operation, repository or
    organization level, dispatches at least one request, and every request
    it dispatches carries the header
    [Accept: application/vnd.github.inertia-preview+json]. *)
Theorem classic_requests_carry_preview (op : classic_op) (st : State) :
  exists dispatched,
    trace (snd (run_classic op st)) = (trace st ++ dispatched)%list
    /\ Forall carries_preview dispatched
    /\ dispatched <> [].
Proof.
  revert st. change (emits_some carries_preview (run_classic op)).
  destruct op; cbn [run_classic]; unfold void;
    first
      [ apply listProjects_preview
      | apply listOrgProjects_preview
      | apply getProject_preview
      | apply getOrgProject_preview
      | idtac ].
  all: unfold createProject, updateProject, deleteProject, listProjectColumns,
         createProjectColumn, updateProjectColumn, deleteProjectColumn,
         listProjectCards, createProjectCard, updateProjectCard, deleteProjectCard,
         moveProjectCard, createOrgProject, updateOrgProject, deleteOrgProject,
         listOrgProjectColumns, createOrgProjectColumn, updateOrgProjectColumn,
         deleteOrgProjectColumn, listOrgProjectCards, createOrgProjectCard,
         updateOrgProjectCard, deleteOrgProjectCard, moveOrgProjectCard.
  all: repeat first
         [ apply getProject_preview
         | apply getOrgProject_preview
         | apply emits_some_bind; [|intros ?]
         | progress preview_walk ].
Qed.

End ClassicPreview.

(* ------------------------------------------------------------------ *)
(** ** Classic operations: finding a project by number *)

Section GetProject.
Context {E : Env}.

(** C10.  [getProject] lists the repository's projects with no [state],
    [per_page] or [page] argument and looks for the number in that one page.
    When the page holds no project with that number, [getProject] throws the
    not-found error and the listing stays the only request dispatched;
    [updateProject] and [deleteProject], which start with [getProject], throw
    the same error in the same state. *)
Theorem getProject_scans_first_page_only
    (owner repo : string) (projectNumber : Z) (o : value) (st : State)
    (response projects : value) (w : World) :
  remote (firstPage owner repo) (world st) = (inr response, w) ->
  parse (ZArray GitHubProjectSchema) response = Some projects ->
  find_by_number projects projectNumber = None ->
  getProject owner repo projectNumber st
  = (inl (notFound owner repo projectNumber), sent st (firstPage owner repo) w)
  /\ updateProject owner repo projectNumber o st
     = (inl (notFound owner repo projectNumber), sent st (firstPage owner repo) w)
  /\ deleteProject owner repo projectNumber st
     = (inl (notFound owner repo projectNumber), sent st (firstPage owner repo) w)
  /\ trace (sent st (firstPage owner repo) w)
     = (trace st ++ [firstPage owner repo])%list.
Proof.
  intros Hremote Hparse Hfind.
  assert (Hlist : listProjects owner repo no_list_options st
                  = (inr projects, sent st (firstPage owner repo) w)).
  { unfold listProjects. cbn [no_list_options l_state l_per_page l_page pagination option_map].
    erewrite bind_inr by (apply githubRequest_inr; exact Hremote).
    unfold zparse. rewrite Hparse. reflexivity. }
  assert (Hget : getProject owner repo projectNumber st
                 = (inl (notFound owner repo projectNumber),
                    sent st (firstPage owner repo) w)).
  { unfold getProject. erewrite bind_inr by exact Hlist. rewrite Hfind. reflexivity. }
  repeat split.
  - exact Hget.
  - unfold updateProject. now apply bind_inl.
  - unfold deleteProject. now apply bind_inl.
Qed.

End GetProject.

(* ------------------------------------------------------------------ *)
(** ** What the operations hand back *)

Section Outputs.
Context {E : Env}.

Lemma bind_inr_inv {A B : Type} (m : M A) (k : A -> M B) st b st' :
  bind m k st = (inr b, st') ->
  exists a st1, m st = (inr a, st1) /\ k a st1 = (inr b, st').
Proof.
  unfold bind. destruct (m st) as [[e|a] st1]; [discriminate|]. eauto.
Qed.

Lemma zparse_inr s v st x st' :
  zparse s v st = (inr x, st') -> parse s v = Some x.
Proof.
  unfold zparse. destruct (parse s v); cbn; intros H; inversion H. reflexivity.
Qed.

Lemma validated_zparse s v : validated s (zparse s v).
Proof. intros st x st' H. exists v. exact (zparse_inr _ _ _ _ _ H). Qed.

Lemma validated_throw s e : validated s (throw e).
Proof. intros st x st' H. discriminate H. Qed.

Lemma validated_bind {A : Type} s (m : M A) (k : A -> M value) :
  (forall a, validated s (k a)) -> validated s (bind m k).
Proof.
  intros Hk st v st' H. destruct (bind_inr_inv _ _ _ _ _ H) as (a & st1 & _ & Hka).
  exact (Hk a st1 v st' Hka).
Qed.

Lemma validated_returns s (m : M value) :
  validated s m -> forall st v st', m st = (inr v, st') -> passed s v.
Proof. intros H. exact H. Qed.

End Outputs.

Ltac solve_validated :=
  repeat first
    [ apply validated_zparse
    | apply validated_throw
    | apply validated_bind; intros ?
    | match goal with
      | |- validated _ (if ?b then _ else _) => destruct b
      | |- validated _ (match ?x with _ => _ end) => destruct x
      end ].

Section OutputContracts.
Context {E : Env}.

(** The operations that apply their output schema return only what passed
    it. *)
Lemma listOrgProjectsV2_validated o :
  validated ProjectV2ConnectionSchema (listOrgProjectsV2 o).
Proof. unfold listOrgProjectsV2. solve_validated. Qed.

Lemma listRepoProjectsV2_validated o :
  validated ProjectV2ConnectionSchema (listRepoProjectsV2 o).
Proof. unfold listRepoProjectsV2. solve_validated. Qed.

Lemma listProjectItemsV2_validated o :
  validated ProjectV2ItemConnectionSchema (listProjectItemsV2 o).
Proof. unfold listProjectItemsV2. solve_validated. Qed.

Lemma createOrgProjectV2_validated o :
  validated GitHubProjectV2Schema (createOrgProjectV2 o).
Proof. unfold createOrgProjectV2. solve_validated. Qed.

Lemma createRepoProjectV2_validated o :
  validated GitHubProjectV2Schema (createRepoProjectV2 o).
Proof. unfold createRepoProjectV2. solve_validated. Qed.

Lemma getProjectV2_validated projectId :
  validated GitHubProjectV2Schema (getProjectV2 projectId).
Proof. unfold getProjectV2. solve_validated. Qed.

Lemma updateProjectV2_validated o :
  validated GitHubProjectV2Schema (updateProjectV2 o).
Proof.
  unfold updateProjectV2. cbv zeta.
  destruct (Z.of_nat _ <=? 1).
  - apply validated_bind. intros _. apply getProjectV2_validated.
  - solve_validated.
Qed.

Lemma listProjects_validated owner repo o :
  validated (ZArray GitHubProjectSchema) (listProjects owner repo o).
Proof. unfold listProjects. solve_validated. Qed.

Lemma getProject_validated owner repo n :
  validated GitHubProjectSchema (getProject owner repo n).
Proof. unfold getProject. solve_validated. Qed.

(** What a parsed connection looks like: [nodes], [pageInfo] with its four
    members, [totalCount]. *)
Lemma connection_shape (node : schema) (v : value) :
  passed (ZObject [("nodes", ZNullable (ZArray node));
                   ("pageInfo", PageInfoSchema);
                   ("totalCount", ZNumber)]) v ->
  exists nodes endCursor hasNextPage hasPreviousPage startCursor totalCount,
    v = VObj [("nodes", nodes);
              ("pageInfo", VObj [("endCursor", endCursor);
                                 ("hasNextPage", VBool hasNextPage);
                                 ("hasPreviousPage", VBool hasPreviousPage);
                                 ("startCursor", startCursor)]);
              ("totalCount", VNum totalCount)]
    /\ (nodes = VNull \/ exists items, nodes = VArr items).
Proof.
  intros [raw H]. destruct raw as [ | | | | | |props]; try discriminate.
  cbn [parse] in H.
  assert (Hnodes : forall x, (fun y => match y with
                                       | VNull => Some VNull
                                       | _ => parse (ZArray node) y
                                       end) (prop props "nodes") = Some x ->
                             x = VNull \/ exists items, x = VArr items).
  { intros x Hx. destruct (prop props "nodes"); try discriminate.
    - inversion Hx. auto.
    - cbn [parse] in Hx. destruct (all_some _ _); inversion Hx. eauto. }
  cbv beta in Hnodes.
  destruct (match prop props "nodes" with VNull => Some VNull | _ => _ end)
    as [nodes|] eqn:Hn; [|discriminate].
  specialize (Hnodes nodes eq_refl).
  unfold PageInfoSchema in H. cbn [parse] in H.
  destruct (prop props "pageInfo") as [ | | | | | |page]; try discriminate.
  destruct (prop page "endCursor") as [ | | | |ec| | ] eqn:Hec; try discriminate;
  destruct (prop page "hasNextPage") as [ | |hn| | | | ]; try discriminate;
  destruct (prop page "hasPreviousPage") as [ | |hp| | | | ]; try discriminate;
  destruct (prop page "startCursor") as [ | | | |sc| | ] eqn:Hsc; try discriminate;
  destruct (prop props "totalCount") as [ | | |tc| | | ]; try discriminate;
  cbn in H.
  all: destruct Hnodes as [->|[items ->]]; cbn in H; inversion H.
  all: eexists _, _, _, _, _, _; (split; [reflexivity|eauto]).
Qed.

End OutputContracts.

(* ------------------------------------------------------------------ *)
(** ** Listings: the page size sent *)

Section Listings.
Context {E : Env}.

(** Each of the four listings dispatches one request with its variable
    map, and the map holds [first: 30] when the caller gave no [first]. *)
Lemma listings_send_default_first
    (org : ListOrgProjectsV2Options) (repo : ListRepoProjectsV2Options)
    (part : ListProjectPartsV2Options) (st : State) :
  (trace (snd (listOrgProjectsV2 org st))
   = (trace st ++ [graphql_request LIST_ORG_PROJECTS_V2_QUERY
                     (listOrgProjectsV2_variables org)])%list
   /\ (lo_first org = None ->
       get (listOrgProjectsV2_variables org) "first" = VNum 30))
  /\ (trace (snd (listRepoProjectsV2 repo st))
      = (trace st ++ [graphql_request LIST_REPO_PROJECTS_V2_QUERY
                        (listRepoProjectsV2_variables repo)])%list
      /\ (lr_first repo = None ->
          get (listRepoProjectsV2_variables repo) "first" = VNum 30))
  /\ (trace (snd (listProjectFieldsV2 part st))
      = (trace st ++ [graphql_request LIST_PROJECT_FIELDS_QUERY
                        (listProjectParts_variables part)])%list
      /\ trace (snd (listProjectItemsV2 part st))
         = (trace st ++ [graphql_request LIST_PROJECT_ITEMS_QUERY
                           (listProjectParts_variables part)])%list
      /\ (lp_first part = None ->
          get (listProjectParts_variables part) "first" = VNum 30)).
Proof.
  repeat split.
  - unfold listOrgProjectsV2. rewrite trace_bind_quiet by (intros; solve_quiet).
    apply githubGraphQLRequest_trace.
  - intros H. unfold listOrgProjectsV2_variables. rewrite H. reflexivity.
  - unfold listRepoProjectsV2. rewrite trace_bind_quiet by (intros; solve_quiet).
    apply githubGraphQLRequest_trace.
  - intros H. unfold listRepoProjectsV2_variables. rewrite H. reflexivity.
  - unfold listProjectFieldsV2. rewrite trace_bind_quiet by (intros; solve_quiet).
    apply githubGraphQLRequest_trace.
  - unfold listProjectItemsV2. rewrite trace_bind_quiet by (intros; solve_quiet).
    apply githubGraphQLRequest_trace.
  - intros H. unfold listProjectParts_variables. rewrite H. reflexivity.
Qed.

(** The field listing hands back whatever truthy [fields] the remote put
    under [node]. *)
Lemma listProjectFieldsV2_passes_through
    (o : ListProjectPartsV2Options) (st : State)
    (props dprops nprops : list (string * value)) (w : World) :
  remote (graphql_request LIST_PROJECT_FIELDS_QUERY (listProjectParts_variables o))
         (world st) = (inr (VObj props), w) ->
  prop props "data" = VObj dprops ->
  prop props "errors" = VUndefined \/ prop props "errors" = VArr [] ->
  prop dprops "node" = VObj nprops ->
  truthy (prop nprops "fields") = true ->
  fst (listProjectFieldsV2 o st) = inr (prop nprops "fields").
Proof.
  intros Hremote Hdata Herrors Hnode Hfields.
  unfold listProjectFieldsV2.
  erewrite bind_inr by (eapply githubGraphQLRequest_data; eassumption).
  cbn [member bind ret]. rewrite Hnode. cbn [truthy negb member bind ret].
  rewrite Hfields. reflexivity.
Qed.

(** An object is refused as soon as the schema of one of its shape keys
    refuses what the object holds under that key. *)
Lemma parse_object_refused (shape : list (string * schema))
    (props : list (string * value)) (k : string) (s : schema) :
  In (k, s) shape ->
  parse s (prop props k) = None ->
  parse (ZObject shape) (VObj props) = None.
Proof.
  intros Hin Hnone. induction shape as [|[k' s'] shape IH]; [contradiction|].
  cbn [parse]. cbn [parse] in IH.
  destruct Hin as [Heq|Hin].
  - inversion Heq; subst k' s'. rewrite Hnone. reflexivity.
  - specialize (IH Hin).
    destruct (parse s' (prop props k')); [|reflexivity].
    match goal with
    | |- option_map VObj match ?tail with _ => _ end = None =>
        destruct tail; [discriminate IH|reflexivity]
    end.
Qed.

(** The item connection schema refuses every value whose [pageInfo] has no
    [hasPreviousPage], whatever else it holds. *)
Lemma item_connection_needs_hasPreviousPage (raw : value) :
  get (get raw "pageInfo") "hasPreviousPage" = VUndefined ->
  parse ProjectV2ItemConnectionSchema raw = None.
Proof.
  intros H. destruct raw as [ | | | | | |props]; try reflexivity.
  cbn [get] in H.
  apply parse_object_refused with (k := "pageInfo") (s := PageInfoSchema).
  - cbn. auto.
  - destruct (prop props "pageInfo") as [ | | | | | |page]; try reflexivity.
    cbn [get] in H.
    apply parse_object_refused with (k := "hasPreviousPage") (s := ZBoolean).
    + cbn. auto.
    + rewrite H. reflexivity.
Qed.

(** So the item listing cannot return a page answered as its query selects
    it. *)
Lemma listProjectItemsV2_throws_on_selected_page
    (o : ListProjectPartsV2Options) (st : State)
    (props dprops nprops : list (string * value)) (w : World) :
  remote (graphql_request LIST_PROJECT_ITEMS_QUERY (listProjectParts_variables o))
         (world st) = (inr (VObj props), w) ->
  prop props "data" = VObj dprops ->
  prop props "errors" = VUndefined \/ prop props "errors" = VArr [] ->
  prop dprops "node" = VObj nprops ->
  truthy (prop nprops "items") = true ->
  get (get (prop nprops "items") "pageInfo") "hasPreviousPage" = VUndefined ->
  fst (listProjectItemsV2 o st)
  = inl (ZodError ProjectV2ItemConnectionSchema (prop nprops "items")).
Proof.
  intros Hremote Hdata Herrors Hnode Hitems Hpage.
  unfold listProjectItemsV2.
  erewrite bind_inr by (eapply githubGraphQLRequest_data; eassumption).
  cbn [member bind ret]. rewrite Hnode. cbn [truthy negb member bind ret].
  rewrite Hitems. cbn [negb]. unfold zparse.
  rewrite (item_connection_needs_hasPreviousPage _ Hpage). reflexivity.
Qed.

End Listings.

(* ------------------------------------------------------------------ *)
(** ** Moving a card and updating a field value *)

Section Reports.
Context {E : Env}.

Lemma handler_catch_throws (e : exn) (st : State) :
  exists e', handler_catch e st = (inl e', st).
Proof.
  destruct e as [m|b k|s v|t]; try (eexists; reflexivity).
  unfold handler_catch. destruct (isGitHubError t); eexists; reflexivity.
Qed.

(** C6 (amended).  A [move_project_card] call that succeeds answers with
    one text content whose text is the JSON of [{ success: true }] and
    nothing else.  Independently of that, updating a field value of a
    current-model item does not answer with that confirmation: when the
    mutation succeeds, the operation returns the [projectV2Item] object of
    the remote's answer (the updated item's id). *)
Theorem move_reports_success_update_returns_item :
  (forall (arguments : value) (st st1 : State) (result : value),
      call_move_project_card arguments st = (inr result, st1) ->
      JSON_stringify2 SUCCESS = Some SUCCESS_TEXT
      /\ result = text_content (VStr SUCCESS_TEXT))
  /\ (forall (o : UpdateProjectItemFieldValueV2Options) (st : State)
             (props dprops uprops : list (string * value)) (w : World),
      let request := graphql_request UPDATE_PROJECT_ITEM_FIELD_MUTATION
                       (updateProjectItemFieldValueV2_variables o) in
      remote request (world st) = (inr (VObj props), w) ->
      prop props "data" = VObj dprops ->
      prop props "errors" = VUndefined \/ prop props "errors" = VArr [] ->
      prop dprops "updateProjectV2ItemFieldValue" = VObj uprops ->
      updateProjectItemFieldValueV2 o st
      = (inr (prop uprops "projectV2Item"), sent st request w)).
Proof.
  split.
  - intros arguments st st1 result Hmove. split; [reflexivity|].
    unfold call_move_project_card, try_catch in Hmove.
    destruct (truthy arguments); cbn [negb] in Hmove.
    + unfold move_project_card_case in Hmove.
      destruct (bind _ _ st) as [[e|x] st2] eqn:Hrun.
      * destruct (handler_catch_throws e st2) as [e' He'].
        rewrite He' in Hmove. discriminate Hmove.
      * apply bind_inr_inv in Hrun. destruct Hrun as (args & st3 & _ & Hrun).
        apply bind_inr_inv in Hrun. destruct Hrun as (u & st4 & _ & Hrun).
        cbn in Hrun. inversion Hrun; subst. inversion Hmove. reflexivity.
    + cbn in Hmove. discriminate.
  - intros o st props dprops uprops w request Hremote Hdata Herrors Hupdated.
    unfold updateProjectItemFieldValueV2.
    erewrite bind_inr by (eapply githubGraphQLRequest_data; eassumption).
    cbn [member bind ret]. rewrite Hupdated. reflexivity.
Qed.

End Reports.

(* ================================================================== *)
(** * Runs against the scripted remote *)

(** ** The GraphQL envelope *)

(** An answer with one error: the call throws the prefixed first message
    and logs the list. *)
Lemma graphql_errors_throw_first_message_witness :
  exists parsedErrors,
    parse (E:=scripted) (ZArray GraphQLErrorSchema)
      (VArr [VObj [("message", VStr "boom")]]) = Some parsedErrors
    /\ githubGraphQLRequest GET_PROJECT_V2_QUERY aProjectLookup (start oneError)
       = (inl (Error "GraphQL Error: boom"),
          logged (sent (start oneError)
                    (graphql_request GET_PROJECT_V2_QUERY aProjectLookup) [])
            LError
            [CText "GraphQL Errors:";
             CText (to_text (of_string_opt (JSON_stringify2 parsedErrors)))]).
Proof.
  apply (@graphql_errors_throw_first_message scripted
           GET_PROJECT_V2_QUERY aProjectLookup (start oneError)
           (VObj [("data", VNull); ("errors", VArr [VObj [("message", VStr "boom")]])])
           (VObj [("data", VNull); ("errors", VArr [VObj [("message", VStr "boom")]])])
           [] (VObj [("message", VStr "boom")]) []).
  - reflexivity.
  - reflexivity.
  - reflexivity.
Defined.

(** C2, as stated, fails: the thrown message is not the first error's
    message ("boom") but that message behind a prefix, and an answer with a
    longer error list throws the very same error, so the list is not kept in
    it. *)
Lemma graphql_error_is_prefixed_and_drops_the_list :
  fst (githubGraphQLRequest GET_PROJECT_V2_QUERY aProjectLookup (start oneError))
  = inl (Error "GraphQL Error: boom")
  /\ @Error scripted "GraphQL Error: boom" <> Error "boom"
  /\ fst (githubGraphQLRequest GET_PROJECT_V2_QUERY aProjectLookup (start twoErrors))
     = fst (githubGraphQLRequest GET_PROJECT_V2_QUERY aProjectLookup (start oneError))
  /\ twoErrors <> oneError.
Proof.
  repeat split; try reflexivity; discriminate.
Qed.

(** The answer [{ data: null }]: the null-data error, after one request. *)
Lemma null_data_without_errors_witness :
  (exists st',
      githubGraphQLRequest GET_PROJECT_V2_QUERY aProjectLookup (start [inr (VObj nullData)])
      = (inl (Error NULL_DATA_MESSAGE), st')
      /\ trace st' = [graphql_request GET_PROJECT_V2_QUERY aProjectLookup])
  /\ forall m : string, @Error scripted NULL_DATA_MESSAGE <> Error ("GraphQL Error: " ++ m).
Proof.
  apply (@null_data_without_errors scripted
           GET_PROJECT_V2_QUERY aProjectLookup (start [inr (VObj nullData)]) nullData []).
  - reflexivity.
  - reflexivity.
  - left. reflexivity.
Defined.

(** A plain-text body: the error message ends with the body. *)
Lemma malformed_envelope_fails_witness :
  fst (githubGraphQLRequest GET_PROJECT_V2_QUERY aProjectLookup
         (start [inr (VStr "Bad gateway")]))
  = inl (Error "Failed to parse GraphQL response. Raw response: Bad gateway").
Proof.
  exact (f_equal fst
           (proj1 (@malformed_envelope_fails scripted
                     GET_PROJECT_V2_QUERY aProjectLookup
                     (start [inr (VStr "Bad gateway")]) (VStr "Bad gateway") []
                     eq_refl eq_refl))).
Defined.

(** C4, as stated, fails: the bodies [5] and [6] both miss the envelope and
    leave one and the same run behind, the thrown error and the console
    included; nothing of it holds the body. *)
Lemma malformed_scalar_bodies_are_not_retained :
  parse (E:=scripted) GraphQLResponseSchema (VNum 5) = None
  /\ parse (E:=scripted) GraphQLResponseSchema (VNum 6) = None
  /\ fst (githubGraphQLRequest GET_PROJECT_V2_QUERY aProjectLookup (start [inr (VNum 5)]))
     = inl (Error "Failed to parse GraphQL response. Raw response: Invalid response structure.")
  /\ githubGraphQLRequest GET_PROJECT_V2_QUERY aProjectLookup (start [inr (VNum 6)])
     = githubGraphQLRequest GET_PROJECT_V2_QUERY aProjectLookup (start [inr (VNum 5)])
  /\ VNum 5 <> VNum 6.
Proof.
  repeat split; try reflexivity; discriminate.
Qed.

(** ** Creating a board *)

(** The organization does not resolve: one round trip, the not-found
    error, no creation call. *)
Example createOrgProjectV2_unknown_organization :
  let run := createOrgProjectV2 {| co_orgLogin := "acme"; co_title := "Roadmap" |}
               (start [data_response (VObj [("organization", VNull)]);
                       data_response (VObj [])]) in
  fst run = inl (Error "Organization not found: acme")
  /\ trace (snd run) = [orgLookup "acme"]
  /\ world (snd run) = [data_response (VObj [])].
Proof. repeat split. Qed.

(** The owner resolves and the repository does not: two round trips, no
    creation call. *)
Example createRepoProjectV2_unknown_repository :
  let run := createRepoProjectV2
               {| cr_ownerLogin := "acme"; cr_repoName := "site"; cr_title := "Roadmap" |}
               (start [data_response (VObj [("repositoryOwner", VObj [("id", VStr "O_1")])]);
                       data_response (VObj [("repository", VNull)]);
                       data_response (VObj [])]) in
  fst run = inl (Error "Repository not found: acme/site")
  /\ trace (snd run) = [ownerLookup "acme"; repoLookup "acme" "site"]
  /\ world (snd run) = [data_response (VObj [])].
Proof. repeat split. Qed.

(** ** Moving a card, updating a field value *)

(** A card move that succeeds, and a field-value update that succeeds on a
    remote of its own. *)
Lemma move_reports_success_update_returns_item_witness :
  (fst (call_move_project_card moveArguments (start [inr (VObj [])]))
   = inr (text_content (VStr SUCCESS_TEXT))
   /\ JSON_stringify2 SUCCESS = Some SUCCESS_TEXT)
  /\ fst (updateProjectItemFieldValueV2 statusUpdate (start [inr (VObj updatedItem)]))
     = inr (VObj [("id", VStr "PVTI_1")]).
Proof.
  split.
  - split; [reflexivity|].
    exact (proj1 (proj1 (@move_reports_success_update_returns_item scripted)
                    moveArguments (start [inr (VObj [])])
                    (snd (call_move_project_card moveArguments (start [inr (VObj [])])))
                    (text_content (VStr SUCCESS_TEXT))
                    eq_refl)).
  - exact (f_equal fst
             (proj2 (@move_reports_success_update_returns_item scripted)
                statusUpdate (start [inr (VObj updatedItem)])
                updatedItem
                [("updateProjectV2ItemFieldValue",
                  VObj [("projectV2Item", VObj [("id", VStr "PVTI_1")])])]
                [("projectV2Item", VObj [("id", VStr "PVTI_1")])]
                []
                eq_refl eq_refl (or_introl eq_refl) eq_refl)).
Defined.

(** C6, as stated, fails in its second half: the field-value update
    answers with the updated item, not with [{ success: true }]. *)
Lemma update_field_value_returns_the_item :
  fst (updateProjectItemFieldValueV2 statusUpdate (start [inr (VObj updatedItem)]))
  = inr (VObj [("id", VStr "PVTI_1")])
  /\ VObj [("id", VStr "PVTI_1")] <> SUCCESS
  /\ VObj [("id", VStr "PVTI_1")] <> text_content (VStr SUCCESS_TEXT).
Proof.
  repeat split; try reflexivity; discriminate.
Qed.

(** The request a card move dispatches. *)
Example move_project_card_request :
  trace (snd (call_move_project_card moveArguments (start [inr (VObj [])])))
  = [{| url := "https://api.github.com/projects/cards/42/moves";
        options := preview (Some "POST")
                     (Some (VObj [("position", VStr "top"); ("column_id", VNum 5)])) |}].
Proof. reflexivity. Qed.

(** ** Field and item listings *)

(** C5, at the failing input: the field listing returns a value its
    output schema refuses; the item listing, given the same value, throws. *)
Lemma listProjectFieldsV2_returns_unvalidated :
  fst (listProjectFieldsV2 firstPageOfProject (start brokenFieldsAnswer))
  = inr brokenFields
  /\ parse (E:=scripted) ProjectV2FieldConnectionSchema brokenFields = None
  /\ fst (listProjectItemsV2 firstPageOfProject (start brokenItemsAnswer))
     = inl (ZodError ProjectV2ItemConnectionSchema brokenFields).
Proof. repeat split. Qed.

(** C7, at the failing input: with [first] unset the item listing sends
    [first: 30]; the remote answers with the connection the query selects,
    [pageInfo] holding [endCursor] and [hasNextPage]; the listing throws
    instead of returning it, because its schema also demands
    [hasPreviousPage] and [startCursor] (with those two added it returns the
    connection).  The field listing returns what it is given, here a value
    without [pageInfo] and [totalCount]. *)
Lemma listProjectItemsV2_rejects_the_selected_page :
  let run := listProjectItemsV2 firstPageOfProject (start selectedItemsAnswer) in
  trace (snd run)
  = [graphql_request LIST_PROJECT_ITEMS_QUERY
       (VObj [("projectId", VStr "PVT_1"); ("first", VNum 30); ("after", VUndefined)])]
  /\ fst run = inl (ZodError ProjectV2ItemConnectionSchema selectedItems)
  /\ (exists connection,
        fst (listProjectItemsV2 firstPageOfProject (start widenedItemsAnswer))
        = inr connection)
  /\ fst (listProjectFieldsV2 firstPageOfProject (start bareFieldsAnswer))
     = inr bareFields
  /\ get bareFields "pageInfo" = VUndefined
  /\ get bareFields "totalCount" = VUndefined.
Proof.
  repeat split. eexists. reflexivity.
Qed.

(** ** Classic projects *)

(** Project 8 is asked for and the page holds project 7 only. *)
Lemma getProject_scans_first_page_only_witness :
  fst (getProject "acme" "site" 8 (start [inr (VArr [projectSeven])]))
  = inl (Error "Project number 8 not found in repository acme/site")
  /\ trace (snd (deleteProject "acme" "site" 8 (start [inr (VArr [projectSeven])])))
     = [{| url := "https://api.github.com/repos/acme/site/projects";
           options := preview None None |}].
Proof.
  pose proof (@getProject_scans_first_page_only scripted
                "acme" "site" 8 (VObj []) (start [inr (VArr [projectSeven])])
                (VArr [projectSeven]) (VArr [projectSeven]) []
                eq_refl eq_refl eq_refl) as (Hget & _ & Hdelete & _).
  split.
  - exact (f_equal fst Hget).
  - exact (f_equal (fun r => trace (snd r)) Hdelete).
Defined.

(** The project is on the page: the second request goes to its [url]. *)
Example getProject_found :
  trace (snd (getProject "acme" "site" 7
                (start [inr (VArr [projectSeven]); inr projectSeven])))
  = [{| url := "https://api.github.com/repos/acme/site/projects";
        options := preview None None |};
     {| url := "https://api.github.com/projects/1001";
        options := preview None None |}].
Proof. reflexivity. Qed.

(* ================================================================== *)
(** * Further properties of the operations *)

(** ** Projects V2 *)

Section MoreV2.
Context {E : Env}.

(** X1.  On an answer without errors, a resolver throws its own not-found error
    when the entity is null, absent or otherwise falsy, and else returns the
    entity's [id] as it came, whatever it is. *)
Theorem resolver_outcome
    (r : resolver) (st : State) (props dprops : list (string * value)) (w : World) :
  remote (resolver_request r) (world st) = (inr (VObj props), w) ->
  prop props "data" = VObj dprops ->
  prop props "errors" = VUndefined \/ prop props "errors" = VArr [] ->
  run_resolver r st
  = (if truthy (prop dprops (resolver_entity r))
     then inr (get (prop dprops (resolver_entity r)) "id")
     else inl (Error (resolver_missing r)),
     sent st (resolver_request r) w).
Proof.
  intros Hremote Hdata Herrors.
  destruct r; cbn [run_resolver resolver_request resolver_entity resolver_missing] in *;
    unfold getOrganizationNodeId, getRepositoryOwnerNodeId, getRepositoryNodeId;
    (erewrite bind_inr by (eapply githubGraphQLRequest_data; eassumption));
    cbn [member bind ret];
    match goal with
    | |- context [prop dprops ?k] => destruct (prop dprops k) as [ | |b|n|s|l|ps]
    end; cbn [truthy negb]; try reflexivity.
  all: try (destruct b; reflexivity).
  all: try (destruct (n =? 0); reflexivity).
  all: try (destruct (String.eqb s ""); reflexivity).
Qed.

(** X2.  On an answer without errors, [getProjectV2] throws the not-found error
    when [node] is falsy, throws a [ZodError] when [node] is refused by the
    project schema, and else returns the parsed project. *)
Theorem getProjectV2_outcome
    (projectId : string) (st : State) (props dprops : list (string * value)) (w : World) :
  remote (projectLookup projectId) (world st) = (inr (VObj props), w) ->
  prop props "data" = VObj dprops ->
  prop props "errors" = VUndefined \/ prop props "errors" = VArr [] ->
  getProjectV2 projectId st
  = (if truthy (prop dprops "node")
     then match parse GitHubProjectV2Schema (prop dprops "node") with
          | Some project => inr project
          | None => inl (ZodError GitHubProjectV2Schema (prop dprops "node"))
          end
     else inl (Error ("Project V2 with Node ID " ++ projectId
                        ++ " not found or not accessible.")),
     sent st (projectLookup projectId) w).
Proof.
  intros Hremote Hdata Herrors. unfold getProjectV2.
  erewrite bind_inr by (eapply githubGraphQLRequest_data; eassumption).
  cbn [member bind ret].
  destruct (truthy (prop dprops "node")); cbn [negb]; [|reflexivity].
  unfold zparse. destruct (parse _ _); reflexivity.
Qed.

(** X3.  The project listings have no not-found error of their own.  When
    the organization member of the answer is null or absent, the
    organization listing throws the [TypeError] of reading [projectsV2] from
    it, after its one request; and, on its own answer, the repository
    listing does the same for the repository member. *)
Theorem project_listings_throw_TypeError_on_missing_owner :
  (forall (o : ListOrgProjectsV2Options) (st : State)
          (props dprops : list (string * value)) (w : World),
      let request := graphql_request LIST_ORG_PROJECTS_V2_QUERY
                       (listOrgProjectsV2_variables o) in
      remote request (world st) = (inr (VObj props), w) ->
      prop props "data" = VObj dprops ->
      prop props "errors" = VUndefined \/ prop props "errors" = VArr [] ->
      is_nullish (prop dprops "organization") = true ->
      listOrgProjectsV2 o st
      = (inl (TypeError (prop dprops "organization") "projectsV2"), sent st request w))
  /\ (forall (o : ListRepoProjectsV2Options) (st : State)
             (props dprops : list (string * value)) (w : World),
      let request := graphql_request LIST_REPO_PROJECTS_V2_QUERY
                       (listRepoProjectsV2_variables o) in
      remote request (world st) = (inr (VObj props), w) ->
      prop props "data" = VObj dprops ->
      prop props "errors" = VUndefined \/ prop props "errors" = VArr [] ->
      is_nullish (prop dprops "repository") = true ->
      listRepoProjectsV2 o st
      = (inl (TypeError (prop dprops "repository") "projectsV2"), sent st request w)).
Proof.
  split; intros o st props dprops w request Hremote Hdata Herrors Hnull.
  - unfold listOrgProjectsV2.
    erewrite bind_inr by (eapply githubGraphQLRequest_data; eassumption).
    cbn [member bind ret].
    destruct (prop dprops "organization"); try discriminate; reflexivity.
  - unfold listRepoProjectsV2.
    erewrite bind_inr by (eapply githubGraphQLRequest_data; eassumption).
    cbn [member bind ret].
    destruct (prop dprops "repository"); try discriminate; reflexivity.
Qed.

(** The project schema refuses every value without an [owner]. *)
Lemma project_schema_needs_owner (raw : value) :
  get raw "owner" = VUndefined -> parse GitHubProjectV2Schema raw = None.
Proof.
  intros H. destruct raw as [ | | | | | |props]; try reflexivity.
  cbn [get] in H.
  apply parse_object_refused with (k := "owner") (s := ZObject [("id", ZString)]).
  - cbn. intuition.
  - rewrite H. reflexivity.
Qed.

(** X4.  When a field is given, [updateProjectV2] dispatches the mutation and
    then throws a [ZodError] on every answer whose [projectV2] has no
    [owner]: the update has been requested, and the caller gets an error. *)
Theorem updateProjectV2_refuses_project_without_owner
    (o : UpdateProjectV2Options) (st : State)
    (props dprops uprops : list (string * value)) (w : World) :
  up_title o <> None \/ up_readme o <> None \/ up_closed o <> None ->
  remote (graphql_request UPDATE_PROJECT_V2_MUTATION (VObj (updateProjectV2_variables o)))
         (world st) = (inr (VObj props), w) ->
  prop props "data" = VObj dprops ->
  prop props "errors" = VUndefined \/ prop props "errors" = VArr [] ->
  prop dprops "updateProjectV2" = VObj uprops ->
  get (prop uprops "projectV2") "owner" = VUndefined ->
  updateProjectV2 o st
  = (inl (ZodError GitHubProjectV2Schema (prop uprops "projectV2")),
     sent st (graphql_request UPDATE_PROJECT_V2_MUTATION
                (VObj (updateProjectV2_variables o))) w).
Proof.
  intros Hgiven Hremote Hdata Herrors Hupdated Howner.
  assert (Hlen : (Z.of_nat (List.length (updateProjectV2_variables o)) <=? 1) = false).
  { unfold updateProjectV2_variables.
    destruct (up_title o), (up_readme o), (up_closed o); try reflexivity.
    exfalso. intuition congruence. }
  unfold updateProjectV2. cbv zeta. rewrite Hlen.
  erewrite bind_inr by (eapply githubGraphQLRequest_data; eassumption).
  cbn [member bind ret]. rewrite Hupdated. cbn [member bind ret].
  unfold zparse. rewrite (project_schema_needs_owner _ Howner). reflexivity.
Qed.

(** X5.  An unset cursor or body is not transmitted: with [after] (or the draft
    issue's [body]) left out, the one request dispatched is the request built
    from the variables without that key. *)
Theorem unset_optional_variables_are_not_transmitted
    (org : ListOrgProjectsV2Options) (repo : ListRepoProjectsV2Options)
    (part : ListProjectPartsV2Options) (draft : AddProjectDraftIssueV2Options)
    (st : State) :
  lo_after org = None ->
  lr_after repo = None ->
  lp_after part = None ->
  ad_body draft = None ->
  trace (snd (listOrgProjectsV2 org st))
  = (trace st
       ++ [graphql_request LIST_ORG_PROJECTS_V2_QUERY
             (VObj [("orgLogin", VStr (lo_orgLogin org));
                    ("first", VNum (nullish_or (lo_first org) 30))])])%list
  /\ trace (snd (listRepoProjectsV2 repo st))
     = (trace st
          ++ [graphql_request LIST_REPO_PROJECTS_V2_QUERY
                (VObj [("ownerLogin", VStr (lr_ownerLogin repo));
                       ("repoName", VStr (lr_repoName repo));
                       ("first", VNum (nullish_or (lr_first repo) 30))])])%list
  /\ trace (snd (listProjectFieldsV2 part st))
     = (trace st
          ++ [graphql_request LIST_PROJECT_FIELDS_QUERY
                (VObj [("projectId", VStr (lp_projectId part));
                       ("first", VNum (nullish_or (lp_first part) 30))])])%list
  /\ trace (snd (listProjectItemsV2 part st))
     = (trace st
          ++ [graphql_request LIST_PROJECT_ITEMS_QUERY
                (VObj [("projectId", VStr (lp_projectId part));
                       ("first", VNum (nullish_or (lp_first part) 30))])])%list
  /\ trace (snd (addProjectDraftIssueV2 draft st))
     = (trace st
          ++ [graphql_request ADD_PROJECT_DRAFT_ISSUE_MUTATION
                (VObj [("projectId", VStr (ad_projectId draft));
                       ("title", VStr (ad_title draft))])])%list.
Proof.
  intros Horg Hrepo Hpart Hdraft.
  destruct (listings_send_default_first org repo part st)
    as ((Ho & _) & (Hr & _) & Hf & Hi & _).
  rewrite Ho, Hr, Hf, Hi.
  unfold listOrgProjectsV2_variables, listRepoProjectsV2_variables,
    listProjectParts_variables.
  rewrite Horg, Hrepo, Hpart.
  repeat split.
  unfold addProjectDraftIssueV2. rewrite trace_bind_quiet by (intros; solve_quiet).
  rewrite githubGraphQLRequest_trace, Hdraft. reflexivity.
Qed.

(** X6.  On an answer without errors the item mutations return what they
    read, as it came: no schema is applied.  The two additions read a member
    of the payload object, so a null or absent payload is a [TypeError] and
    an absent member comes back [undefined]; the deletion returns the
    payload itself, null or [undefined] included, and throws nothing. *)
Theorem item_mutation_returns_member_unchecked
    (m : item_mutation) (st : State) (props dprops : list (string * value)) (w : World) :
  remote (item_mutation_request m) (world st) = (inr (VObj props), w) ->
  prop props "data" = VObj dprops ->
  prop props "errors" = VUndefined \/ prop props "errors" = VArr [] ->
  run_item_mutation m st
  = (match m with
     | AddDraftIssue _ =>
         let payload := prop dprops "addProjectV2DraftIssue" in
         if is_nullish payload
         then inl (TypeError payload "projectItem")
         else inr (get payload "projectItem")
     | AddItemById _ _ =>
         let payload := prop dprops "addProjectV2ItemById" in
         if is_nullish payload
         then inl (TypeError payload "item")
         else inr (get payload "item")
     | DeleteItem _ _ => inr (prop dprops "deleteProjectV2Item")
     end,
     sent st (item_mutation_request m) w).
Proof.
  intros Hremote Hdata Herrors.
  destruct m; cbn [run_item_mutation item_mutation_request] in *;
    unfold addProjectDraftIssueV2, addProjectItemByIdV2, deleteProjectItemV2;
    (erewrite bind_inr by (eapply githubGraphQLRequest_data; eassumption));
    cbn [member bind ret].
  - destruct (prop dprops "addProjectV2DraftIssue"); reflexivity.
  - destruct (prop dprops "addProjectV2ItemById"); reflexivity.
  - reflexivity.
Qed.

(** X7.  On an answer without errors, the field listing throws its not-found
    error when [node] or [node.fields] is falsy, and else returns
    [node.fields] as it came. *)
Theorem listProjectFieldsV2_outcome
    (o : ListProjectPartsV2Options) (st : State)
    (props dprops : list (string * value)) (w : World) :
  remote (graphql_request LIST_PROJECT_FIELDS_QUERY (listProjectParts_variables o))
         (world st) = (inr (VObj props), w) ->
  prop props "data" = VObj dprops ->
  prop props "errors" = VUndefined \/ prop props "errors" = VArr [] ->
  fst (listProjectFieldsV2 o st)
  = if truthy (prop dprops "node") && truthy (get (prop dprops "node") "fields")
    then inr (get (prop dprops "node") "fields")
    else inl (Error ("Fields for Project V2 " ++ lp_projectId o
                       ++ " not found or project doesn't exist.")).
Proof.
  intros Hremote Hdata Herrors. unfold listProjectFieldsV2.
  erewrite bind_inr by (eapply githubGraphQLRequest_data; eassumption).
  cbn [member bind ret].
  destruct (prop dprops "node") as [ | |b|n|s|l|ps]; cbn [truthy negb andb get];
    try reflexivity.
  - destruct b; reflexivity.
  - destruct (n =? 0); reflexivity.
  - destruct (String.eqb s ""); reflexivity.
  - cbn [member bind ret]. destruct (truthy (prop ps "fields")); reflexivity.
Qed.

(** X8.  On an answer without errors, the item listing throws its not-found
    error when [node] or [node.items] is falsy, throws a [ZodError] when
    [node.items] is refused by the connection schema, and else returns the
    parsed connection. *)
Theorem listProjectItemsV2_outcome
    (o : ListProjectPartsV2Options) (st : State)
    (props dprops : list (string * value)) (w : World) :
  remote (graphql_request LIST_PROJECT_ITEMS_QUERY (listProjectParts_variables o))
         (world st) = (inr (VObj props), w) ->
  prop props "data" = VObj dprops ->
  prop props "errors" = VUndefined \/ prop props "errors" = VArr [] ->
  listProjectItemsV2 o st
  = (if truthy (prop dprops "node") && truthy (get (prop dprops "node") "items")
     then match parse ProjectV2ItemConnectionSchema (get (prop dprops "node") "items") with
          | Some connection => inr connection
          | None => inl (ZodError ProjectV2ItemConnectionSchema
                           (get (prop dprops "node") "items"))
          end
     else inl (Error ("Items for Project V2 " ++ lp_projectId o
                        ++ " not found or project doesn't exist.")),
     sent st (graphql_request LIST_PROJECT_ITEMS_QUERY (listProjectParts_variables o)) w).
Proof.
  intros Hremote Hdata Herrors. unfold listProjectItemsV2.
  erewrite bind_inr by (eapply githubGraphQLRequest_data; eassumption).
  cbn [member bind ret].
  destruct (prop dprops "node") as [ | |b|n|s|l|ps]; cbn [truthy negb andb get];
    try reflexivity.
  - destruct b; reflexivity.
  - destruct (n =? 0); reflexivity.
  - destruct (String.eqb s ""); reflexivity.
  - cbn [member bind ret]. destruct (truthy (prop ps "items")); cbn [negb];
      [|reflexivity].
    unfold zparse. destruct (parse _ _); reflexivity.
Qed.

(** A resolver whose entity is an object returns that object's [id]. *)
Lemma run_resolver_found
    (r : resolver) (st : State) (props dprops eprops : list (string * value)) (w : World) :
  remote (resolver_request r) (world st) = (inr (VObj props), w) ->
  prop props "data" = VObj dprops ->
  prop props "errors" = VUndefined \/ prop props "errors" = VArr [] ->
  prop dprops (resolver_entity r) = VObj eprops ->
  run_resolver r st = (inr (prop eprops "id"), sent st (resolver_request r) w).
Proof.
  intros Hremote Hdata Herrors Hentity.
  destruct r; cbn [run_resolver resolver_request resolver_entity] in *;
    unfold getOrganizationNodeId, getRepositoryOwnerNodeId, getRepositoryNodeId;
    (erewrite bind_inr by (eapply githubGraphQLRequest_data; eassumption));
    cbn [member bind ret]; rewrite Hentity; reflexivity.
Qed.

(** X9.  Creating a repository board end to end: the owner lookup, the
    repository lookup and the mutation are answered in turn; the mutation
    carries the two ids the lookups returned and the title; the project of
    the answer, once it passes the project schema, is the result. *)
Theorem createRepoProjectV2_succeeds
    (o : CreateRepoProjectV2Options) (st : State)
    (p1 d1 owner p2 d2 repository p3 d3 created : list (string * value))
    (w1 w2 w3 : World) (project : value) :
  let r1 := ownerLookup (cr_ownerLogin o) in
  let r2 := repoLookup (cr_ownerLogin o) (cr_repoName o) in
  let r3 := graphql_request CREATE_REPO_PROJECT_V2_MUTATION
              (createRepoProjectV2_variables (prop owner "id") (prop repository "id")
                 (cr_title o)) in
  remote r1 (world st) = (inr (VObj p1), w1) ->
  prop p1 "data" = VObj d1 ->
  prop p1 "errors" = VUndefined \/ prop p1 "errors" = VArr [] ->
  prop d1 "repositoryOwner" = VObj owner ->
  remote r2 w1 = (inr (VObj p2), w2) ->
  prop p2 "data" = VObj d2 ->
  prop p2 "errors" = VUndefined \/ prop p2 "errors" = VArr [] ->
  prop d2 "repository" = VObj repository ->
  remote r3 w2 = (inr (VObj p3), w3) ->
  prop p3 "data" = VObj d3 ->
  prop p3 "errors" = VUndefined \/ prop p3 "errors" = VArr [] ->
  prop d3 "createProjectV2" = VObj created ->
  parse GitHubProjectV2Schema (prop created "projectV2") = Some project ->
  createRepoProjectV2 o st = (inr project, sent (sent (sent st r1 w1) r2 w2) r3 w3).
Proof.
  intros r1 r2 r3 H1 Hd1 He1 Ho H2 Hd2 He2 Hr H3 Hd3 He3 Hc Hp.
  assert (Hown : getRepositoryOwnerNodeId (cr_ownerLogin o) st
                 = (inr (prop owner "id"), sent st r1 w1)).
  { exact (run_resolver_found (ResolveRepositoryOwner (cr_ownerLogin o))
             st p1 d1 owner w1 H1 Hd1 He1 Ho). }
  assert (Hrep : getRepositoryNodeId (cr_ownerLogin o) (cr_repoName o) (sent st r1 w1)
                 = (inr (prop repository "id"), sent (sent st r1 w1) r2 w2)).
  { exact (run_resolver_found (ResolveRepository (cr_ownerLogin o) (cr_repoName o))
             (sent st r1 w1) p2 d2 repository w2 H2 Hd2 He2 Hr). }
  unfold createRepoProjectV2.
  erewrite bind_inr by exact Hown.
  erewrite bind_inr by exact Hrep.
  erewrite bind_inr
    by (apply (githubGraphQLRequest_data _ _ (sent (sent st r1 w1) r2 w2) p3 d3 w3);
        [exact H3|exact Hd3|exact He3]).
  cbn [member bind ret]. rewrite Hc. cbn [member bind ret].
  unfold zparse. rewrite Hp. reflexivity.
Qed.

End MoreV2.

(** ** Classic projects *)

Section MoreClassic.
Context {E : Env}.

Lemma getProject_not_found owner repo projectNumber st response projects w :
  remote (firstPage owner repo) (world st) = (inr response, w) ->
  parse (ZArray GitHubProjectSchema) response = Some projects ->
  find_by_number projects projectNumber = None ->
  getProject owner repo projectNumber st
  = (inl (notFound owner repo projectNumber), sent st (firstPage owner repo) w).
Proof.
  intros Hremote Hparse Hfind. unfold getProject, listProjects.
  cbn [no_list_options l_state l_per_page l_page pagination option_map].
  erewrite bind_inr;
    [|erewrite bind_inr by (apply githubRequest_inr; exact Hremote);
      unfold zparse; rewrite Hparse; reflexivity].
  rewrite Hfind. reflexivity.
Qed.

(** X10.  The column operations of a repository project start with [getProject]:
    when the first page of projects holds no project with the number, listing
    and creating columns throw the project not-found error and the project
    listing stays the only request. *)
Theorem project_columns_need_the_project
    (owner repo : string) (projectNumber : Z) (per_page page : option Z) (o : value)
    (st : State) (response projects : value) (w : World) :
  remote (firstPage owner repo) (world st) = (inr response, w) ->
  parse (ZArray GitHubProjectSchema) response = Some projects ->
  find_by_number projects projectNumber = None ->
  listProjectColumns owner repo projectNumber per_page page st
  = (inl (notFound owner repo projectNumber), sent st (firstPage owner repo) w)
  /\ createProjectColumn owner repo projectNumber o st
     = (inl (notFound owner repo projectNumber), sent st (firstPage owner repo) w).
Proof.
  intros Hremote Hparse Hfind.
  pose proof (getProject_not_found _ _ _ _ _ _ _ Hremote Hparse Hfind) as Hget.
  split.
  - unfold listProjectColumns. now apply bind_inl.
  - unfold createProjectColumn. now apply bind_inl.
Qed.

(** X11.  [getOrgProject] lists the organization's projects with no [state],
    [per_page] or [page] and looks for the number in that one page.  When the
    page holds no such project, it throws the not-found error with the
    listing as the only request, and so do the four operations that start
    with it: updating and deleting the project, listing and creating its
    columns. *)
Theorem getOrgProject_scans_first_page_only
    (org : string) (projectNumber : Z) (per_page page : option Z) (o : value)
    (st : State) (response projects : value) (w : World) :
  remote (orgFirstPage org) (world st) = (inr response, w) ->
  parse (ZArray GitHubProjectSchema) response = Some projects ->
  find_by_number projects projectNumber = None ->
  let e := orgNotFound org projectNumber in
  let st1 := sent st (orgFirstPage org) w in
  getOrgProject org projectNumber st = (inl e, st1)
  /\ updateOrgProject org projectNumber o st = (inl e, st1)
  /\ deleteOrgProject org projectNumber st = (inl e, st1)
  /\ listOrgProjectColumns org projectNumber per_page page st = (inl e, st1)
  /\ createOrgProjectColumn org projectNumber o st = (inl e, st1).
Proof.
  intros Hremote Hparse Hfind e st1.
  assert (Hget : getOrgProject org projectNumber st = (inl e, st1)).
  { unfold getOrgProject, listOrgProjects.
    cbn [no_list_options l_state l_per_page l_page pagination option_map].
    erewrite bind_inr;
      [|erewrite bind_inr by (apply githubRequest_inr; exact Hremote);
        unfold zparse; rewrite Hparse; reflexivity].
    rewrite Hfind. reflexivity. }
  repeat split.
  - exact Hget.
  - unfold updateOrgProject. now apply bind_inl.
  - unfold deleteOrgProject. now apply bind_inl.
  - unfold listOrgProjectColumns. now apply bind_inl.
  - unfold createOrgProjectColumn. now apply bind_inl.
Qed.

(** The project [getProject] settles on is an entry of the page with the
    number asked for, and no entry before it has that number. *)
Lemma find_by_number_first projects projectNumber listed :
  find_by_number projects projectNumber = Some listed ->
  exists before after,
    projects = VArr (before ++ listed :: after)
    /\ get listed "number" = VNum projectNumber
    /\ Forall (fun p => get p "number" <> VNum projectNumber) before.
Proof.
  unfold find_by_number. destruct projects as [ | | | | |items| ]; try discriminate.
  induction items as [|p items IH]; cbn [find]; [discriminate|].
  destruct (strict_eq_num (get p "number") projectNumber) eqn:Hp.
  - intros H. inversion H; subst p. exists [], items. repeat split.
    + unfold strict_eq_num in Hp. destruct (get listed "number"); try discriminate.
      apply Z.eqb_eq in Hp. now subst.
    + constructor.
  - intros H. destruct (IH H) as (before & after & Heq & Hn & Hb).
    inversion Heq; subst items. exists (p :: before), after. repeat split.
    + exact Hn.
    + constructor; [|exact Hb].
      intros Hc. rewrite Hc in Hp. cbn in Hp. rewrite Z.eqb_refl in Hp. discriminate.
Qed.

Lemma getProject_returns_fetched owner repo projectNumber st page projects listed w1
    answer project w2 :
  remote (firstPage owner repo) (world st) = (inr page, w1) ->
  parse (ZArray GitHubProjectSchema) page = Some projects ->
  find_by_number projects projectNumber = Some listed ->
  remote {| url := to_text (get listed "url"); options := preview None None |} w1
  = (inr answer, w2) ->
  parse GitHubProjectSchema answer = Some project ->
  getProject owner repo projectNumber st
  = (inr project,
     sent (sent st (firstPage owner repo) w1)
       {| url := to_text (get listed "url"); options := preview None None |} w2).
Proof.
  intros Hremote Hparse Hfind Hremote2 Hparse2. unfold getProject, listProjects.
  cbn [no_list_options l_state l_per_page l_page pagination option_map].
  erewrite bind_inr;
    [|erewrite bind_inr by (apply githubRequest_inr; exact Hremote);
      unfold zparse; rewrite Hparse; reflexivity].
  rewrite Hfind.
  erewrite bind_inr by (apply githubRequest_inr; exact Hremote2).
  unfold zparse. rewrite Hparse2. reflexivity.
Qed.

(** X12.  When the first page holds the number, [getProject] fetches the [url]
    of the first entry with that number and returns the answer once it passes
    the project schema: two requests, the listing and that fetch. *)
Theorem getProject_fetches_first_match
    (owner repo : string) (projectNumber : Z) (st : State)
    (page projects listed answer project : value) (w1 w2 : World) :
  remote (firstPage owner repo) (world st) = (inr page, w1) ->
  parse (ZArray GitHubProjectSchema) page = Some projects ->
  find_by_number projects projectNumber = Some listed ->
  remote {| url := to_text (get listed "url"); options := preview None None |} w1
  = (inr answer, w2) ->
  parse GitHubProjectSchema answer = Some project ->
  getProject owner repo projectNumber st
  = (inr project,
     sent (sent st (firstPage owner repo) w1)
       {| url := to_text (get listed "url"); options := preview None None |} w2)
  /\ exists before after,
       projects = VArr (before ++ listed :: after)
       /\ get listed "number" = VNum projectNumber
       /\ Forall (fun p => get p "number" <> VNum projectNumber) before.
Proof.
  intros Hremote Hparse Hfind Hremote2 Hparse2. split.
  - unfold getProject, listProjects.
    cbn [no_list_options l_state l_per_page l_page pagination option_map].
    erewrite bind_inr;
      [|erewrite bind_inr by (apply githubRequest_inr; exact Hremote);
        unfold zparse; rewrite Hparse; reflexivity].
    rewrite Hfind.
    erewrite bind_inr by (apply githubRequest_inr; exact Hremote2).
    unfold zparse. rewrite Hparse2. reflexivity.
  - exact (find_by_number_first _ _ _ Hfind).
Qed.

(** X13.  For a project that is found (the listing holds its number and the
    fetch of the listed entry's [url] is answered with a project), an update
    takes three requests, the third being a [PATCH] with the options as body
    sent to the [url] of the fetched project, not of the listed entry, and
    returns the parsed answer.  Independently, a delete takes three
    requests, the third being a [DELETE] sent to that same [url], and
    returns nothing whatever the answer. *)
Theorem update_and_delete_address_the_fetched_project
    (owner repo : string) (projectNumber : Z) (st : State)
    (page projects listed answer project : value) (w1 w2 : World) :
  let fetch := {| url := to_text (get listed "url"); options := preview None None |} in
  let found := sent (sent st (firstPage owner repo) w1) fetch w2 in
  remote (firstPage owner repo) (world st) = (inr page, w1) ->
  parse (ZArray GitHubProjectSchema) page = Some projects ->
  find_by_number projects projectNumber = Some listed ->
  remote fetch w1 = (inr answer, w2) ->
  parse GitHubProjectSchema answer = Some project ->
  (forall (o patched updated : value) (w3 : World),
      let patch := {| url := to_text (get project "url");
                      options := preview (Some "PATCH") (Some o) |} in
      remote patch w2 = (inr patched, w3) ->
      parse GitHubProjectSchema patched = Some updated ->
      updateProject owner repo projectNumber o st = (inr updated, sent found patch w3))
  /\ (forall (deleted : value) (w3 : World),
      let delete := {| url := to_text (get project "url");
                       options := preview (Some "DELETE") None |} in
      remote delete w2 = (inr deleted, w3) ->
      deleteProject owner repo projectNumber st = (inr tt, sent found delete w3)).
Proof.
  intros fetch found Hremote Hparse Hfind Hremote2 Hparse2.
  pose proof (getProject_returns_fetched _ _ _ _ _ _ _ _ _ _ _
                Hremote Hparse Hfind Hremote2 Hparse2) as Hget.
  split.
  - intros o patched updated w3 patch Hpatch Hupdated.
    unfold updateProject. erewrite bind_inr by exact Hget.
    erewrite bind_inr by (apply githubRequest_inr; exact Hpatch).
    unfold zparse. rewrite Hupdated. reflexivity.
  - intros deleted w3 delete Hdelete.
    unfold deleteProject. erewrite bind_inr by exact Hget.
    erewrite bind_inr by (apply githubRequest_inr; exact Hdelete).
    reflexivity.
Qed.

(** X14.  Whatever a classic operation returns has passed the schema of its
    kind (project, column or card, or a list of them); the operations that
    delete or move return nothing. *)
Theorem classic_outputs_are_validated
    (op : classic_op) (st st' : State) (v : value) :
  run_classic op st = (inr v, st') ->
  match classic_output op with
  | Some s => passed s v
  | None => v = VUndefined
  end.
Proof.
  destruct op; cbn [run_classic classic_output]; intros H.
  all: try (revert H; apply (validated_returns _ _);
            first
              [ apply getProject_validated
              | unfold listProjects, createProject, updateProject, listProjectColumns,
                  createProjectColumn, updateProjectColumn, listProjectCards,
                  createProjectCard, updateProjectCard, listOrgProjects,
                  createOrgProject, getOrgProject, updateOrgProject,
                  listOrgProjectColumns, createOrgProjectColumn,
                  updateOrgProjectColumn, listOrgProjectCards, createOrgProjectCard,
                  updateOrgProjectCard;
                solve_validated ]).
  all: unfold void in H; apply bind_inr_inv in H;
    destruct H as (u & st1 & _ & H); inversion H; reflexivity.
Qed.

(** *** Counting round trips *)

Lemma at_most_quiet (n : nat) {A : Type} (m : M A) :
  quiet m -> dispatches_at_most n m.
Proof.
  intros H st. exists []. rewrite H, app_nil_r. split; [reflexivity|cbn; lia].
Qed.

Lemma at_most_weaken (n n' : nat) {A : Type} (m : M A) :
  (n <= n')%nat -> dispatches_at_most n m -> dispatches_at_most n' m.
Proof.
  intros Hle H st. destruct (H st) as (l & Ht & Hl). exists l. split; [exact Ht|lia].
Qed.

Lemma at_most_bind (n k : nat) {A B : Type} (m : M A) (f : A -> M B) :
  dispatches_at_most n m -> (forall a, dispatches_at_most k (f a)) ->
  dispatches_at_most (n + k) (bind m f).
Proof.
  intros Hm Hf st. unfold bind. destruct (Hm st) as (l & Ht & Hl).
  destruct (m st) as [[e|a] st1]; cbn [snd] in *.
  - exists l. split; [exact Ht|lia].
  - destruct (Hf a st1) as (l' & Ht' & Hl').
    exists (l ++ l')%list. rewrite Ht', Ht, app_assoc. split; [reflexivity|].
    rewrite length_app. lia.
Qed.

Lemma at_most_request u o : dispatches_at_most 1 (githubRequest u o).
Proof.
  intros st. exists [{| url := u; options := o |}].
  rewrite githubRequest_trace. split; [reflexivity|cbn; lia].
Qed.

(** One request, then nothing but parsing and returning. *)
Ltac one_request :=
  apply (at_most_bind 1 0); [apply at_most_request|];
  intros ?; apply at_most_quiet; solve [solve_quiet].

Lemma listProjects_at_most owner repo o :
  dispatches_at_most 1 (listProjects owner repo o).
Proof. unfold listProjects. one_request. Qed.

Lemma listOrgProjects_at_most org o :
  dispatches_at_most 1 (listOrgProjects org o).
Proof. unfold listOrgProjects. one_request. Qed.

Lemma getProject_at_most owner repo n :
  dispatches_at_most 2 (getProject owner repo n).
Proof.
  unfold getProject. apply (at_most_bind 1 1); [apply listProjects_at_most|].
  intros projects. destruct (find_by_number projects n).
  - one_request.
  - apply at_most_quiet. solve_quiet.
Qed.

Lemma getOrgProject_at_most org n :
  dispatches_at_most 2 (getOrgProject org n).
Proof.
  unfold getOrgProject. apply (at_most_bind 1 1); [apply listOrgProjects_at_most|].
  intros projects. destruct (find_by_number projects n).
  - one_request.
  - apply at_most_quiet. solve_quiet.
Qed.

(** X15.  No classic operation takes more than three round trips: one for the
    operations addressed by id, two for fetching a project by number, three
    for the operations that first fetch the project. *)
Theorem classic_operations_take_at_most_three_requests (op : classic_op) (st : State) :
  exists dispatched,
    trace (snd (run_classic op st)) = (trace st ++ dispatched)%list
    /\ (List.length dispatched <= 3)%nat.
Proof.
  revert st. change (dispatches_at_most 3 (run_classic op)).
  destruct op; cbn [run_classic]; unfold void.
  all: first
         [ apply (at_most_weaken 1 3); [lia|];
           first [ apply listProjects_at_most | apply listOrgProjects_at_most
                 | unfold createProject, updateProjectColumn, listProjectCards,
                     createProjectCard, updateProjectCard, createOrgProject,
                     updateOrgProjectColumn, listOrgProjectCards,
                     createOrgProjectCard, updateOrgProjectCard;
                   one_request
                 | apply (at_most_bind 1 0);
                   [ unfold deleteProjectColumn, deleteProjectCard, moveProjectCard,
                       deleteOrgProjectColumn, deleteOrgProjectCard,
                       moveOrgProjectCard;
                     one_request
                   | intros ?; apply at_most_quiet; solve [solve_quiet] ] ]
         | apply (at_most_weaken 2 3); [lia|];
           first [ apply getProject_at_most | apply getOrgProject_at_most ]
         | unfold updateProject, listProjectColumns, createProjectColumn,
             updateOrgProject, listOrgProjectColumns, createOrgProjectColumn;
           apply (at_most_bind 2 1);
           [ first [ apply getProject_at_most | apply getOrgProject_at_most ]
           | intros ?; one_request ]
         | apply (at_most_bind 3 0);
           [ unfold deleteProject, deleteOrgProject;
             apply (at_most_bind 2 1);
             [ first [ apply getProject_at_most | apply getOrgProject_at_most ]
             | intros ?; one_request ]
           | intros ?; apply at_most_quiet; solve [solve_quiet] ] ].
Qed.

End MoreClassic.

(** ** The project tools *)

Section MoreTools.
Context {E : Env}.

Lemma handler_catch_quiet (e : exn) : quiet (handler_catch e).
Proof.
  intros st. destruct (handler_catch_throws e st) as [e' H]. now rewrite H.
Qed.

(** X18.  Arguments that the tool's input schema refuses never reach the
    transport: the call throws, "Arguments are required" when the arguments
    are absent or otherwise falsy and else the "Invalid input" error built
    from the schema's issues, and leaves the trace, the remote and the
    console as they were. *)
Theorem project_tools_validate_before_dispatch
    (t : project_tool) (arguments : value) (st : State) :
  parse (input_schema t) arguments = None ->
  call_project_tool t arguments st
  = (inl (Error (if truthy arguments
                 then "Invalid input: "
                        ++ to_text (of_string_opt
                                      (JSON_stringify
                                         (zodIssues (input_schema t) arguments)))
                 else "Arguments are required")),
     st).
Proof.
  intros Hp. unfold call_project_tool, try_catch, tool_case, zparse.
  destruct (truthy arguments); cbn [negb]; [|reflexivity].
  rewrite Hp. reflexivity.
Qed.

(** X19.  The eight tools that delete or move answer, when they succeed, with
    the JSON text of [{ success: true }] as their only content. *)
Theorem confirming_tools_answer_success
    (t : project_tool) (arguments : value) (st st' : State) (result : value) :
  tool_output t = None ->
  call_project_tool t arguments st = (inr result, st') ->
  result = text_content (VStr SUCCESS_TEXT).
Proof.
  intros Hvoid Hcall. unfold call_project_tool, try_catch in Hcall.
  destruct (truthy arguments); cbn [negb] in Hcall.
  - destruct (tool_case t arguments st) as [[e|x] st1] eqn:Hrun.
    + destruct (handler_catch_throws e st1) as [e' He'].
      rewrite He' in Hcall. discriminate Hcall.
    + inversion Hcall; subst x st1. clear Hcall.
      unfold tool_case in Hrun.
      apply bind_inr_inv in Hrun. destruct Hrun as (args & st2 & _ & Hrun).
      destruct t; try discriminate Hvoid; cbn [tool_body] in Hrun;
        apply bind_inr_inv in Hrun; destruct Hrun as (u & st3 & _ & Hrun);
        inversion Hrun; reflexivity.
  - cbn in Hcall. discriminate Hcall.
Qed.

Lemma answers_json (s : schema) (m : M value) st result st' :
  validated s m ->
  bind m (fun v => ret (json_content v)) st = (inr result, st') ->
  exists v, passed s v /\ result = json_content v.
Proof.
  intros Hv H. apply bind_inr_inv in H. destruct H as (v & st1 & Hm & Hret).
  exists v. split; [exact (Hv _ _ _ Hm)|]. inversion Hret. reflexivity.
Qed.

(** X20.  The twenty tools that answer with a value answer, when they succeed,
    with the JSON text of a value that passed the output schema of the
    operation (project, column or card, or a list of them). *)
Theorem value_tools_answer_validated_json
    (t : project_tool) (s : schema) (arguments : value) (st st' : State)
    (result : value) :
  tool_output t = Some s ->
  call_project_tool t arguments st = (inr result, st') ->
  exists v, passed s v /\ result = text_content (of_string_opt (JSON_stringify2 v)).
Proof.
  intros Hout Hcall. unfold call_project_tool, try_catch in Hcall.
  destruct (truthy arguments); cbn [negb] in Hcall.
  - destruct (tool_case t arguments st) as [[e|x] st1] eqn:Hrun.
    + destruct (handler_catch_throws e st1) as [e' He'].
      rewrite He' in Hcall. discriminate Hcall.
    + inversion Hcall; subst x st1. clear Hcall.
      unfold tool_case in Hrun.
      apply bind_inr_inv in Hrun. destruct Hrun as (args & st2 & _ & Hrun).
      destruct t; try discriminate Hout; cbn [tool_output] in Hout;
        inversion Hout; subst s; cbn [tool_body] in Hrun; cbv zeta in Hrun;
        (eapply answers_json; [|exact Hrun]);
        first
          [ apply getProject_validated
          | unfold listProjects, createProject, updateProject, listProjectColumns,
              createProjectColumn, updateProjectColumn, listProjectCards,
              createProjectCard, updateProjectCard, listOrgProjects,
              createOrgProject, getOrgProject, updateOrgProject,
              listOrgProjectColumns, createOrgProjectColumn,
              updateOrgProjectColumn, listOrgProjectCards, createOrgProjectCard,
              updateOrgProjectCard;
            solve_validated ].
  - cbn in Hcall. discriminate Hcall.
Qed.

(** X21.  The position of a card move is one of three literal texts, the third
    being the text "after:<card_id>" itself: any other position, such as
    "after:42", is refused as invalid input and nothing is dispatched. *)
Theorem move_position_is_one_of_three_literals
    (org : bool) (props : list (string * value)) (position : string) (st : State) :
  prop props "position" = VStr position ->
  position <> "top" -> position <> "bottom" -> position <> "after:<card_id>" ->
  let t := if org then move_org_project_card else move_project_card in
  call_project_tool t (VObj props) st
  = (inl (Error ("Invalid input: "
                   ++ to_text (of_string_opt
                                 (JSON_stringify (zodIssues (input_schema t) (VObj props)))))),
     st).
Proof.
  intros Hpos Htop Hbottom Hafter t.
  assert (Henum : parse (ZEnum ["top"; "bottom"; "after:<card_id>"])
                    (prop props "position") = None).
  { rewrite Hpos. cbn [parse mem_string].
    destruct (String.eqb_spec position "top"); [contradiction|].
    destruct (String.eqb_spec position "bottom"); [contradiction|].
    destruct (String.eqb_spec position "after:<card_id>"); [contradiction|].
    reflexivity. }
  unfold call_project_tool, try_catch, tool_case, zparse. cbn [truthy negb].
  replace (parse (input_schema t) (VObj props)) with (@None value); [reflexivity|].
  symmetry. subst t. destruct org; cbn [input_schema];
    (eapply parse_object_refused; [|exact Henum]); cbn; intuition.
Qed.

(** *** What reaches the remote as a body *)

Lemma emits_request (P : Request -> Prop) u o :
  P {| url := u; options := o |} -> emits P (githubRequest u o).
Proof. intros H. apply emits_some_emits. now apply emits_some_request. Qed.

Lemma emits_try_catch (P : Request -> Prop) {A : Type} (m : M A) (h : exn -> M A) :
  emits P m -> (forall e, quiet (h e)) -> emits P (try_catch m h).
Proof.
  intros Hm Hh st. unfold try_catch. destruct (Hm st) as (l & Ht & Hl).
  destruct (m st) as [[e|a] st1]; cbn [snd] in *.
  - exists l. rewrite Hh. auto.
  - exists l. auto.
Qed.

(** As [emits_bind], knowing something about what [m] returns. *)
Lemma emits_bind_post (P : Request -> Prop) {A B : Type} (Q : A -> Prop)
    (m : M A) (k : A -> M B) :
  (forall st a st', m st = (inr a, st') -> Q a) ->
  emits P m -> (forall a, Q a -> emits P (k a)) -> emits P (bind m k).
Proof.
  intros HQ Hm Hk st. unfold bind. destruct (Hm st) as (l & Ht & Hl).
  destruct (m st) as [[e|a] st1] eqn:Hrun; cbn [snd] in *.
  - exists l. auto.
  - destruct (Hk a (HQ _ _ _ Hrun) st1) as (l' & Ht' & Hl').
    exists (l ++ l')%list. rewrite Ht', Ht, app_assoc. split; [reflexivity|].
    apply Forall_app. auto.
Qed.

(** A parsed object holds no key outside the shape. *)
Lemma parse_object_keys (shape : list (string * schema))
    (props : list (string * value)) (args : value) :
  parse (ZObject shape) (VObj props) = Some args ->
  exists out, args = VObj out
              /\ forall k, has_key k out = true -> In k (map fst shape).
Proof.
  revert args. induction shape as [|[k0 s0] shape IH]; intros args H.
  - cbn in H. inversion H. exists []. split; [reflexivity|]. discriminate.
  - cbn [parse] in H. cbn [parse] in IH.
    destruct (parse s0 (prop props k0)) as [x|]; [|discriminate H].
    match type of H with
    | option_map VObj match ?tail with _ => _ end = _ =>
        destruct tail as [out|] eqn:Htail; [|discriminate H]
    end.
    destruct (IH (VObj out) eq_refl) as (out' & Heq & Hkeys).
    inversion Heq; subst out'.
    destruct (negb (is_undefined x) || has_key k0 props); cbn in H; inversion H.
    + exists ((k0, x) :: out). split; [reflexivity|].
      intros k Hk. unfold has_key in Hk. cbn [assoc] in Hk. cbn [map fst].
      destruct (String.eqb_spec k k0); [left; congruence|right].
      apply Hkeys. exact Hk.
    + exists out. split; [reflexivity|]. intros k Hk. right. now apply Hkeys.
Qed.

(** The rest of a destructuring holds only keys of the object that were
    not named. *)
Lemma rest_keys (out : list (string * value)) (named : list string) (k : string) :
  has_key k (filter (fun kv => negb (mem_string (fst kv) named)) out) = true ->
  has_key k out = true /\ mem_string k named = false.
Proof.
  induction out as [|[k0 x] out IH]; cbn [filter fst]; [discriminate|].
  unfold has_key in *. cbn [assoc].
  destruct (mem_string k0 named) eqn:Hm; cbn [negb].
  - intros H. destruct (IH H) as [H1 H2]. split; [|exact H2].
    destruct (String.eqb k k0); [reflexivity|exact H1].
  - cbn [assoc]. destruct (String.eqb_spec k k0).
    + intros _. subst k0. auto.
    + exact IH.
Qed.

End MoreTools.

(** Walks an operation whose requests carry no body, or the body [o]
    known to be within the keys. *)
Ltac body_walk :=
  repeat first
    [ apply emits_request; first [ exact I | assumption ]
    | apply emits_bind; [|intros ?]
    | apply emits_quiet; solve [solve_quiet]
    | match goal with
      | |- emits _ (match ?x with _ => _ end) => destruct x
      end ].

(** Decides a key of the rest of parsed arguments: it is a key of the
    shape that was not named. *)
Ltac rest_key_cases :=
  match goal with
  | Hkeys : forall k, has_key k ?out = true -> In k _,
    Hk : has_key ?k (filter _ ?out) = true |- _ =>
      apply rest_keys in Hk; destruct Hk as [Hin Hnamed];
      apply Hkeys in Hin; cbv in Hin;
      repeat match type of Hin with
             | _ \/ _ => destruct Hin as [Hin|Hin]
             end;
      try contradiction; subst; cbn in Hnamed; try discriminate Hnamed;
      cbn; intuition
  end.

Section ToolBodies.
Context {E : Env}.

Lemma getProject_bodies keys owner repo n :
  emits (body_within keys) (getProject owner repo n).
Proof. unfold getProject, listProjects. body_walk. Qed.

Lemma getOrgProject_bodies keys org n :
  emits (body_within keys) (getOrgProject org n).
Proof. unfold getOrgProject, listOrgProjects. body_walk. Qed.

Lemma move_body_within position columnId u :
  body_within ["position"; "column_id"]
    {| url := u; options := preview (Some "POST") (Some (move_body position columnId)) |}.
Proof.
  unfold body_within, move_body. cbn [body options preview].
  intros k. unfold has_key.
  destruct (truthy columnId); cbn [app assoc];
    repeat match goal with
           | |- context [String.eqb k ?x] => destruct (String.eqb_spec k x); [subst k|]
           end; cbn; intuition discriminate.
Qed.

(** X22.  No tool hands its routing arguments or an unknown argument to the
    remote: every request a project tool dispatches has no body, or a body
    that is an object whose keys are option keys of the tool's input schema
    (for a move: [position] and [column_id]). *)
Theorem project_tools_send_only_option_keys
    (t : project_tool) (arguments : value) (st : State) :
  exists dispatched,
    trace (snd (call_project_tool t arguments st)) = (trace st ++ dispatched)%list
    /\ Forall (body_within (tool_body_keys t)) dispatched.
Proof.
  revert st. change (emits (body_within (tool_body_keys t)) (call_project_tool t arguments)).
  unfold call_project_tool. apply emits_try_catch; [|apply handler_catch_quiet].
  destruct (truthy arguments); cbn [negb]; [|apply emits_quiet; solve_quiet].
  unfold tool_case.
  apply emits_bind_post with (Q := fun args => passed (input_schema t) args).
  - intros st a st' H. exists arguments. exact (zparse_inr _ _ _ _ _ H).
  - apply emits_quiet. solve_quiet.
  - intros args [raw Hraw].
    destruct raw as [ | | | | | |props];
      try (destruct t; discriminate Hraw).
    assert (Hkeys : exists out,
               args = VObj out
               /\ forall k, has_key k out = true
                            -> In k (map fst match input_schema t with
                                             | ZObject shape => shape
                                             | _ => []
                                             end)).
    { destruct t; exact (parse_object_keys _ _ _ Hraw). }
    destruct Hkeys as (out & -> & Hkeys).
    destruct t; cbn [tool_body tool_body_keys input_schema] in *; cbv zeta;
      unfold listProjects, createProject, updateProject, deleteProject,
        listProjectColumns, createProjectColumn, updateProjectColumn,
        deleteProjectColumn, listProjectCards, createProjectCard, updateProjectCard,
        deleteProjectCard, moveProjectCard, listOrgProjects, createOrgProject,
        updateOrgProject, deleteOrgProject, listOrgProjectColumns,
        createOrgProjectColumn, updateOrgProjectColumn, deleteOrgProjectColumn,
        listOrgProjectCards, createOrgProjectCard, updateOrgProjectCard,
        deleteOrgProjectCard, moveOrgProjectCard;
      repeat first
        [ apply getProject_bodies
        | apply getOrgProject_bodies
        | apply emits_request;
          first [ exact I
                | apply move_body_within
                | (cbn [body_within body options preview rest];
                   intros k Hk; rest_key_cases) ]
        | apply emits_bind; [|intros ?]
        | apply emits_quiet; solve [solve_quiet]
        | match goal with
          | |- emits _ (match ?x with _ => _ end) => destruct x
          end ].
Qed.

End ToolBodies.

(** ** Results and card moves *)

Section MoreResults.
Context {E : Env}.

(** The keys of an object schema. *)
Lemma passed_object_keys (shape : list (string * schema)) (v : value) :
  passed (ZObject shape) v ->
  exists out, v = VObj out /\ forall k, has_key k out = true -> In k (map fst shape).
Proof.
  intros [raw H]. destruct raw as [ | | | | | |props]; try discriminate H.
  exact (parse_object_keys _ _ _ H).
Qed.

(** X16.  A project, column or card that a classic operation returns holds only
    keys of its schema: what else the remote put in its answer is dropped. *)
Theorem classic_results_hold_schema_keys_only
    (op : classic_op) (st st' : State) (v : value) :
  run_classic op st = (inr v, st') ->
  match classic_output op with
  | Some (ZObject shape) =>
      exists out, v = VObj out
                  /\ forall k, has_key k out = true -> In k (map fst shape)
  | _ => True
  end.
Proof.
  intros H.
  destruct op; cbn [classic_output]; try exact I;
    cbn [run_classic] in H;
    apply passed_object_keys; revert H; apply (validated_returns _ _);
    first
      [ apply getProject_validated
      | unfold createProject, updateProject, createProjectColumn, updateProjectColumn,
          createProjectCard, updateProjectCard, createOrgProject, getOrgProject,
          updateOrgProject, createOrgProjectColumn, updateOrgProjectColumn,
          createOrgProjectCard, updateOrgProjectCard;
        solve_validated ].
Qed.

(** X17.  A card move is one [POST] to the card's [moves] address, the same for
    a repository and an organization project: owner, repository,
    organization and project number play no part.  For a card id that is a
    safe integer the address holds its decimal digits.  The body holds the
    position, and the column only when it is truthy (so never column 0);
    whatever the remote answers counts as success. *)
Theorem card_move_request
    (owner repo org projectNumber projectNumber' : value) (cardId : Z)
    (position columnId : value) (st : State) (answer : value) (w : World) :
  let request :=
    {| url := "https://api.github.com/projects/cards/" ++ string_of_Z cardId ++ "/moves";
       options :=
         preview (Some "POST")
           (Some (VObj (("position", position)
                          :: if truthy columnId then [("column_id", columnId)] else []))) |} in
  safe_integer cardId = true ->
  remote request (world st) = (inr answer, w) ->
  moveProjectCard owner repo projectNumber (VNum cardId) position columnId st
  = (inr tt, sent st request w)
  /\ moveOrgProjectCard org projectNumber' (VNum cardId) position columnId st
     = (inr tt, sent st request w).
Proof.
  intros request _ Hremote.
  unfold moveProjectCard, moveOrgProjectCard, move_body. cbn [app to_text].
  erewrite !bind_inr by (apply githubRequest_inr; exact Hremote).
  split; reflexivity.
Qed.

End MoreResults.

(* ================================================================== *)
(** * More runs against the scripted remote *)

(** An organization that does not resolve. *)
Lemma resolver_outcome_witness :
  run_resolver (ResolveOrganization "acme")
    (start [data_response (VObj [("organization", VNull)])])
  = (inl (Error "Organization not found: acme"),
     sent (start [data_response (VObj [("organization", VNull)])]) (orgLookup "acme") []).
Proof.
  exact (@resolver_outcome scripted (ResolveOrganization "acme")
           (start [data_response (VObj [("organization", VNull)])])
           [("data", VObj [("organization", VNull)])]
           [("organization", VNull)] []
           eq_refl eq_refl (or_introl eq_refl)).
Defined.

(** A project id that names nothing. *)
Lemma getProjectV2_outcome_witness :
  fst (getProjectV2 "PVT_0" (start [data_response (VObj [("node", VNull)])]))
  = inl (Error "Project V2 with Node ID PVT_0 not found or not accessible.").
Proof.
  exact (f_equal fst
           (@getProjectV2_outcome scripted "PVT_0"
              (start [data_response (VObj [("node", VNull)])])
              [("data", VObj [("node", VNull)])] [("node", VNull)] []
              eq_refl eq_refl (or_introl eq_refl))).
Defined.

(** Listing the projects of an organization, and of a repository, that the
    remote answers with null; each on a remote of its own. *)
Lemma project_listings_throw_TypeError_on_missing_owner_witness :
  fst (listOrgProjectsV2 acmeProjects
         (start [data_response (VObj [("organization", VNull)])]))
  = inl (TypeError VNull "projectsV2")
  /\ fst (listRepoProjectsV2 siteProjects
            (start [data_response (VObj [("repository", VNull)])]))
     = inl (TypeError VNull "projectsV2").
Proof.
  split.
  - exact (f_equal fst
             (proj1 (@project_listings_throw_TypeError_on_missing_owner scripted)
                acmeProjects
                (start [data_response (VObj [("organization", VNull)])])
                [("data", VObj [("organization", VNull)])] [("organization", VNull)] []
                eq_refl eq_refl (or_introl eq_refl) eq_refl)).
  - exact (f_equal fst
             (proj2 (@project_listings_throw_TypeError_on_missing_owner scripted)
                siteProjects
                (start [data_response (VObj [("repository", VNull)])])
                [("data", VObj [("repository", VNull)])] [("repository", VNull)] []
                eq_refl eq_refl (or_introl eq_refl) eq_refl)).
Defined.

(** A new title is sent; the answer holds the project as the mutation
    selects it. *)
Lemma updateProjectV2_refuses_project_without_owner_witness :
  fst (updateProjectV2 retitle
         (start [data_response
                   (VObj [("updateProjectV2", VObj [("projectV2", updatedProjectV2)])])]))
  = inl (ZodError GitHubProjectV2Schema updatedProjectV2).
Proof.
  refine (f_equal fst
           (@updateProjectV2_refuses_project_without_owner scripted retitle
              (start [data_response
                        (VObj [("updateProjectV2",
                                VObj [("projectV2", updatedProjectV2)])])])
              [("data", VObj [("updateProjectV2", VObj [("projectV2", updatedProjectV2)])])]
              [("updateProjectV2", VObj [("projectV2", updatedProjectV2)])]
              [("projectV2", updatedProjectV2)] []
              _ eq_refl eq_refl (or_introl eq_refl) eq_refl eq_refl)).
  left. discriminate.
Defined.

(** Listings and a draft issue with no cursor and no body. *)
Lemma unset_optional_variables_are_not_transmitted_witness :
  trace (snd (listOrgProjectsV2 acmeProjects (start [])))
  = [graphql_request LIST_ORG_PROJECTS_V2_QUERY
       (VObj [("orgLogin", VStr "acme"); ("first", VNum 30)])]
  /\ trace (snd (addProjectDraftIssueV2 aDraft (start [])))
     = [graphql_request ADD_PROJECT_DRAFT_ISSUE_MUTATION
          (VObj [("projectId", VStr "PVT_1"); ("title", VStr "Write the docs")])].
Proof.
  destruct (@unset_optional_variables_are_not_transmitted scripted
              acmeProjects siteProjects firstPageOfProject aDraft (start [])
              eq_refl eq_refl eq_refl eq_refl) as (Horg & _ & _ & _ & Hdraft).
  split; [exact Horg|exact Hdraft].
Defined.

(** Adding an issue by id: the [item] of the answer comes back as it is,
    and a null payload is a [TypeError].  Deleting an item: a null payload
    comes back as the result. *)
Lemma item_mutation_returns_member_unchecked_witness :
  fst (run_item_mutation (AddItemById "PVT_1" "I_1")
         (start [data_response
                   (VObj [("addProjectV2ItemById",
                           VObj [("item", VObj [("id", VNum 5)])])])]))
  = inr (VObj [("id", VNum 5)])
  /\ fst (run_item_mutation (AddItemById "PVT_1" "I_1")
            (start [data_response (VObj [("addProjectV2ItemById", VNull)])]))
     = inl (TypeError VNull "item")
  /\ fst (run_item_mutation (DeleteItem "PVT_1" "PVTI_1")
            (start [data_response (VObj [("deleteProjectV2Item", VNull)])]))
     = inr VNull.
Proof.
  split; [|split].
  - exact (f_equal fst
             (@item_mutation_returns_member_unchecked scripted
                (AddItemById "PVT_1" "I_1")
                (start [data_response
                          (VObj [("addProjectV2ItemById",
                                  VObj [("item", VObj [("id", VNum 5)])])])])
                [("data", VObj [("addProjectV2ItemById",
                                 VObj [("item", VObj [("id", VNum 5)])])])]
                [("addProjectV2ItemById", VObj [("item", VObj [("id", VNum 5)])])]
                [] eq_refl eq_refl (or_introl eq_refl))).
  - exact (f_equal fst
             (@item_mutation_returns_member_unchecked scripted
                (AddItemById "PVT_1" "I_1")
                (start [data_response (VObj [("addProjectV2ItemById", VNull)])])
                [("data", VObj [("addProjectV2ItemById", VNull)])]
                [("addProjectV2ItemById", VNull)]
                [] eq_refl eq_refl (or_introl eq_refl))).
  - exact (f_equal fst
             (@item_mutation_returns_member_unchecked scripted
                (DeleteItem "PVT_1" "PVTI_1")
                (start [data_response (VObj [("deleteProjectV2Item", VNull)])])
                [("data", VObj [("deleteProjectV2Item", VNull)])]
                [("deleteProjectV2Item", VNull)]
                [] eq_refl eq_refl (or_introl eq_refl))).
Defined.

(** A project node without fields. *)
Lemma listProjectFieldsV2_outcome_witness :
  fst (listProjectFieldsV2 firstPageOfProject
         (start [data_response (VObj [("node", VObj [])])]))
  = inl (Error "Fields for Project V2 PVT_1 not found or project doesn't exist.").
Proof.
  exact (@listProjectFieldsV2_outcome scripted firstPageOfProject
           (start [data_response (VObj [("node", VObj [])])])
           [("data", VObj [("node", VObj [])])] [("node", VObj [])] []
           eq_refl eq_refl (or_introl eq_refl)).
Defined.

(** The items of a project, answered with all four page members. *)
Lemma listProjectItemsV2_outcome_witness :
  exists connection,
    fst (listProjectItemsV2 firstPageOfProject (start widenedItemsAnswer))
    = inr connection
    /\ get connection "totalCount" = VNum 1.
Proof.
  eexists. split.
  - exact (f_equal fst
             (@listProjectItemsV2_outcome scripted firstPageOfProject
                (start widenedItemsAnswer)
                [("data", VObj [("node", VObj [("items", widenedItems)])])]
                [("node", VObj [("items", widenedItems)])] []
                eq_refl eq_refl (or_introl eq_refl))).
  - reflexivity.
Defined.

(** A repository board created in three round trips. *)
Lemma createRepoProjectV2_succeeds_witness :
  let script :=
    [data_response (VObj [("repositoryOwner", VObj [("id", VStr "O_1")])]);
     data_response (VObj [("repository", VObj [("id", VStr "R_1")])]);
     data_response (VObj [("createProjectV2", VObj [("projectV2", aProjectV2)])])] in
  fst (createRepoProjectV2 acmeBoard (start script)) = inr aProjectV2
  /\ trace (snd (createRepoProjectV2 acmeBoard (start script)))
     = [ownerLookup "acme"; repoLookup "acme" "site";
        graphql_request CREATE_REPO_PROJECT_V2_MUTATION
          (VObj [("ownerId", VStr "O_1"); ("repositoryId", VStr "R_1");
                 ("title", VStr "Roadmap")])].
Proof.
  intros script.
  pose proof
    (@createRepoProjectV2_succeeds scripted acmeBoard (start script)
       [("data", VObj [("repositoryOwner", VObj [("id", VStr "O_1")])])]
       [("repositoryOwner", VObj [("id", VStr "O_1")])]
       [("id", VStr "O_1")]
       [("data", VObj [("repository", VObj [("id", VStr "R_1")])])]
       [("repository", VObj [("id", VStr "R_1")])]
       [("id", VStr "R_1")]
       [("data", VObj [("createProjectV2", VObj [("projectV2", aProjectV2)])])]
       [("createProjectV2", VObj [("projectV2", aProjectV2)])]
       [("projectV2", aProjectV2)]
       [data_response (VObj [("repository", VObj [("id", VStr "R_1")])]);
        data_response (VObj [("createProjectV2", VObj [("projectV2", aProjectV2)])])]
       [data_response (VObj [("createProjectV2", VObj [("projectV2", aProjectV2)])])]
       [] aProjectV2
       eq_refl eq_refl (or_introl eq_refl) eq_refl
       eq_refl eq_refl (or_introl eq_refl) eq_refl
       eq_refl eq_refl (or_introl eq_refl) eq_refl eq_refl) as H.
  split.
  - exact (f_equal fst H).
  - exact (f_equal (fun r => trace (snd r)) H).
Defined.

(** ** Classic projects and their columns *)

(** Columns of project 8, when the page holds project 7 only. *)
Lemma project_columns_need_the_project_witness :
  fst (listProjectColumns "acme" "site" 8 None None (start [inr (VArr [projectSeven])]))
  = inl (Error "Project number 8 not found in repository acme/site")
  /\ trace (snd (createProjectColumn "acme" "site" 8 (VObj [("name", VStr "Todo")])
                   (start [inr (VArr [projectSeven])])))
     = [{| url := "https://api.github.com/repos/acme/site/projects";
           options := preview None None |}].
Proof.
  destruct (@project_columns_need_the_project scripted
              "acme" "site" 8 None None (VObj [("name", VStr "Todo")])
              (start [inr (VArr [projectSeven])])
              (VArr [projectSeven]) (VArr [projectSeven]) []
              eq_refl eq_refl eq_refl) as (Hlist & Hcreate).
  split.
  - exact (f_equal fst Hlist).
  - exact (f_equal (fun r => trace (snd r)) Hcreate).
Defined.

(** Organization project 8, when the page holds project 7 only. *)
Lemma getOrgProject_scans_first_page_only_witness :
  fst (getOrgProject "acme" 8 (start [inr (VArr [projectSeven])]))
  = inl (Error "Project number 8 not found in organization acme")
  /\ trace (snd (deleteOrgProject "acme" 8 (start [inr (VArr [projectSeven])])))
     = [{| url := "https://api.github.com/orgs/acme/projects";
           options := preview None None |}].
Proof.
  destruct (@getOrgProject_scans_first_page_only scripted
              "acme" 8 None None (VObj []) (start [inr (VArr [projectSeven])])
              (VArr [projectSeven]) (VArr [projectSeven]) []
              eq_refl eq_refl eq_refl) as (Hget & _ & Hdelete & _).
  split.
  - exact (f_equal fst Hget).
  - exact (f_equal (fun r => trace (snd r)) Hdelete).
Defined.

(** Project 7 is on the page; the fetch answers with one more member than
    the schema names, which is dropped. *)
Lemma getProject_fetches_first_match_witness :
  getProject "acme" "site" 7 (start [inr (VArr [projectSeven]); inr projectSevenFetched])
  = (inr projectSeven,
     sent (sent (start [inr (VArr [projectSeven]); inr projectSevenFetched])
             (@firstPage scripted "acme" "site") [inr projectSevenFetched])
       {| url := "https://api.github.com/projects/1001"; options := preview None None |}
       []).
Proof.
  exact (proj1
           (@getProject_fetches_first_match scripted "acme" "site" 7
              (start [inr (VArr [projectSeven]); inr projectSevenFetched])
              (VArr [projectSeven]) (VArr [projectSeven]) projectSeven
              projectSevenFetched projectSeven
              [inr projectSevenFetched] []
              eq_refl eq_refl eq_refl eq_refl eq_refl)).
Defined.

(** Renaming project 7, and deleting it on a remote that answers the
    [DELETE] with no content. *)
Lemma update_and_delete_address_the_fetched_project_witness :
  trace (snd (updateProject "acme" "site" 7 (VObj [("name", VStr "Roadmap 2")])
                (start [inr (VArr [projectSeven]); inr projectSeven; inr projectSeven])))
  = [@firstPage scripted "acme" "site";
     {| url := "https://api.github.com/projects/1001"; options := preview None None |};
     {| url := "https://api.github.com/projects/1001";
        options := preview (Some "PATCH") (Some (VObj [("name", VStr "Roadmap 2")])) |}]
  /\ fst (deleteProject "acme" "site" 7
            (start [inr (VArr [projectSeven]); inr projectSeven; inr VNull]))
     = inr tt.
Proof.
  split.
  - exact (f_equal (fun r => trace (snd r))
             (proj1 (@update_and_delete_address_the_fetched_project scripted
                       "acme" "site" 7
                       (start [inr (VArr [projectSeven]); inr projectSeven;
                               inr projectSeven])
                       (VArr [projectSeven]) (VArr [projectSeven]) projectSeven
                       projectSeven projectSeven
                       [inr projectSeven; inr projectSeven] [inr projectSeven]
                       eq_refl eq_refl eq_refl eq_refl eq_refl)
                (VObj [("name", VStr "Roadmap 2")]) projectSeven projectSeven []
                eq_refl eq_refl)).
  - exact (f_equal fst
             (proj2 (@update_and_delete_address_the_fetched_project scripted
                       "acme" "site" 7
                       (start [inr (VArr [projectSeven]); inr projectSeven; inr VNull])
                       (VArr [projectSeven]) (VArr [projectSeven]) projectSeven
                       projectSeven projectSeven
                       [inr projectSeven; inr VNull] [inr VNull]
                       eq_refl eq_refl eq_refl eq_refl eq_refl)
                VNull [] eq_refl)).
Defined.

(** Fetching project 7: what comes back passed the project schema and
    holds its keys only. *)
Lemma classic_outputs_are_validated_witness :
  passed (E:=scripted) GitHubProjectSchema projectSeven.
Proof.
  exact (@classic_outputs_are_validated scripted (GetProject "acme" "site" 7)
           (start [inr (VArr [projectSeven]); inr projectSevenFetched])
           (snd (getProject "acme" "site" 7
                   (start [inr (VArr [projectSeven]); inr projectSevenFetched])))
           projectSeven eq_refl).
Defined.

Lemma classic_results_hold_schema_keys_only_witness :
  exists out, projectSeven = VObj out
              /\ forall k, has_key k out = true
                           -> In k ["id"; "node_id"; "url"; "html_url"; "columns_url";
                                    "name"; "body"; "number"; "state"; "creator";
                                    "created_at"; "updated_at"].
Proof.
  exact (@classic_results_hold_schema_keys_only scripted (GetProject "acme" "site" 7)
           (start [inr (VArr [projectSeven]); inr projectSevenFetched])
           (snd (getProject "acme" "site" 7
                   (start [inr (VArr [projectSeven]); inr projectSevenFetched])))
           projectSeven eq_refl).
Defined.

(** Moving card 42 to the top, no column given. *)
Lemma card_move_request_witness :
  moveProjectCard (VStr "acme") (VStr "site") (VNum 7) (VNum 42) (VStr "top") (VNum 0)
    (start [inr (VObj [])])
  = (inr tt,
     sent (start [inr (VObj [])])
       {| url := "https://api.github.com/projects/cards/42/moves";
          options := preview (Some "POST") (Some (VObj [("position", VStr "top")])) |}
       []).
Proof.
  exact (proj1
           (@card_move_request scripted
              (VStr "acme") (VStr "site") (VStr "acme") (VNum 7) (VNum 7)
              42 (VStr "top") (VNum 0)
              (start [inr (VObj [])]) (VObj []) [] eq_refl eq_refl)).
Defined.

(** ** Project tools *)

(** [get_project] without its project number: nothing is dispatched. *)
Lemma project_tools_validate_before_dispatch_witness :
  snd (call_project_tool get_project
         (VObj [("owner", VStr "acme"); ("repo", VStr "site")])
         (start [inr (VArr [projectSeven])]))
  = start [inr (VArr [projectSeven])].
Proof.
  exact (f_equal snd
           (@project_tools_validate_before_dispatch scripted get_project
              (VObj [("owner", VStr "acme"); ("repo", VStr "site")])
              (start [inr (VArr [projectSeven])]) eq_refl)).
Defined.

(** Deleting card 42. *)
Lemma confirming_tools_answer_success_witness :
  fst (call_project_tool delete_project_card deleteCardArguments (start [inr (VStr "")]))
  = inr (text_content (VStr SUCCESS_TEXT)).
Proof.
  refine (f_equal inr
            (@confirming_tools_answer_success scripted delete_project_card
               deleteCardArguments (start [inr (VStr "")])
               (snd (call_project_tool delete_project_card deleteCardArguments
                       (start [inr (VStr "")])))
               _ eq_refl eq_refl)).
Defined.

(** The [get_project] tool on project 7. *)
Lemma value_tools_answer_validated_json_witness :
  exists v,
    passed (E:=scripted) GitHubProjectSchema v
    /\ fst (call_project_tool get_project getProjectArguments
              (start [inr (VArr [projectSeven]); inr projectSevenFetched]))
       = inr (text_content (of_string_opt (JSON_stringify2 v))).
Proof.
  destruct (@value_tools_answer_validated_json scripted get_project GitHubProjectSchema
              getProjectArguments
              (start [inr (VArr [projectSeven]); inr projectSevenFetched])
              (snd (call_project_tool get_project getProjectArguments
                      (start [inr (VArr [projectSeven]); inr projectSevenFetched])))
              (json_content projectSeven)
              eq_refl eq_refl) as (v & Hv & Hresult).
  exists v. split; [exact Hv|].
  exact (f_equal inr Hresult).
Defined.

(** Moving card 42 after card 41. *)
Lemma move_position_is_one_of_three_literals_witness :
  snd (call_project_tool move_project_card (VObj moveAfterArguments) (start [inr (VObj [])]))
  = start [inr (VObj [])].
Proof.
  refine (f_equal snd
            (@move_position_is_one_of_three_literals scripted false
               moveAfterArguments "after:41" (start [inr (VObj [])])
               eq_refl _ _ _)); discriminate.
Defined.

(** ** [JSON.stringify] on small values *)

Example stringify_success :
  JSON_stringify2 (VObj [("success", VBool true)])
  = Some ("{" ++ newline ++ "  " ++ dquote ++ "success" ++ dquote ++ ": true"
              ++ newline ++ "}").
Proof. reflexivity. Qed.

Example stringify_compact :
  JSON_stringify (VObj [("a", VNum (-12)); ("b", VUndefined);
                        ("c", VArr [VUndefined; VStr "x"])])
  = Some ("{" ++ dquote ++ "a" ++ dquote ++ ":-12," ++ dquote ++ "c" ++ dquote
              ++ ":[null," ++ dquote ++ "x" ++ dquote ++ "]}").
Proof. reflexivity. Qed.
